(** * DVT report generator: data extraction, task results and template assembly

    A shallow embedding of the parts of [report_generator_agent] that the
    specification makes checkable statements about:

    - [doc_parsers.py]: [DocumentParser] (section tree, stop at appendices,
      prompt serialisation);
    - [excel_parsers.py]: [TestArticleParser], [CombinedExcelParser];
    - [ai_agents.py]: the generation tasks and their [TaskResult]s, the
      unique-DUT counter, the attribute table; the prompt builders of
      [ai_prompts.py] are parameters of the tasks;
    - [report_generator.py]: markdown table conversion and the placeholder
      assembler.

    Text is a list of characters.  The characters are the 7-bit ASCII ones:
    [upper], [lower], [isspace] and [isdigit] below are Python's on that range
    and leave every other character alone; a character outside that range
    stands as its UTF-8 bytes.  A Python [dict] is an association list in
    insertion order. *)

From Stdlib Require Import List Ascii String ZArith Lia Bool Arith PeanoNat.
From Stdlib Require Import Sorting.Sorted Sorting.Permutation.
From Stdlib Require Import Floats.SpecFloat.
From Stdlib Require Import Numbers.DecimalString Numbers.DecimalNat.
Import ListNotations.
Open Scope string_scope.
Open Scope list_scope.
Open Scope nat_scope.

Definition text := list ascii.
Coercion list_ascii_of_string : string >-> list.

(** ** Python strings *)

Module Py.

Definition eqc (a b : ascii) : bool := Ascii.eqb a b.

Fixpoint eqt (a b : text) : bool :=
  match a, b with
  | [], [] => true
  | x :: a', y :: b' => eqc x y && eqt a' b'
  | _, _ => false
  end.

(** [str.isspace] on one ASCII character: TAB, LF, VT, FF, CR, FS, GS, RS,
    US and the space. *)
Definition isspace (c : ascii) : bool :=
  let n := nat_of_ascii c in
  ((9 <=? n) && (n <=? 13)) || ((28 <=? n) && (n <=? 32)).

Definition isdigit_char (c : ascii) : bool :=
  let n := nat_of_ascii c in (48 <=? n) && (n <=? 57).

Definition upper_char (c : ascii) : ascii :=
  let n := nat_of_ascii c in
  if (97 <=? n) && (n <=? 122) then ascii_of_nat (n - 32) else c.

Definition lower_char (c : ascii) : ascii :=
  let n := nat_of_ascii c in
  if (65 <=? n) && (n <=? 90) then ascii_of_nat (n + 32) else c.

Definition upper (s : text) : text := map upper_char s.
Definition lower (s : text) : text := map lower_char s.

Fixpoint lstrip (s : text) : text :=
  match s with
  | c :: s' => if isspace c then lstrip s' else s
  | [] => []
  end.

Definition rstrip (s : text) : text := rev (lstrip (rev s)).
Definition strip (s : text) : text := rstrip (lstrip s).

(** [s.isdigit()]: at least one character and all of them digits. *)
Definition isdigit (s : text) : bool :=
  match s with
  | [] => false
  | _ => forallb isdigit_char s
  end.

Fixpoint startswith (p s : text) : bool :=
  match p, s with
  | [], _ => true
  | x :: p', y :: s' => eqc x y && startswith p' s'
  | _ :: _, [] => false
  end.

Definition endswith (p s : text) : bool := startswith (rev p) (rev s).

(** [sub in s] *)
Fixpoint contains (sub s : text) : bool :=
  match s with
  | [] => startswith sub []
  | _ :: s' => startswith sub s || contains sub s'
  end.

(** [c in s] for one character. *)
Definition has_char (c : ascii) (s : text) : bool := existsb (eqc c) s.

(** [s.count(c)] for one character. *)
Definition count_char (c : ascii) (s : text) : nat :=
  List.length (filter (eqc c) s).

(** [s.split(sep)] for a one-character separator: never the empty list. *)
Fixpoint split (sep : ascii) (s : text) : list text :=
  match s with
  | [] => [[]]
  | c :: s' =>
      if eqc c sep then [] :: split sep s'
      else match split sep s' with
           | p :: ps => (c :: p) :: ps
           | [] => [[c]]
           end
  end.

(** [sep.join(l)] *)
Fixpoint join (sep : text) (l : list text) : text :=
  match l with
  | [] => []
  | [x] => x
  | x :: l' => x ++ sep ++ join sep l'
  end.

Definition LF : ascii := ascii_of_nat 10.
Definition PIPE : ascii := ascii_of_nat 124.

Definition splitlines (s : text) : list text := split LF s.

(** [bool(s)]: a string is truthy when it is not empty. *)
Definition truthy (s : text) : bool :=
  match s with [] => false | _ => true end.

(** [any(k in s for k in keys)] *)
Definition any_in (keys : list text) (s : text) : bool :=
  existsb (fun k => contains k s) keys.

(** [s.replace(old, new)]: the occurrences of [old] from left to right,
    without overlap; [fuel] bounds the number of steps by the length. *)
Fixpoint replace_from (fuel : nat) (old new s : text) : text :=
  match fuel with
  | 0 => s
  | S fuel' =>
      match s with
      | [] => []
      | c :: s' =>
          if startswith old s
          then new ++ replace_from fuel' old new (skipn (List.length old) s)
          else c :: replace_from fuel' old new s'
      end
  end.

Definition replace (old new s : text) : text :=
  match old with
  | [] => new ++ List.concat (map (fun c => c :: new) s)
  | _ => replace_from (List.length s) old new s
  end.

(** A Python [set] of strings, kept as a duplicate-free list. *)
Definition set_add (x : text) (s : list text) : list text :=
  if existsb (eqt x) s then s else s ++ [x].

Definition isupper_char (c : ascii) : bool :=
  let n := nat_of_ascii c in (65 <=? n) && (n <=? 90).

Definition islower_char (c : ascii) : bool :=
  let n := nat_of_ascii c in (97 <=? n) && (n <=? 122).

(** [s.isupper()]: a cased character, and no lower-case one. *)
Definition isupper (s : text) : bool :=
  existsb isupper_char s && negb (existsb islower_char s).

(** [s.split()]: the runs of characters between white space; [word] is the
    run being read, last character first. *)
Fixpoint split_words (word s : text) : list text :=
  match s with
  | [] => match word with [] => [] | _ => [rev word] end
  | c :: s' =>
      if isspace c
      then match word with
           | [] => split_words [] s'
           | _ => rev word :: split_words [] s'
           end
      else split_words (c :: word) s'
  end.

Definition split_ws (s : text) : list text := split_words [] s.

(** [enumerate(l, start)] *)
Definition enumerate_from {A : Type} (start : nat) (l : list A)
  : list (nat * A) :=
  combine (seq start (List.length l)) l.

(** [bool(l)] for a list. *)
Definition nonempty {A : Type} (l : list A) : bool :=
  match l with [] => false | _ => true end.

End Py.

(** ** Python dictionaries, in insertion order *)

Module Dict.
Section Dict.
Context {V : Type}.

Definition dict := list (text * V).

(** [d[k] = v]: an existing key keeps its position. *)
Fixpoint set (k : text) (v : V) (d : list (text * V)) : list (text * V) :=
  match d with
  | [] => [(k, v)]
  | (k', v') :: d' =>
      if Py.eqt k k' then (k, v) :: d' else (k', v') :: set k v d'
  end.

(** [d.get(k)] *)
Fixpoint get (k : text) (d : list (text * V)) : option V :=
  match d with
  | [] => None
  | (k', v') :: d' => if Py.eqt k k' then Some v' else get k d'
  end.

Definition keys (d : list (text * V)) : list text := map fst d.
Definition values (d : list (text * V)) : list V := map snd d.
Definition mem (k : text) (d : list (text * V)) : bool :=
  match get k d with Some _ => true | None => false end.

End Dict.
Arguments dict V : clear implicits.
End Dict.

(** [str(n)] for a natural number. *)
Definition str_of_nat (n : nat) : text :=
  list_ascii_of_string (NilEmpty.string_of_uint (Nat.to_uint n)).

(** ** excel_parsers.py *)

Module Excel.

(** A cell value as the parsers use it: its truth value ([if cell_value])
    and its [str()].  [None] is [(false, "None")], the number 0 is
    [(false, "0")], a string is truthy when it is not empty. *)
Record cell_value := Cell { cell_truthy : bool; cell_repr : text }.

Definition none_cell : cell_value := Cell false "None".
Definition str_cell (s : text) : cell_value := Cell (Py.truthy s) s.

(** An openpyxl worksheet: [max_row], [max_column] and
    [cell(row=r, column=c).value], rows and columns counted from 1. *)
Record worksheet := Worksheet {
  max_row : nat;
  max_column : nat;
  cell : nat -> nat -> cell_value
}.

(** [str(cell_value).strip() if cell_value else ""] *)
Definition cell_text (v : cell_value) : text :=
  if cell_truthy v then Py.strip (cell_repr v) else [].

(** [str(cell_value).strip() if cell_value else f"Column{col}"] *)
Definition header_name (ws : worksheet) (col : nat) : text :=
  let v := cell ws 1 col in
  if cell_truthy v then Py.strip (cell_repr v) else "Column" ++ str_of_nat col.

(** [columns[col-1] if (col-1) < len(columns) else f"Column{col}"] *)
Definition column_name_at (columns : list text) (col : nat) : text :=
  match nth_error columns (col - 1) with
  | Some name => name
  | None => "Column" ++ str_of_nat col
  end.

Definition range (lo hi : nat) : list nat := seq lo (hi - lo).

End Excel.

Module TestArticleParser.
Import Excel.

(** [self.primary_key] as [__init__] sets it. *)
Definition initial_primary_key : text := "DUT Serial Number".

Record header_state := HeaderState {
  columns : list text;
  primary_key_col : option nat;
  primary_key : text
}.

(** One turn of the header loop of [_parse_test_article_sheet]. *)
Definition header_step (ws : worksheet) (st : header_state) (col : nat)
  : header_state :=
  let column_name := header_name ws col in
  let columns' := columns st ++ [column_name] in
  if Py.contains (Py.lower (primary_key st)) (Py.lower column_name)
     || Py.contains "dut serial" (Py.lower column_name)
  then HeaderState columns' (Some col) column_name
  else HeaderState columns' (primary_key_col st) (primary_key st).

Definition scan_header (self_primary_key : text) (ws : worksheet)
  : header_state :=
  fold_left (header_step ws) (range 1 (max_column ws + 1))
            (HeaderState [] None self_primary_key).

Definition record := Dict.dict text.

Record row_state := RowState {
  row_dict : record;
  primary_key_value : option text;
  has_data : bool;
  row_test_result_columns : list text
}.

(** One turn of the inner loop over the columns of a data row. *)
Definition cell_step (ws : worksheet) (cols : list text) (pk_col : nat)
    (row : nat) (st : row_state) (col : nat) : row_state :=
  let cell_str := cell_text (cell ws row col) in
  let column_name := column_name_at cols col in
  let row_dict' := Dict.set column_name cell_str (row_dict st) in
  let pkv := if col =? pk_col then Some cell_str else primary_key_value st in
  let trc :=
    if Py.startswith "test result" (Py.lower column_name)
       && negb (existsb (Py.eqt column_name) (row_test_result_columns st))
    then row_test_result_columns st ++ [column_name]
    else row_test_result_columns st in
  let hd := if Py.truthy cell_str then true else has_data st in
  RowState row_dict' pkv hd trc.

Definition scan_row (ws : worksheet) (cols : list text) (pk_col : nat)
    (trc : list text) (row : nat) : row_state :=
  fold_left (cell_step ws cols pk_col row) (range 1 (max_column ws + 1))
            (RowState [] None false trc).

(** [has_data and primary_key_value] *)
Definition keyed (st : row_state) : option text :=
  if has_data st then
    match primary_key_value st with
    | Some k => if Py.truthy k then Some k else None
    | None => None
    end
  else None.

(** One turn of the outer loop: the records and the result columns after
    a data row. *)
Definition row_step (ws : worksheet) (cols : list text) (pk_col : nat)
    (acc : Dict.dict record * list text) (row : nat)
  : Dict.dict record * list text :=
  let st := scan_row ws cols pk_col (snd acc) row in
  match keyed st with
  | Some k => (Dict.set k (row_dict st) (fst acc), row_test_result_columns st)
  | None => (fst acc, row_test_result_columns st)
  end.

Definition scan_rows (ws : worksheet) (cols : list text) (pk_col : nat)
  : Dict.dict record * list text :=
  fold_left (row_step ws cols pk_col) (range 2 (max_row ws + 1)) ([], []).

Record analysis := Analysis {
  test_method_losses : Z;
  total_tests_performed : Z;
  pass_count : Z;
  fail_count : Z;
  tml_count : Z;
  actual_sample_size : Z
}.

(** What [_analyze_test_results] returns: the message dictionary when there
    is no result column, the counters otherwise. *)
Inductive analysis_result :=
| NoResultColumns
| Stats (a : analysis).

(** [record.get(col, "").upper().strip()] *)
Definition result_of (rec : record) (col : text) : text :=
  Py.strip (Py.upper (match Dict.get col rec with Some v => v | None => [] end)).

Definition is_tml (result : text) : bool :=
  existsb (Py.eqt result) ["TML" : text; "TEST METHOD LOSS" : text].

(** One result cell: the counters and [unit_has_test_data] after it. *)
Definition result_step (rec : record) (st : analysis * bool) (col : text)
  : analysis * bool :=
  let a := fst st in
  let result := result_of rec col in
  if Py.truthy result then
    let a1 := Analysis (test_method_losses a) (total_tests_performed a + 1)
                       (pass_count a) (fail_count a) (tml_count a)
                       (actual_sample_size a) in
    let a2 :=
      if Py.eqt result "PASS" then
        Analysis (test_method_losses a1) (total_tests_performed a1)
                 (pass_count a1 + 1) (fail_count a1) (tml_count a1)
                 (actual_sample_size a1)
      else if Py.eqt result "FAIL" then
        Analysis (test_method_losses a1) (total_tests_performed a1)
                 (pass_count a1) (fail_count a1 + 1) (tml_count a1)
                 (actual_sample_size a1)
      else if is_tml result then
        Analysis (test_method_losses a1 + 1) (total_tests_performed a1)
                 (pass_count a1) (fail_count a1) (tml_count a1 + 1)
                 (actual_sample_size a1)
      else a1 in
    (a2, true)
  else st.

(** One record of [records.items()]. *)
Definition record_step (test_result_columns : list text) (a : analysis)
    (item : text * record) : analysis :=
  let st := fold_left (result_step (snd item)) test_result_columns (a, false) in
  let a' := fst st in
  if snd st then
    Analysis (test_method_losses a') (total_tests_performed a')
             (pass_count a') (fail_count a') (tml_count a')
             (actual_sample_size a' + 1)
  else a'.

Definition _analyze_test_results (records : Dict.dict record)
    (test_result_columns : list text) : analysis_result :=
  match test_result_columns with
  | [] => NoResultColumns
  | _ =>
      let a := fold_left (record_step test_result_columns) records
                         (Analysis 0 0 0 0 0 0) in
      Stats (Analysis (test_method_losses a) (total_tests_performed a)
                      (pass_count a) (fail_count a) (tml_count a)
                      (Z.of_nat (List.length records) - test_method_losses a))
  end.

Record sheet_data := SheetData {
  sheet_name : text;
  sd_primary_key : text;
  sd_columns : list text;
  total_units : nat;
  test_result_columns : list text;
  test_results_analysis : analysis_result;
  records : Dict.dict record
}.

(** [_parse_test_article_sheet]: [None] when the sheet has fewer than two
    rows or no primary-key column.  [self_primary_key] is [self.primary_key]
    on entry. *)
Definition _parse_test_article_sheet (self_primary_key : text)
    (ws : worksheet) (name : text) : option sheet_data :=
  if max_row ws <? 2 then None
  else
    let hs := scan_header self_primary_key ws in
    match primary_key_col hs with
    | None => None
    | Some pk_col =>
        let rs := scan_rows ws (columns hs) pk_col in
        let recs := fst rs in
        let trc := snd rs in
        Some (SheetData name (primary_key hs) (columns hs)
                        (List.length recs) trc
                        (_analyze_test_results recs trc) recs)
    end.

(** The column [_parse_test_article_sheet] takes the keys from. *)
Definition key_column (self_primary_key : text) (ws : worksheet)
  : option nat :=
  primary_key_col (scan_header self_primary_key ws).

End TestArticleParser.

(** ** excel_parsers.py: the sheet parsers and CombinedExcelParser *)

(** The outcome of a Python call: a value, or a raised exception with its
    message. *)
Inductive result (A : Type) :=
| Ok (a : A)
| Raise (e : text).
Arguments Ok {A} a.
Arguments Raise {A} e.

Definition bind {A B : Type} (r : result A) (k : A -> result B) : result B :=
  match r with
  | Ok a => k a
  | Raise e => Raise e
  end.

(** [try: body except Exception as e: handler(e)] *)
Definition try_except {A : Type} (body : result A) (handler : text -> A) : A :=
  match body with
  | Ok a => a
  | Raise e => handler e
  end.

Module Upload.
Import Excel.

(** What [openpyxl.load_workbook] makes of the bytes of a file: it raises
    on a corrupt workbook, or gives the sheets in workbook order. *)
Inductive load_result :=
| Corrupt (e : text)
| Workbook (sheets : list (text * worksheet)).

(** An uploaded file object as [parse_uploaded_file] sees it. *)
Inductive file_content :=
| NoInterface                 (* neither seek/read nor a file attribute *)
| ReadError (e : text)        (* seek or read raises *)
| Bytes (wb : load_result).

Record upload_file := UploadFile {
  filename : option text;     (* [getattr(data_file, 'filename', ...)] *)
  content : file_content
}.

Definition load_workbook (wb : load_result)
  : result (list (text * worksheet)) :=
  match wb with
  | Corrupt e => Raise e
  | Workbook sheets => Ok sheets
  end.

(** The first lines of [parse_uploaded_file]: the bytes of the file. *)
Definition read_content (f : upload_file) : result load_result :=
  match content f with
  | NoInterface => Raise "Unsupported file object type"
  | ReadError e => Raise e
  | Bytes wb => Ok wb
  end.

End Upload.

Module BaseExcelParser.
Import Excel Upload.

Record sheet_dict := SheetDict {
  columns : list text;
  row_count : nat;
  data : list (Dict.dict text);
  sheet_name : text
}.

Definition row_dict_of (ws : worksheet) (cols : list text) (row : nat)
  : Dict.dict text * bool :=
  fold_left
    (fun (st : Dict.dict text * bool) col =>
       let cell_str := cell_text (cell ws row col) in
       (Dict.set (column_name_at cols col) cell_str (fst st),
        if Py.truthy cell_str then true else snd st))
    (range 1 (max_column ws + 1)) ([], false).

(** [_parse_sheet_to_dict] *)
Definition _parse_sheet_to_dict (ws : worksheet) (name : text)
  : option sheet_dict :=
  if max_row ws <? 1 then None
  else
    let cols := map (header_name ws) (range 1 (max_column ws + 1)) in
    let rows :=
      fold_left
        (fun acc row =>
           let r := row_dict_of ws cols row in
           if snd r then acc ++ [fst r] else acc)
        (range 2 (max_row ws + 1)) [] in
    Some (SheetDict cols (List.length rows) rows name).

(** The loop the deviations, defective-unit and equipment parsers share:
    every sheet whose normalised name is a target sheet is parsed and stored
    under that name. *)
Definition parse_target_sheets (normalize : text -> text)
    (target_sheets : list text) (sheets : list (text * worksheet))
  : Dict.dict sheet_dict :=
  fold_left
    (fun results (sh : text * worksheet) =>
       let normalized_name := normalize (fst sh) in
       if existsb (Py.eqt normalized_name) target_sheets then
         match _parse_sheet_to_dict (snd sh) normalized_name with
         | Some sheet_data => Dict.set normalized_name sheet_data results
         | None => results
         end
       else results)
    sheets [].

(** [parse_excel_file] of those three parsers: the [except] around
    [load_workbook] and the loop returns what has been collected. *)
Definition parse_excel_file (normalize : text -> text)
    (target_sheets : list text) (wb : load_result) : Dict.dict sheet_dict :=
  try_except
    (bind (load_workbook wb)
          (fun sheets => Ok (parse_target_sheets normalize target_sheets sheets)))
    (fun _ => []).

(** [parse_uploaded_file]: any exception is printed and [{}] is returned. *)
Definition parse_uploaded_file {A : Type} (parse_excel_file : load_result -> A)
    (empty : A) (f : upload_file) : result A :=
  Ok (try_except
        (bind (read_content f) (fun wb => Ok (parse_excel_file wb)))
        (fun _ => empty)).

End BaseExcelParser.

Module DeviationsParser.

Definition target_sheets : list text :=
  ["DEVIATIONS" : text; "PROTOCOL DEVIATIONS" : text; "DEVIATION LOG" : text].

Definition _normalize_sheet_name (name : text) : text :=
  let sheet_upper := Py.strip (Py.upper name) in
  if existsb (Py.eqt sheet_upper) target_sheets then sheet_upper
  else if Py.contains "DEVIATION" sheet_upper then
    if Py.contains "PROTOCOL" sheet_upper then "PROTOCOL DEVIATIONS"
    else if Py.contains "LOG" sheet_upper then "DEVIATION LOG"
    else "DEVIATIONS"
  else name.

Definition parse_excel_file :=
  BaseExcelParser.parse_excel_file _normalize_sheet_name target_sheets.

End DeviationsParser.

Module DefectiveUnitsParser.

Definition target_sheets : list text :=
  ["DEFECTIVE UNITS" : text; "DEFECTIVE UNIT INVESTIGATIONS" : text;
   "FAILED UNITS" : text].

Definition _normalize_sheet_name (name : text) : text :=
  let sheet_upper := Py.strip (Py.upper name) in
  if existsb (Py.eqt sheet_upper) target_sheets then sheet_upper
  else if Py.contains "DEFECTIVE" sheet_upper && Py.contains "UNIT" sheet_upper
  then
    if Py.contains "INVESTIGATION" sheet_upper
    then "DEFECTIVE UNIT INVESTIGATIONS" else "DEFECTIVE UNITS"
  else if Py.contains "FAILED" sheet_upper && Py.contains "UNIT" sheet_upper
  then "FAILED UNITS"
  else name.

Definition parse_excel_file :=
  BaseExcelParser.parse_excel_file _normalize_sheet_name target_sheets.

End DefectiveUnitsParser.

Module EquipmentUsedParser.

Definition target_sheets : list text :=
  ["EQUIPMENT LOG" : text; "SOFTWARE LOG" : text; "MATERIAL LOG" : text].

Definition _normalize_sheet_name (name : text) : text :=
  let sheet_upper := Py.strip (Py.upper name) in
  if existsb (Py.eqt sheet_upper) target_sheets then sheet_upper
  else if Py.contains "EQUIPMENT" sheet_upper && Py.contains "LOG" sheet_upper
  then "EQUIPMENT LOG"
  else if Py.contains "SOFTWARE" sheet_upper && Py.contains "LOG" sheet_upper
  then "SOFTWARE LOG"
  else if Py.contains "MATERIAL" sheet_upper && Py.contains "LOG" sheet_upper
  then "MATERIAL LOG"
  else name.

Definition parse_excel_file :=
  BaseExcelParser.parse_excel_file _normalize_sheet_name target_sheets.

End EquipmentUsedParser.

Module TestArticleFile.
Import Excel Upload TestArticleParser.

Definition target_sheet_patterns : list text :=
  ["TEST ARTICLE LOG & TEST RESULTS" : text; "TEST ARTICLE LOG" : text;
   "TEST RESULTS" : text].

Definition _is_target_sheet (name : text) : bool :=
  let sheet_upper := Py.upper name in
  existsb (fun pattern => Py.contains (Py.upper pattern) sheet_upper)
          target_sheet_patterns.

(** [self.primary_key] after [_parse_test_article_sheet]. *)
Definition primary_key_after (self_primary_key : text) (ws : worksheet)
  : text :=
  if max_row ws <? 2 then self_primary_key
  else primary_key (scan_header self_primary_key ws).

(** [TestArticleParser.parse_excel_file]: the result and [self.primary_key]
    afterwards.  No target sheet, an unparsable sheet and a workbook that
    does not load all give [{}]. *)
Definition parse_excel_file (self_primary_key : text) (wb : load_result)
  : Dict.dict sheet_data * text :=
  try_except
    (bind (load_workbook wb)
       (fun sheets =>
          match find (fun sh : text * worksheet => _is_target_sheet (fst sh))
                     sheets with
          | None => Ok ([], self_primary_key)
          | Some (name, ws) =>
              let pk' := primary_key_after self_primary_key ws in
              match _parse_test_article_sheet self_primary_key ws name with
              | Some sheet_data => Ok ([("TEST_ARTICLE_DATA" : text, sheet_data)], pk')
              | None => Ok ([], pk')
              end
          end))
    (fun _ => ([], self_primary_key)).

End TestArticleFile.

Module CombinedExcelParser.
Import Excel Upload.

Record parsing_summary := ParsingSummary {
  files_processed : nat;
  sheets_found : list text;
  errors : list text
}.

Record all_results := AllResults {
  test_article_data : Dict.dict TestArticleParser.sheet_data;
  equipment_log_data : Dict.dict BaseExcelParser.sheet_dict;
  deviations_data : Dict.dict BaseExcelParser.sheet_dict;
  defective_units_data : Dict.dict BaseExcelParser.sheet_dict;
  summary : parsing_summary
}.

(** [d.update(other)] *)
Definition update {V : Type} (d other : Dict.dict V) : Dict.dict V :=
  fold_left (fun acc kv => Dict.set (fst kv) (snd kv) acc) other d.

Definition truthy_dict {V : Type} (d : Dict.dict V) : bool :=
  match d with [] => false | _ => true end.

(** The [try] block of the loop of [parse_all_excel_files] for one file:
    the four parsers in turn, each result merged when it is not empty. *)
Definition process_file (st : all_results * text) (f : upload_file)
  : result (all_results * text) :=
  let r := fst st in
  bind (BaseExcelParser.parse_uploaded_file
          (TestArticleFile.parse_excel_file (snd st)) ([], snd st) f)
    (fun test =>
  let test_results := fst test in
  let r1 :=
    if truthy_dict test_results then
      AllResults (update (test_article_data r) test_results)
                 (equipment_log_data r) (deviations_data r)
                 (defective_units_data r)
                 (ParsingSummary (files_processed (summary r))
                                 (sheets_found (summary r) ++ Dict.keys test_results)
                                 (errors (summary r)))
    else r in
  bind (BaseExcelParser.parse_uploaded_file
          EquipmentUsedParser.parse_excel_file [] f)
    (fun equipment_results =>
  let r2 :=
    if truthy_dict equipment_results then
      AllResults (test_article_data r1)
                 (update (equipment_log_data r1) equipment_results)
                 (deviations_data r1) (defective_units_data r1)
                 (ParsingSummary (files_processed (summary r1))
                                 (sheets_found (summary r1) ++ Dict.keys equipment_results)
                                 (errors (summary r1)))
    else r1 in
  bind (BaseExcelParser.parse_uploaded_file
          DeviationsParser.parse_excel_file [] f)
    (fun deviations_results =>
  let r3 :=
    if truthy_dict deviations_results then
      AllResults (test_article_data r2) (equipment_log_data r2)
                 (update (deviations_data r2) deviations_results)
                 (defective_units_data r2)
                 (ParsingSummary (files_processed (summary r2))
                                 (sheets_found (summary r2) ++ Dict.keys deviations_results)
                                 (errors (summary r2)))
    else r2 in
  bind (BaseExcelParser.parse_uploaded_file
          DefectiveUnitsParser.parse_excel_file [] f)
    (fun defective_results =>
  let r4 :=
    if truthy_dict defective_results then
      AllResults (test_article_data r3) (equipment_log_data r3)
                 (deviations_data r3)
                 (update (defective_units_data r3) defective_results)
                 (ParsingSummary (files_processed (summary r3))
                                 (sheets_found (summary r3) ++ Dict.keys defective_results)
                                 (errors (summary r3)))
    else r3 in
  Ok (AllResults (test_article_data r4) (equipment_log_data r4)
                 (deviations_data r4) (defective_units_data r4)
                 (ParsingSummary (files_processed (summary r4) + 1)
                                 (sheets_found (summary r4))
                                 (errors (summary r4))),
      snd test))))).

(** [getattr(data_file, 'filename', f'file_{i}')] *)
Definition display_name (i : nat) (f : upload_file) : text :=
  match filename f with
  | Some n => n
  | None => "file_" ++ str_of_nat i
  end.

(** One turn of the loop over [enumerate(data_files)]: a falsy entry is
    skipped; an exception of the [try] block is recorded in [errors]. *)
Definition file_step (st : all_results * text)
    (entry : nat * option upload_file) : all_results * text :=
  match snd entry with
  | None => st
  | Some f =>
      try_except (process_file st f)
        (fun e =>
           let r := fst st in
           let error_msg :=
             "Error processing " ++ display_name (fst entry) f ++ ": " ++ e in
           (AllResults (test_article_data r) (equipment_log_data r)
                       (deviations_data r) (defective_units_data r)
                       (ParsingSummary (files_processed (summary r))
                                       (sheets_found (summary r))
                                       (errors (summary r) ++ [error_msg])),
            snd st))
  end.

Definition empty_results : all_results :=
  AllResults [] [] [] [] (ParsingSummary 0 [] []).

Definition enumerate {A : Type} (l : list A) : list (nat * A) :=
  combine (seq 0 (List.length l)) l.

(** [parse_all_excel_files], from a fresh [CombinedExcelParser]. *)
Definition parse_all_excel_files (data_files : list (option upload_file))
  : all_results :=
  fst (fold_left file_step (enumerate data_files)
                 (empty_results, TestArticleParser.initial_primary_key)).

End CombinedExcelParser.

(** ** doc_parsers.py: DocumentParser *)

Module Re.

(** The longest prefix of [s] whose characters satisfy [p], and the rest. *)
Fixpoint span (p : ascii -> bool) (s : text) : text * text :=
  match s with
  | c :: s' => if p c then let r := span p s' in (c :: fst r, snd r)
               else ([], s)
  | [] => ([], [])
  end.

(** [^(\d+\.\d+)] at the start of [s]: the number and what follows it.
    The first run of digits is followed by the dot, so it is the longest one;
    the second is taken greedily. *)
Definition number_prefix (s : text) : option (text * text) :=
  let d1 := span Py.isdigit_char s in
  match fst d1, snd d1 with
  | _ :: _, dot :: r =>
      if Py.eqc dot "." then
        let d2 := span Py.isdigit_char r in
        match fst d2 with
        | _ :: _ => Some (fst d1 ++ ["."%char] ++ fst d2, snd d2)
        | [] => None
        end
      else None
  | _, _ => None
  end.

(** The tail of the three patterns, a group of any characters up to [$],
    against the whole of [r]: [.] stops at a line feed and [$] holds at the
    end of the string or before a line feed that ends it. *)
Definition rest_of_line (r : text) : bool :=
  let l := span (fun c => negb (Py.eqc c Py.LF)) r in
  match snd l with
  | [] => true
  | [_] => true
  | _ => false
  end.

(** [re.match] of the first pattern, number, white space, rest of line:
    groups 1 and 2, the second one trimmed. *)
Definition numbered_1 (s : text) : option (text * text) :=
  match number_prefix s with
  | Some (num, c :: r) =>
      if Py.isspace c then
        let rest := Py.lstrip r in
        if rest_of_line rest then Some (num, Py.strip rest) else None
      else None
  | _ => None
  end.

(** [re.match] of the second pattern: number, an optional dot, optional
    white space, rest of line. *)
Definition numbered_2 (s : text) : option (text * text) :=
  match number_prefix s with
  | Some (num, r) =>
      let r' := match r with
                | c :: r'' => if Py.eqc c "." then r'' else r
                | [] => r
                end in
      let rest := Py.lstrip r' in
      if rest_of_line rest then Some (num, Py.strip rest) else None
  | None => None
  end.

(** [re.match] of the third pattern: number, optional white space, a
    colon, optional white space, rest of line. *)
Definition numbered_3 (s : text) : option (text * text) :=
  match number_prefix s with
  | Some (num, r) =>
      match Py.lstrip r with
      | c :: r' =>
          if Py.eqc c ":" then
            let rest := Py.lstrip r' in
            if rest_of_line rest then Some (num, Py.strip rest) else None
          else None
      | [] => None
      end
  | None => None
  end.

(** [re.search(r'content_(\d+)', key)]: the digits of the leftmost match. *)
Fixpoint content_digits (key : text) : option text :=
  match key with
  | [] => None
  | _ :: key' =>
      if Py.startswith "content_" key then
        match fst (span Py.isdigit_char (skipn 8 key)) with
        | [] => content_digits key'
        | ds => Some ds
        end
      else content_digits key'
  end.

End Re.

(** [int(s)] for a string of decimal digits. *)
Definition digit_value (c : ascii) : Z := Z.of_nat (nat_of_ascii c - 48).

Definition int_of_digits (s : text) : Z :=
  fold_left (fun acc c => (10 * acc + digit_value c)%Z) s 0%Z.

(** [int(s)]: the strings this development meets are runs of decimal digits;
    any other string raises [ValueError] here. *)
Definition py_int (s : text) : result Z :=
  if Py.isdigit s then Ok (int_of_digits s)
  else Raise "invalid literal for int()".

Module DocumentParser.

(** A content item of a section: a text block, or a table as the list of
    its rows, each a dictionary from column header to cell text
    ([{"type": "table", "data": ...}]). *)
Inductive value :=
| VStr (t : text)
| VTable (data : list (Dict.dict text)).

(** An entry of [parsed_data]: the heading text of a sub-section that has no
    content yet, or a dictionary with an optional ["title"] and the
    [content_N] items. *)
Inductive section_data :=
| SText (t : text)
| SDict (d : Dict.dict value).

(** The elements of [doc.element.body]: a paragraph with its text, a table
    with the texts of its cells row by row, anything else. *)
Inductive element :=
| Paragraph (t : text)
| Table (rows : list (list text))
| OtherElement.

Record parser := Parser {
  parsed_data : Dict.dict section_data;
  current_section : option text;
  content_counter : Dict.dict nat;
  stop_parsing : bool
}.

Definition initial : parser := Parser [] None [] false.

Definition appendices_patterns : list text :=
  ["appendices" : text; "appendix" : text;
   map ascii_of_nat [233; 153; 132; 229; 189; 149];  (* the Chinese word, UTF-8 *)
   "attachments" : text].

Definition _should_stop_parsing (t : text) : bool :=
  let text_lower := Py.strip (Py.lower t) in
  if existsb (fun pattern =>
                Py.eqt text_lower pattern
                || Py.startswith (pattern ++ " ") text_lower
                || Py.startswith (pattern ++ ":") text_lower)
             appendices_patterns
  then true
  else if Py.any_in appendices_patterns text_lower
  then List.length (Py.strip t) <? 50
  else false.

Definition _is_main_section (section_num : text) : bool :=
  Py.endswith ".0" section_num.

Definition section_titles : list text :=
  ["Purpose" : text; "Scope" : text; "Background" : text;
   "Test Method Summary" : text; "References" : text; "Definitions" : text;
   "Responsibility" : text; "Materials" : text; "Equipment" : text;
   "General Instructions" : text; "Procedure" : text;
   "Acceptance Criteria" : text; "Device Under Test Configuration" : text;
   "Test Consumables" : text; "Test Method" : text; "Test Setup" : text;
   "Test Execution" : text; "Data Analysis" : text].

Definition section_mapping : list (text * Z) :=
  [("Purpose" : text, 1); ("Scope" : text, 2); ("Background" : text, 3);
   ("Test Method Summary" : text, 4); ("References" : text, 5);
   ("Definitions" : text, 6); ("Responsibility" : text, 7);
   ("Materials" : text, 8); ("Device Under Test Configuration" : text, 9);
   ("Test Consumables" : text, 10); ("Equipment" : text, 11);
   ("General Instructions" : text, 12); ("Procedure" : text, 13);
   ("Test Method" : text, 14); ("Test Setup" : text, 15);
   ("Test Execution" : text, 16); ("Data Analysis" : text, 17);
   ("Acceptance Criteria" : text, 18)]%Z.

Section Hash.
(** Python's [hash] on strings: it differs from run to run. *)
Variable py_hash : text -> Z.

Definition _get_section_index (section_title : text) : Z :=
  let title_lower := Py.lower section_title in
  match find (fun kv : text * Z => Py.contains (Py.lower (fst kv)) title_lower)
             section_mapping with
  | Some kv => snd kv
  | None => (Z.abs (py_hash section_title) mod 100 + 20)%Z
  end.

Definition _extract_section_number (t : text) : option (text * text) :=
  match Re.numbered_1 t with
  | Some m => Some m
  | None =>
  match Re.numbered_2 t with
  | Some m => Some m
  | None =>
  match Re.numbered_3 t with
  | Some m => Some m
  | None =>
      let text_clean := Py.strip t in
      if (List.length text_clean <? 100)
         && existsb (fun title =>
                       Py.contains (Py.lower title) (Py.lower text_clean))
                    section_titles
      then
        let section_index := _get_section_index text_clean in
        Some (str_of_nat (Z.to_nat section_index) ++ ".0", text_clean)
      else None
  end end end.

(** [_add_content_to_section]; [self.content_counter[section_num] += 1]
    raises [KeyError] when the section has no counter. *)
Definition _add_content_to_section (st : parser) (section_num : text)
    (content : value) : result parser :=
  let pd0 := parsed_data st in
  let pd1 := if Dict.mem section_num pd0 then pd0
             else Dict.set section_num (SDict []) pd0 in
  let '(pd2, cc2) :=
    match Dict.get section_num pd1 with
    | Some (SText original_text) =>
        (Dict.set section_num (SDict [("content_1" : text, VStr original_text)]) pd1,
         Dict.set section_num 1 (content_counter st))
    | _ => (pd1, content_counter st)
    end in
  match Dict.get section_num cc2 with
  | None => Raise "KeyError"
  | Some n =>
      let cc3 := Dict.set section_num (n + 1) cc2 in
      let content_key := "content_" ++ str_of_nat (n + 1) in
      match Dict.get section_num pd2 with
      | Some (SDict d) =>
          Ok (Parser (Dict.set section_num (SDict (Dict.set content_key content d)) pd2)
                     (current_section st) cc3 (stop_parsing st))
      | _ => Raise "TypeError"
      end
  end.

Definition _process_paragraph (st : parser) (paragraph_text : text)
  : result parser :=
  let t := Py.strip paragraph_text in
  if negb (Py.truthy t) then Ok st
  else if _should_stop_parsing t then
    Ok (Parser (parsed_data st) (current_section st) (content_counter st) true)
  else
    match _extract_section_number t with
    | Some (section_num, title) =>
        if _is_main_section section_num then
          Ok (Parser (Dict.set section_num (SDict [("title" : text, VStr title)])
                               (parsed_data st))
                     (Some section_num)
                     (Dict.set section_num 0 (content_counter st))
                     (stop_parsing st))
        else
          Ok (Parser (Dict.set section_num (SText t) (parsed_data st))
                     (Some section_num)
                     (Dict.set section_num 0 (content_counter st))
                     (stop_parsing st))
    | None =>
        match current_section st with
        | Some cur =>
            if Py.truthy cur then _add_content_to_section st cur (VStr t)
            else Ok st
        | None => Ok st
        end
    end.

(** The rows of a table as dictionaries keyed by the trimmed header cells;
    a cell beyond the headers goes under [Column_<i+1>]. *)
Definition table_rows (rows : list (list text)) : list (Dict.dict text) :=
  match rows with
  | [] => []
  | first_row :: data_rows =>
      let headers := map Py.strip first_row in
      map (fun row =>
             fold_left
               (fun row_data (ic : nat * text) =>
                  let header :=
                    match nth_error headers (fst ic) with
                    | Some h => h
                    | None => "Column_" ++ str_of_nat (fst ic + 1)
                    end in
                  Dict.set header (Py.strip (snd ic)) row_data)
               (combine (seq 0 (List.length row)) row) [])
          data_rows
  end.

Definition _process_table (st : parser) (rows : list (list text))
  : result parser :=
  match current_section st with
  | Some cur =>
      if Py.truthy cur
      then _add_content_to_section st cur (VTable (table_rows rows))
      else Ok st
  | None => Ok st
  end.

(** One turn of the loop over the body elements, after the
    [if self.stop_parsing: break] test. *)
Definition process_element (st : parser) (e : element) : result parser :=
  match e with
  | Paragraph t => _process_paragraph st t
  | Table rows => _process_table st rows
  | OtherElement => Ok st
  end.

(** The loop of [parse_document]: it is left as soon as [stop_parsing] is
    set. *)
Fixpoint parse_elements (st : parser) (body : list element) : result parser :=
  match body with
  | [] => Ok st
  | e :: body' =>
      if stop_parsing st then Ok st
      else bind (process_element st e) (fun st' => parse_elements st' body')
  end.

(** [parse_document] on a document that loads: the section tree. *)
Definition parse_document (body : list element)
  : result (Dict.dict section_data) :=
  bind (parse_elements initial body) (fun st => Ok (parsed_data st)).

End Hash.

End DocumentParser.

(** [sorted(l, key=...)]: a stable sort of the decorated list. *)
Module PySort.
Section Sort.
Context {K A : Type}.
Variable le : K -> K -> bool.

Fixpoint insert (x : K * A) (l : list (K * A)) : list (K * A) :=
  match l with
  | [] => [x]
  | y :: l' => if le (fst x) (fst y) then x :: l else y :: insert x l'
  end.

Definition sort (l : list (K * A)) : list (K * A) := fold_right insert [] l.

(** The keys of all the elements, left to right; the first exception ends
    it. *)
Fixpoint decorate (key : A -> result K) (l : list A) : result (list (K * A)) :=
  match l with
  | [] => Ok []
  | x :: l' =>
      bind (key x) (fun k => bind (decorate key l') (fun r => Ok ((k, x) :: r)))
  end.

End Sort.
End PySort.

Module Prompt.
Import DocumentParser.

(** [(int(parts[0]), int(parts[1]))] of [section_num.split('.')] *)
Definition _sort_section_key (section_num : text) : result (Z * Z) :=
  match Py.split "." section_num with
  | p0 :: p1 :: _ =>
      bind (py_int p0) (fun major =>
      bind (py_int p1) (fun minor => Ok (major, minor)))
  | _ => Raise "IndexError"
  end.

(** Python's order on pairs of integers. *)
Definition pair_le (a b : Z * Z) : bool :=
  (fst a <? fst b)%Z || ((fst a =? fst b)%Z && (snd a <=? snd b)%Z).

Definition _extract_content_number (content_key : text) : Z :=
  match Re.content_digits content_key with
  | Some ds => int_of_digits ds
  | None => 0%Z
  end.

Definition table_heading : text :=
  map ascii_of_nat [35; 35; 35; 32; 232; 161; 168; 230; 160; 188; 229; 134;
                    133; 229; 174; 185; 58; 10].
Definition row_word : text := map ascii_of_nat [232; 161; 140].
Definition total_open : text := map ascii_of_nat [46; 46; 46; 32; 40; 229; 133; 177].
Definition total_close : text :=
  map ascii_of_nat [232; 161; 140; 230; 149; 176; 230; 141; 174; 41; 10].
Definition empty_table : text :=
  map ascii_of_nat [35; 35; 35; 32; 231; 169; 186; 232; 161; 168; 230; 160;
                    188; 10].

Section Repr.
(** [str] of a row dictionary and of a table item, as f-strings print
    them. *)
Variable repr_row : Dict.dict text -> text.
Variable repr_table : list (Dict.dict text) -> text.

Definition format_value (v : value) : text :=
  match v with
  | VStr t => t
  | VTable data => repr_table data
  end.

Definition _format_content_item (key : text) (v : value) : text :=
  match v with
  | VTable table_data =>
      match table_data with
      | [] => empty_table
      | _ =>
          let shown :=
            map (fun ir : nat * Dict.dict text =>
                   row_word ++ str_of_nat (fst ir + 1) ++ ": "
                   ++ repr_row (snd ir) ++ [Py.LF])
                (combine (seq 0 3) (firstn 3 table_data)) in
          table_heading ++ List.concat shown
          ++ (if 3 <? List.length table_data
              then total_open ++ str_of_nat (List.length table_data) ++ total_close
              else [])
      end
  | VStr t => t ++ [Py.LF]
  end.

(** [content_items.sort(key=lambda x: self._extract_content_number(x[0]))] *)
Definition sorted_items (items : Dict.dict value) : list (text * value) :=
  map snd (PySort.sort Z.leb
             (map (fun kv : text * value => (_extract_content_number (fst kv), kv))
                  items)).

(** What one section adds to [formatted_sections]. *)
Definition format_section (section : text * section_data) : list text :=
  let section_num := fst section in
  match snd section with
  | SText t => ["## " ++ section_num ++ [Py.LF] ++ t ++ [Py.LF]]
  | SDict d =>
      match Dict.get "title" d with
      | Some title =>
          ("## " ++ section_num ++ ": " ++ format_value title ++ [Py.LF])
          :: map (fun kv => _format_content_item (fst kv) (snd kv))
                 (sorted_items
                    (filter (fun kv : text * value => negb (Py.eqt (fst kv) "title")) d))
      | None =>
          ("## " ++ section_num ++ [Py.LF])
          :: map (fun kv => _format_content_item (fst kv) (snd kv))
                 (sorted_items d)
      end
  end.

(** The sections in the order [format_for_ai_prompt] visits them:
    [sorted(self.parsed_data.keys(), key=self._sort_section_key)]. *)
Definition sorted_sections (pd : Dict.dict section_data)
  : result (list ((Z * Z) * (text * section_data))) :=
  bind (PySort.decorate (fun kv : text * section_data => _sort_section_key (fst kv)) pd)
       (fun keyed => Ok (PySort.sort pair_le keyed)).

Definition format_for_ai_prompt (pd : Dict.dict section_data) : result text :=
  bind (sorted_sections pd)
       (fun ordered =>
          Ok (Py.join [Py.LF] (flat_map format_section (map snd ordered)))).

End Repr.

End Prompt.

(** ** report_generator.py: markdown tables *)

Module Markdown.

(** A table of the output document: its number of columns and the texts of
    its cells, row by row (fonts and colours are left out). *)
Record word_table := WordTable {
  table_cols : nat;
  table_rows : list (list text)
}.

(** [l[1:-1]] *)
Definition slice_inner {A : Type} (l : list A) : list A := removelast (tl l).

(** [[cell.strip() for cell in line.split('|')[1:-1]]] *)
Definition row_cells (line : text) : list text :=
  map Py.strip (slice_inner (Py.split Py.PIPE line)).

(** [line.strip().startswith('|') and line.strip().endswith('|')] *)
Definition is_table_line (line : text) : bool :=
  Py.startswith "|" (Py.strip line) && Py.endswith "|" (Py.strip line).

(** A row of [cols] cells: the cells of a fresh row are empty and cell [j]
    takes [row_data[j]] when [j < len(row_cells)]. *)
Definition fill_row (cols : nat) (row_data : list text) : list text :=
  firstn cols row_data ++ repeat [] (cols - List.length row_data).

(** [convert_markdown_table_to_word]: the table, or [None]. *)
Definition convert_markdown_table_to_word (table_text : text)
  : option word_table :=
  let lines := Py.splitlines (Py.strip table_text) in
  if List.length lines <? 2 then None
  else
    let table_lines := map Py.strip (filter is_table_line lines) in
    if List.length table_lines <? 2 then None
    else
      let header_row := row_cells (nth 0 table_lines []) in
      let data_rows :=
        map row_cells
            (filter (fun line => negb (Py.contains "---" line))
                    (skipn 2 table_lines)) in
      match header_row with
      | [] => None
      | _ =>
          let cols := List.length header_row in
          Some (WordTable cols
                  (fill_row cols header_row :: map (fill_row cols) data_rows))
      end.

Definition contains_markdown_table (t : text) : bool :=
  let lines := Py.splitlines t in
  let table_lines := filter (Py.has_char Py.PIPE) lines in
  let separator_lines :=
    filter (fun line => Py.contains "---" line || Py.contains "|-" line) lines in
  (2 <=? List.length table_lines) && (1 <=? List.length separator_lines).

Definition extract_non_table_text (t : text) : text :=
  let lines := Py.splitlines t in
  Py.join [Py.LF]
    (filter (fun line =>
               negb (Py.has_char Py.PIPE line
                     && (Py.contains "---" line
                         || (2 <=? Py.count_char Py.PIPE line)))
               && Py.truthy (Py.strip line))
            lines).

(** ai_agents.py, [TestResultSummaryAgent._format_word_table]: the markdown
    the test-result summary is generated in. *)
Definition _format_word_table (headers : list text) (rows : list (list text))
  : text :=
  let header_row := "| " ++ Py.join " | " headers ++ " |" ++ [Py.LF] in
  let separator_row :=
    "|" ++ Py.join "|" (map (fun _ => " --- " : text) headers) ++ "|" ++ [Py.LF] in
  [Py.LF] ++ header_row ++ separator_row
  ++ List.concat (map (fun row => "| " ++ Py.join " | " row ++ " |" ++ [Py.LF]) rows)
  ++ [Py.LF].

End Markdown.

(** The specification's reading of a markdown table block. *)
Module MarkdownSpec.

(** [sep] does not occur in [s]. *)
Definition free_of (sep : ascii) (s : text) : bool :=
  forallb (fun c => negb (Py.eqc c sep)) s.

(** A pipe-delimited line: every cell between two pipes. *)
Definition md_row (cells : list text) : text :=
  List.concat (map (cons Py.PIPE) cells) ++ [Py.PIPE].

(** The text of a cell holds neither a pipe nor a line feed. *)
Definition cell_ok (c : text) : bool :=
  forallb (fun ch => negb (Py.eqc ch Py.PIPE) && negb (Py.eqc ch Py.LF)) c.

Definition row_ok (cells : list text) : bool := forallb cell_ok cells.

(** A line is a separator for the detection when it holds three dashes or a
    pipe followed by a dash. *)
Definition separator_ok (cells : list text) : bool :=
  row_ok cells
  && (Py.contains "---" (md_row cells) || Py.contains "|-" (md_row cells)).

(** Header row, separator row and data rows, one per line. *)
Definition md_table (header separator : list text) (data : list (list text))
  : text :=
  Py.join [Py.LF] (md_row header :: md_row separator :: map md_row data).

(** The block between blank lines: each line of [before] and [after] is
    white space only. *)
Definition padded (before after : list text) (block : text) : text :=
  List.concat (map (fun l => l ++ [Py.LF]) before) ++ block
  ++ List.concat (map (cons Py.LF) after).

Definition blank (l : text) : bool := forallb Py.isspace l.

(** The data rows the conversion keeps: those whose line holds no run of
    three dashes. *)
Definition kept (data : list (list text)) : list (list text) :=
  filter (fun row => negb (Py.contains "---" (md_row row))) data.

End MarkdownSpec.

(** ** report_generator.py: the template assembler *)

Module TemplateAssembler.
Import Markdown.

(** [d.get(k, "")] *)
Definition get_or_empty (k : text) (d : Dict.dict text) : text :=
  match Dict.get k d with
  | Some v => v
  | None => []
  end.

(** [self.placeholder_mapping], in the order of the dictionary. *)
Definition placeholder_mapping : list (text * text) :=
  [("[BK_PURPOSE_TEXT]" : text, "task_4_1_purpose" : text);
   ("[BK_SCOPE_TEXT]" : text, "task_4_1_scope" : text);
   ("[BK_REFERENCES]" : text, "task_4_2" : text);
   ("[BK_ACRONYMS]" : text, "task_4_3" : text);
   ("[BK_DEFINITIONS]" : text, "task_4_3" : text);
   ("[BK_PROCEDURE_SUMMARY]" : text, "task_4_4" : text);
   ("[BK_DUT_CONFIG]" : text, "task_4_5" : text);
   ("[BK_TEST_EXECUTION_CHRONOLOGY]" : text, "test_execution_chronology" : text);
   ("[BK_CONSUMABLES_USED]" : text, "task_4_6" : text);
   ("[BK_TEST_RESULT_SUMMARY]" : text, "task_4_7" : text);
   ("[BK_TEST_RESULT_ANALYSIS]" : text, "test_result_analysis_images" : text);
   ("[BK_TEST_METHOD_LOSS_INVESTIGATIONS]" : text, "test_method_losses" : text);
   ("[BK_PROTOCOL_DEVIATIONS]" : text, "protocol_deviations" : text);
   ("[BK_DEFECTIVE_UNIT]" : text, "defective_unit_investigations" : text);
   ("[BK_CONCLUSION]" : text, "conclusion" : text);
   ("[BK_ATTACHMENTS]" : text, "attachments" : text)].

(** [placeholder.replace('[', '').replace(']', '')] *)
Definition content_key_clean (placeholder : text) : text :=
  Py.replace "]" [] (Py.replace "[" [] placeholder).

(** The regular-expression searches of [extract_content_sections]: each gives
    [match.group(1).strip()], or [None] when the pattern is not found. *)
Record searches := Searches {
  purpose_content : text -> option text;
  purpose_old : text -> option text;
  scope_content : text -> option text;
  scope_old : text -> option text;
  acronyms_content : text -> option text;
  acronyms_old : text -> option text;
  definitions_content : text -> option text;
  definitions_old : text -> option text;
  consumables : text -> option text
}.

(** The lines before the first line that names the scope. *)
Fixpoint purpose_lines (lines : list text) : list text :=
  match lines with
  | [] => []
  | line :: rest =>
      if Py.truthy (Py.strip line) && negb (Py.contains "SCOPE" (Py.upper line))
         && negb (Py.contains "PURPOSE_CONTENT:" line)
      then line :: purpose_lines rest
      else if Py.contains "SCOPE" (Py.upper line) then []
      else purpose_lines rest
  end.

(** The non-blank lines after a line that names [keyword]. *)
Fixpoint lines_after (keyword : text) (found : bool) (lines : list text)
  : list text :=
  match lines with
  | [] => []
  | line :: rest =>
      if Py.contains keyword (Py.upper line) then lines_after keyword true rest
      else if found && Py.truthy (Py.strip line)
      then line :: lines_after keyword found rest
      else lines_after keyword found rest
  end.

Section Assembler.
Variable re : searches.
(** [clean_markdown_content], a cascade of [re.sub]. *)
Variable clean_markdown_content : text -> text.
(** The text of a paragraph after [insert_analysis_images]: it depends on the
    image files. *)
Variable images_text : text -> text -> text.
(** [create_intro_content]: it holds the time of the call. *)
Variable intro_content : text.

Definition join_lines (lines : list text) : option text :=
  match lines with
  | [] => None
  | _ => Some (clean_markdown_content (Py.join [Py.LF] lines))
  end.

(** The branch of [extract_content_sections] for one placeholder: the key
    and the value it stores in [content_mapping], if any.  There is no
    branch for the conclusion and the attachments list. *)
Definition extract_one (placeholder section_content : text)
  : option (text * text) :=
  if Py.eqt placeholder "[BK_PURPOSE_TEXT]" then
    option_map (pair ("BK_PURPOSE_TEXT" : text))
      match purpose_content re section_content with
      | Some m => Some (clean_markdown_content m)
      | None =>
          match purpose_old re section_content with
          | Some m => Some (clean_markdown_content m)
          | None => join_lines (purpose_lines (Py.splitlines section_content))
          end
      end
  else if Py.eqt placeholder "[BK_SCOPE_TEXT]" then
    option_map (pair ("BK_SCOPE_TEXT" : text))
      match scope_content re section_content with
      | Some m => Some (clean_markdown_content m)
      | None =>
          match scope_old re section_content with
          | Some m => Some (clean_markdown_content m)
          | None =>
              join_lines (lines_after "SCOPE" false (Py.splitlines section_content))
          end
      end
  else if Py.eqt placeholder "[BK_ACRONYMS]" then
    Some ("BK_ACRONYMS" : text,
          match acronyms_content re section_content with
          | Some m => clean_markdown_content m
          | None =>
              match acronyms_old re section_content with
              | Some m => clean_markdown_content m
              | None => clean_markdown_content section_content
              end
          end)
  else if Py.eqt placeholder "[BK_DEFINITIONS]" then
    option_map (pair ("BK_DEFINITIONS" : text))
      match definitions_content re section_content with
      | Some m => Some (clean_markdown_content m)
      | None =>
          match definitions_old re section_content with
          | Some definitions_content =>
              if Py.truthy definitions_content
              then Some (clean_markdown_content definitions_content)
              else join_lines (lines_after "DEFINITIONS" false
                                           (Py.splitlines section_content))
          | None => Some (clean_markdown_content section_content)
          end
      end
  else if Py.eqt placeholder "[BK_REFERENCES]" then
    Some ("BK_REFERENCES" : text, clean_markdown_content section_content)
  else if Py.eqt placeholder "[BK_PROCEDURE_SUMMARY]" then
    Some ("BK_PROCEDURE_SUMMARY" : text, clean_markdown_content section_content)
  else if Py.eqt placeholder "[BK_DUT_CONFIG]" then
    Some ("BK_DUT_CONFIG" : text, clean_markdown_content section_content)
  else if Py.eqt placeholder "[BK_TEST_EXECUTION_CHRONOLOGY]" then
    Some ("BK_TEST_EXECUTION_CHRONOLOGY" : text, section_content)
  else if Py.eqt placeholder "[BK_CONSUMABLES_USED]" then
    Some ("BK_CONSUMABLES_USED" : text,
          if Py.contains "consumable" (Py.lower section_content) then
            match consumables re section_content with
            | Some m => clean_markdown_content m
            | None => clean_markdown_content section_content
            end
          else clean_markdown_content section_content)
  else if Py.eqt placeholder "[BK_TEST_METHOD_LOSS_INVESTIGATIONS]" then
    Some ("BK_TEST_METHOD_LOSS_INVESTIGATIONS" : text,
          clean_markdown_content section_content)
  else if Py.eqt placeholder "[BK_PROTOCOL_DEVIATIONS]" then
    Some ("BK_PROTOCOL_DEVIATIONS" : text, clean_markdown_content section_content)
  else if Py.eqt placeholder "[BK_DEFECTIVE_UNIT]" then
    Some ("BK_DEFECTIVE_UNIT" : text, clean_markdown_content section_content)
  else if Py.eqt placeholder "[BK_TEST_RESULT_SUMMARY]" then
    Some ("BK_TEST_RESULT_SUMMARY" : text, clean_markdown_content section_content)
  else if Py.eqt placeholder "[BK_TEST_RESULT_ANALYSIS]" then
    Some ("BK_TEST_RESULT_ANALYSIS" : text,
          if Py.eqt section_content "TBD" then "TBD" : text
          else if Py.startswith "{ANALYSIS_IMAGES:" section_content
          then section_content
          else clean_markdown_content section_content)
  else None.

Definition extract_content_sections (sections : Dict.dict text)
  : Dict.dict text :=
  fold_left
    (fun content_mapping (pm : text * text) =>
       match Dict.get (snd pm) sections with
       | Some section_content =>
           match extract_one (fst pm) section_content with
           | Some (key, value) => Dict.set key value content_mapping
           | None => content_mapping
           end
       | None => content_mapping
       end)
    placeholder_mapping [].

(** A paragraph of the document with the tables inserted right after it,
    the last inserted first. *)
Record paragraph := Para {
  p_text : text;
  p_tables : list word_table
}.

(** One placeholder on one paragraph: the paragraph and
    [placeholders_found] afterwards. *)
Definition placeholder_step (sections content_mapping : Dict.dict text)
    (st : paragraph * list text) (pm : text * text) : paragraph * list text :=
  let p := fst st in
  let placeholder := fst pm in
  if Py.contains placeholder (p_text p) then
    let found := snd st ++ [placeholder] in
    let from_sections := get_or_empty (snd pm) sections in
    let replacement_content :=
      if Py.truthy from_sections then from_sections
      else get_or_empty (content_key_clean placeholder) content_mapping in
    if Py.truthy replacement_content then
      if Py.startswith "{ANALYSIS_IMAGES:" replacement_content then
        (Para (images_text (Py.replace placeholder [] (p_text p)) replacement_content)
              (p_tables p), found)
      else if contains_markdown_table replacement_content then
        let cleared := Py.replace placeholder [] (p_text p) in
        let non_table_text := extract_non_table_text replacement_content in
        let new_text :=
          if Py.truthy (Py.strip non_table_text) then non_table_text else cleared in
        match convert_markdown_table_to_word replacement_content with
        | Some table => (Para new_text (table :: p_tables p), found)
        | None => (Para new_text (p_tables p), found)
        end
      else
        (Para (Py.replace placeholder replacement_content (p_text p)) (p_tables p),
         found)
    else (p, found)
  else st.

(** The loop over [doc.paragraphs]. *)
Definition paragraph_step (sections content_mapping : Dict.dict text)
    (st : list paragraph * list text) (p : paragraph)
  : list paragraph * list text :=
  let r := fold_left (placeholder_step sections content_mapping)
                     placeholder_mapping (p, snd st) in
  (fst st ++ [fst r], snd r).

(** The paragraphs the last loop adds for one placeholder. *)
Definition missing_step (content_mapping : Dict.dict text)
    (placeholders_found : list text) (pm : text * text) : list paragraph :=
  let placeholder := fst pm in
  if existsb (Py.eqt placeholder) placeholders_found then []
  else
    let replacement_content :=
      get_or_empty (content_key_clean placeholder) content_mapping in
    if Py.truthy replacement_content then
      [Para [] [];
       Para ("Missing section content for " ++ placeholder ++ ":") [];
       Para replacement_content []]
    else [].

(** [create_word_document_from_template] on a template that loads: its body
    paragraphs after the substitution, followed by the paragraphs added at
    the end.  The headers, the footers and the file name are left out. *)
Definition create_word_document_from_template (template : list text)
    (sections : Dict.dict text) : list paragraph :=
  let content_mapping :=
    Dict.set "intro" intro_content (extract_content_sections sections) in
  let r := fold_left (paragraph_step sections content_mapping)
                     (map (fun t => Para t []) template) ([], []) in
  fst r ++ flat_map (missing_step content_mapping (snd r)) placeholder_mapping.

End Assembler.

End TemplateAssembler.

(** ** Python floats: IEEE 754 binary64 *)

Module PyFloat.

Definition prec : Z := 53.
Definition emax : Z := 1024.

(** [float(n)] for an integer. *)
Definition of_Z (n : Z) : spec_float := binary_normalize prec emax n 0 false.

Definition mul (x y : spec_float) : spec_float := SFmul prec emax x y.
Definition sub (x y : spec_float) : spec_float := SFsub prec emax x y.
Definition div (x y : spec_float) : spec_float := SFdiv prec emax x y.

(** [a / b] on integers: the quotient rounded once to the nearest float;
    [ZeroDivisionError] and [OverflowError] are raised. *)
Definition int_true_div (a b : Z) : result spec_float :=
  match a, b with
  | _, Z0 => Raise "division by zero"
  | Z0, _ => Ok (S754_zero (b <? 0)%Z)
  | _, _ =>
      match div (S754_finite (a <? 0)%Z (Z.to_pos (Z.abs a)) 0)
                (S754_finite (b <? 0)%Z (Z.to_pos (Z.abs b)) 0) with
      | S754_infinity _ => Raise "integer division result too large for a float"
      | q => Ok q
      end
  end.

(** The integer nearest to [m * 2^e], ties to even. *)
Definition round_half_even (m e : Z) : Z :=
  match e with
  | Zneg p =>
      let den := Z.pow 2 (Zpos p) in
      let q := (m / den)%Z in
      let r := (m mod den)%Z in
      match (2 * r ?= den)%Z with
      | Lt => q
      | Eq => if Z.even q then q else (q + 1)%Z
      | Gt => (q + 1)%Z
      end
  | _ => (m * Z.pow 2 e)%Z
  end.

(** Two decimal digits. *)
Definition two_digits (n : Z) : text :=
  str_of_nat (Z.to_nat (n / 10)) ++ str_of_nat (Z.to_nat (n mod 10)).

(** [f"{x:.2%}"]: [x * 100] as a float, printed in fixed notation with two
    decimals, the decimal value of the float rounded to nearest, ties to
    even. *)
Definition format_percent (x : spec_float) : text :=
  match mul x (of_Z 100) with
  | S754_nan => "nan%"
  | S754_infinity s => (if s then "-inf%" else "inf%") : text
  | S754_zero s => (if s then "-0.00%" else "0.00%") : text
  | S754_finite s m e =>
      let hundredths := round_half_even (Zpos m * 100) e in
      (if s then "-" else "") ++ str_of_nat (Z.to_nat (hundredths / 100))
      ++ "." ++ two_digits (hundredths mod 100) ++ "%"
  end.

End PyFloat.

(** [str(n)] for an integer. *)
Definition str_of_Z (n : Z) : text :=
  match n with
  | Zneg p => "-" ++ str_of_nat (Pos.to_nat p)
  | _ => str_of_nat (Z.to_nat n)
  end.

(** ** ai_agents.py: task results and the generation capability *)

(** [TaskResult].  The fields [metadata] and [attachments] are left out:
    they record counts and file names and no task reads them back. *)
Record TaskResult := mkTaskResult {
  success : bool;
  content : text;
  error : option text
}.

Module BaseDVTAgent.

(** The client of the generation capability, by what a call gives for a
    prompt: [models_generate_content] is the text of the response of
    [client.models.generate_content] (empty for a falsy response), or the
    exception it raises; [chat_completions_create] is the same for
    [client.chat.completions.create], read at
    [response.choices[0].message.content].  Model name and temperature are not
    part of the model. *)
Record ai_client := AIClient {
  models_generate_content : text -> result text;
  chat_completions_create : text -> result text
}.

Definition generate_content (client : option ai_client) (prompt : text)
  : result text :=
  match client with
  | None => Raise "⚠️ AI client not configured"
  | Some c =>
      match models_generate_content c prompt with
      | Ok response => Ok response
      | Raise e => Raise ("AI generation failed: " ++ e)
      end
  end.

End BaseDVTAgent.

(** ** ai_agents.py: ScopeAndPurposeAgent *)

Module ScopeAndPurposeAgent.
Import BaseDVTAgent.

Record table_data := TableData {
  headers : list text;
  rows : list (list text);
  markdown : text
}.

(** [c in '-|: '] *)
Definition separator_char (c : ascii) : bool := Py.has_char c "-|: ".

(** The rows of a table: the lines that hold as many cells as the header,
    one of them not empty. *)
Definition data_row (headers : list text) (table_line : text)
  : list (list text) :=
  if Py.truthy (Py.strip table_line) && Py.has_char Py.PIPE table_line then
    let row_data := Markdown.row_cells table_line in
    if (List.length row_data =? List.length headers)
       && existsb Py.truthy row_data
    then [row_data] else []
  else [].

(** The parse of one run of consecutive table lines. *)
Definition parse_table (table_lines : list text) : option table_data :=
  if 2 <=? List.length table_lines then
    let header_line := nth 0 table_lines [] in
    let headers := Markdown.row_cells header_line in
    let data_start :=
      if forallb separator_char (nth 1 table_lines []) then 2 else 1 in
    let rows := flat_map (data_row headers) (skipn data_start table_lines) in
    if Py.nonempty headers && Py.nonempty rows
    then Some (TableData headers rows (Py.join [Py.LF] table_lines))
    else None
  else None.

(** The end of a run of table lines: the table it parses to is stored. *)
Definition close_run (tables : list table_data) (table_lines : list text)
  : list table_data :=
  match parse_table table_lines with
  | Some table => tables ++ [table]
  | None => tables
  end.

(** The [while] loop over the lines, one line at a time: a line with two
    pipes or more joins the run being collected, any other line ends it. *)
Definition scan_line (st : list table_data * list text) (line : text)
  : list table_data * list text :=
  if 2 <=? Py.count_char Py.PIPE (Py.strip line)
  then (fst st, snd st ++ [Py.strip line])
  else (close_run (fst st) (snd st), []).

Definition _extract_tables_from_protocol (protocol_content : text)
  : list table_data :=
  let st := fold_left scan_line (Py.splitlines protocol_content) ([], []) in
  close_run (fst st) (snd st).

Definition scope_keywords : list text :=
  ["doc id" : text; "req id" : text; "requirement" : text;
   "doc_id" : text; "req_id" : text].

Definition is_scope_table (table : table_data) : bool :=
  Py.any_in scope_keywords (Py.join " " (map Py.lower (headers table))).

(** The tables appended to the prompt. *)
Definition table_section (scope_tables : list table_data) : text :=
  [Py.LF; Py.LF] ++ "IMPORTANT - TABLES FOUND IN SCOPE SECTION:" ++ [Py.LF]
  ++ List.concat
       (map (fun it => [Py.LF] ++ "Table " ++ str_of_nat (fst it + 1) ++ ":"
                       ++ [Py.LF] ++ markdown (snd it) ++ [Py.LF])
            (Py.enumerate_from 0 scope_tables))
  ++ [Py.LF]
  ++ "These tables MUST be included in the SCOPE section exactly as shown above."
  ++ [Py.LF].

(** The tables appended to a generated text that has none. *)
Definition appended_tables (scope_tables : list table_data) : text :=
  [Py.LF; Py.LF]
  ++ List.concat (map (fun table => [Py.LF] ++ markdown table ++ [Py.LF])
                      scope_tables).

Section Task.
Variable client : option ai_client.
(** [DVTPrompts.scope_and_purpose_prompt] *)
Variable scope_and_purpose_prompt : text -> text -> text -> text.

Definition create_scope_and_purpose
    (protocol_content protocol_number project_name : text) : TaskResult :=
  let tables := _extract_tables_from_protocol protocol_content in
  let scope_tables := filter is_scope_table tables in
  let prompt :=
    scope_and_purpose_prompt protocol_content protocol_number project_name in
  let prompt :=
    if Py.nonempty scope_tables then prompt ++ table_section scope_tables
    else prompt in
  try_except
    (bind (generate_content client prompt) (fun content =>
     let content :=
       if Py.nonempty scope_tables
          && negb (existsb (Py.has_char Py.PIPE) (Py.splitlines content))
       then content ++ appended_tables scope_tables
       else content in
     Ok (mkTaskResult true (Py.strip content) None)))
    (fun e => mkTaskResult false [] (Some e)).

End Task.
End ScopeAndPurposeAgent.

(** ** ai_agents.py: ReferenceAgent *)

Module ReferenceAgent.
Import BaseDVTAgent.

Section Task.
Variable client : option ai_client.
(** [DVTPrompts.reference_section_prompt] *)
Variable reference_section_prompt : text -> text.

Definition create_reference_section (report_content : text) : TaskResult :=
  let prompt := reference_section_prompt report_content in
  try_except
    (bind (generate_content client prompt) (fun content =>
     Ok (mkTaskResult true (Py.strip content) None)))
    (fun e => mkTaskResult false [] (Some e)).

End Task.
End ReferenceAgent.

(** ** ai_agents.py: TestProcedureSummaryAgent *)

Module TestProcedureSummaryAgent.
Import BaseDVTAgent.

Section Task.
Variable client : option ai_client.
(** [DVTPrompts.test_procedure_summary_prompt] *)
Variable test_procedure_summary_prompt : text -> text -> text.

Definition create_test_procedure_summary
    (protocol_content protocol_number : text) : TaskResult :=
  let prompt := test_procedure_summary_prompt protocol_content protocol_number in
  try_except
    (bind (generate_content client prompt) (fun content =>
     Ok (mkTaskResult true (Py.strip content) None)))
    (fun e => mkTaskResult false [] (Some e)).

End Task.
End TestProcedureSummaryAgent.

(** ** ai_agents.py: AcronymsDefinitionsAgent *)

Module AcronymsDefinitionsAgent.
Import BaseDVTAgent.

Definition technical_keywords : list text :=
  ["test" : text; "protocol" : text; "device" : text; "measurement" : text;
   "configuration" : text; "equipment" : text; "procedure" : text;
   "specification" : text; "requirement" : text; "analysis" : text;
   "validation" : text; "verification" : text; "compliance" : text].

(** The lines kept for the prompt. *)
Definition important (line_clean : text) : bool :=
  Py.truthy line_clean
  && (existsb (fun word => Py.isupper word && (2 <=? List.length word))
              (Py.split_ws line_clean)
      || (Py.isupper line_clean || Py.startswith "#" line_clean)
      || Py.any_in technical_keywords (Py.lower line_clean)).

Definition _preprocess_content_for_acronyms (content : text) : text :=
  let lines := Py.splitlines content in
  let important_lines := filter important (map Py.strip lines) in
  let processed_content := Py.join [Py.LF] important_lines in
  if 4000 <? List.length processed_content
  then firstn 4000 processed_content ++ [Py.LF]
       ++ "[Content truncated for processing]"
  else processed_content.

(** The template returned when the generation fails, line by line. *)
Definition _create_fallback_acronyms_section : text :=
  Py.join [Py.LF]
   ["ACRONYMS & DEFINITIONS" : text;
    [];
    "Acronyms" : text;
    "List in this section all acronyms referenced in this document." : text;
    [];
    "| Acronym | Definition |" : text;
    "|---------|------------|" : text;
    "| DVT | Design Verification Testing |" : text;
    "| DUT | Device Under Test |" : text;
    "| TBD | To Be Determined |" : text;
    [];
    "Definitions" : text;
    "List all relevant definitions for terms that have a specific meaning for the purpose of this document." : text;
    [];
    "| Term | Definition |" : text;
    "|------|------------|" : text;
    "| Protocol | Test procedure document |" : text;
    "| Conditioning | Environmental preparation phase |" : text]
  ++ [Py.LF].

Section Task.
Variable client : option ai_client.
(** [DVTPrompts.acronyms_definitions_prompt] *)
Variable acronyms_definitions_prompt : text -> text.

Definition create_acronyms_and_definitions (complete_report_content : text)
  : TaskResult :=
  let processed_content :=
    _preprocess_content_for_acronyms complete_report_content in
  let prompt := acronyms_definitions_prompt processed_content in
  try_except
    (bind (generate_content client prompt) (fun content =>
     Ok (mkTaskResult true (Py.strip content) None)))
    (fun e => mkTaskResult true _create_fallback_acronyms_section None).

End Task.
End AcronymsDefinitionsAgent.

(** ** ai_agents.py: DeviceUnderTestAgent *)

Module DeviceUnderTestAgent.

Definition header_keywords : list text :=
  ["DUT PART NUMBER" : text; "PART NUMBER" : text;
   "SERIAL NUMBER" : text; "LOT NUMBER" : text].

(** The body of the [for line in lines] loop: the set after one line. *)
Definition scan_line (unique_serial_numbers : list text) (line : text)
  : list text :=
  if Py.has_char Py.PIPE line && Py.truthy (Py.strip line)
     && negb (Py.startswith "===" line)
  then
    let upper_line := Py.upper line in
    if Py.any_in header_keywords upper_line then unique_serial_numbers
    else
      let parts := map Py.strip (Py.split Py.PIPE line) in
      if 2 <=? List.length parts then
        let potential_serial := Py.strip (nth 1 parts []) in
        if Py.truthy potential_serial && Py.isdigit potential_serial
           && (8 <=? List.length potential_serial)
        then Py.set_add potential_serial unique_serial_numbers
        else unique_serial_numbers
      else unique_serial_numbers
  else unique_serial_numbers.

Definition scan_lines (lines : list text) : list text :=
  fold_left scan_line lines [].

Definition _count_test_articles_in_content (excel_data : text) : nat :=
  let lines := Py.splitlines excel_data in
  let unique_serial_numbers := scan_lines lines in
  let dut_count := List.length unique_serial_numbers in
  Nat.max 1 dut_count.

(** [device_config], the user's answers. *)
Record device_configuration := DeviceConfig {
  units_sterilized : bool;
  units_modified : bool;
  modification_description : option text
}.

Definition _create_fallback_section (device_config : device_configuration)
  : text :=
  let sterilized_text : text :=
    if units_sterilized device_config then "sterilized" else "not sterilized" in
  let modification_text : text :=
    if units_modified device_config
    then "Modifications were made: "
         ++ match modification_description device_config with
            | Some description => description
            | None => "Details not specified"
            end
    else "No modifications were made outside normal manufacturing processes." in
  Py.join [Py.LF]
   ["DEVICE UNDER TEST CONFIGURATION" : text;
    [];
    "The test units were " ++ sterilized_text ++ ". " ++ modification_text;
    [];
    "[Test article details will be populated from uploaded Excel data]" : text;
    [];
    "| Part Number | Serial Number | Lot Number |" : text;
    "|-------------|---------------|------------|" : text;
    "| TBD | TBD | TBD |" : text].

Section Task.
Variable client : option BaseDVTAgent.ai_client.
(** [DVTPrompts.device_under_test_prompt] *)
Variable device_under_test_prompt :
  text -> device_configuration -> Dict.dict text -> nat -> text.

(** [excel_data] is the text [_extract_and_format_excel_data] makes of the
    uploaded files.  The raw-data attachment written for more than ten test
    articles goes to the metadata only. *)
Definition create_device_configuration_section (excel_data : text)
    (device_config : device_configuration) (report_config : Dict.dict text)
  : TaskResult :=
  try_except
    (let test_article_count := _count_test_articles_in_content excel_data in
     let prompt :=
       device_under_test_prompt excel_data device_config report_config
                                test_article_count in
     bind (BaseDVTAgent.generate_content client prompt) (fun content =>
     Ok (mkTaskResult true content None)))
    (fun e => mkTaskResult false (_create_fallback_section device_config)
                           (Some e)).

End Task.

End DeviceUnderTestAgent.

(** ** ai_agents.py: EquipmentUsedAgent *)

Module EquipmentUsedAgent.
Import BaseDVTAgent.

(** A row of a log: column header to cell text. *)
Definition row := Dict.dict text.

Definition rows_of (sheet_name : text) (parsed_data : Dict.dict (list row))
  : list row :=
  match Dict.get sheet_name parsed_data with
  | Some data_list => data_list
  | None => []
  end.

Definition item_details (item : row) : list text :=
  flat_map (fun kv =>
              if Py.truthy (snd kv) && Py.truthy (Py.strip (snd kv))
              then [fst kv ++ ": " ++ snd kv] else [])
           item.

Definition sheet_summary (entry : text * list row) : list text :=
  match snd entry with
  | [] => [[Py.LF] ++ fst entry ++ ": No data found"]
  | first :: _ =>
      ([Py.LF] ++ fst entry ++ " ("
       ++ str_of_nat (List.length (snd entry)) ++ " items):")
      :: ("  Columns: " ++ Py.join ", " (Dict.keys first))
      :: flat_map
           (fun it =>
              match item_details (snd it) with
              | [] => []
              | details =>
                  ["  Item " ++ str_of_nat (fst it + 1) ++ ": "
                   ++ Py.join ", " details]
              end)
           (Py.enumerate_from 0 (snd entry))
  end.

Definition _prepare_data_summary (parsed_data : Dict.dict (list row)) : text :=
  Py.join [Py.LF] (flat_map sheet_summary parsed_data).

Definition _create_markdown_table (sheet_name : text) (data : list row)
  : text :=
  match data with
  | [] => []
  | first :: _ =>
      let headers := Dict.keys first in
      let title : list text :=
        if Py.eqt sheet_name "EQUIPMENT LOG" then ["• Equipment Used" : text]
        else if Py.eqt sheet_name "SOFTWARE LOG" then ["• Software Used" : text]
        else if Py.eqt sheet_name "MATERIAL LOG" then ["• Materials Used" : text]
        else [] in
      let header_row := "| " ++ Py.join " | " headers ++ " |" in
      let separator_row :=
        "|" ++ Py.join "|" (map (fun _ => " --- " : text) headers) ++ "|" in
      let data_rows :=
        map (fun r : row =>
               "| "
               ++ Py.join " | "
                    (map (fun header =>
                            Py.strip (match Dict.get header r with
                                      | Some v => v
                                      | None => []
                                      end))
                         headers)
               ++ " |")
            data in
      Py.join [Py.LF] (title ++ [header_row; separator_row] ++ data_rows)
  end.

(** Sheet name, section title, item type. *)
Definition categories : list (text * text * text) :=
  [("EQUIPMENT LOG" : text, "• Equipment Used" : text, "equipment" : text);
   ("SOFTWARE LOG" : text, "• Software Used" : text, "software" : text);
   ("MATERIAL LOG" : text, "• Materials Used" : text, "materials" : text)].

(** What one category adds to [content_parts]. *)
Definition category_parts (parsed_data : Dict.dict (list row))
    (category : text * text * text) : list text :=
  let sheet_name := fst (fst category) in
  let section_title := snd (fst category) in
  let item_type := snd category in
  let data_list := rows_of sheet_name parsed_data in
  [section_title]
  ++ match data_list with
     | [] => ["No " ++ item_type ++ " were recorded in the " ++ item_type
              ++ " log."]
     | _ =>
         ["The " ++ item_type ++ " log recorded the following items:"]
         ++ (if List.length data_list <=? 5 then
               let table_md := _create_markdown_table sheet_name data_list in
               if Py.truthy table_md then
                 let table_lines := Py.splitlines table_md in
                 let table_lines :=
                   if Py.startswith "###" (nth 0 table_lines [])
                   then tl table_lines else table_lines in
                 [] :: table_lines
               else []
             else [[Py.LF] ++ "Detailed " ++ item_type
                   ++ " information is provided in the attachment."])
     end
  ++ [[]].

Definition _fallback_organize_data (parsed_data : Dict.dict (list row))
    (calibration_verified : bool) : text :=
  let statement : text :=
    if calibration_verified
    then "All equipment used in this testing was verified as calibrated at the time of use."
    else "Equipment calibration status was not verified at the time of use." in
  Py.join [Py.LF]
    ([statement; []] ++ flat_map (category_parts parsed_data) categories).

(** [self.client.chat.completions.create]; without a client the attribute
    access raises. *)
Definition chat (client : option ai_client) (prompt : text) : result text :=
  match client with
  | None => Raise "'NoneType' object has no attribute 'chat'"
  | Some c => chat_completions_create c prompt
  end.

Section Task.
Variable client : option ai_client.
(** The prompt [_ai_organize_equipment_data] writes around the data summary
    and the calibration status. *)
Variable organize_prompt : text -> bool -> text.

Definition _ai_organize_equipment_data (parsed_data : Dict.dict (list row))
    (calibration_verified : bool) : text :=
  let data_summary := _prepare_data_summary parsed_data in
  let prompt := organize_prompt data_summary calibration_verified in
  try_except
    (bind (chat client prompt) (fun ai_content => Ok (Py.strip ai_content)))
    (fun _ => _fallback_organize_data parsed_data calibration_verified).

(** [parsed_data] is what [_extract_excel_parser_data] collects from the
    parsed workbooks; [attachment] is the file name of the attachment
    [_create_equipment_attachment] writes, [None] when it writes none. *)
Definition process (parsed_data : Dict.dict (list row))
    (calibration_verified : bool) (attachment : option text) : TaskResult :=
  try_except
    (if negb (Py.nonempty parsed_data)
        || forallb (fun data => List.length data =? 0) (Dict.values parsed_data)
     then Ok (mkTaskResult true
                "No equipment, software, or material log data was found in the uploaded files."
                None)
     else
       let equipment_count := List.length (rows_of "EQUIPMENT LOG" parsed_data) in
       let software_count := List.length (rows_of "SOFTWARE LOG" parsed_data) in
       let material_count := List.length (rows_of "MATERIAL LOG" parsed_data) in
       let ai_organized_content :=
         _ai_organize_equipment_data parsed_data calibration_verified in
       let needs_attachment :=
         (5 <? equipment_count) || (5 <? software_count)
         || (5 <? material_count) in
       let ai_organized_content :=
         match (if needs_attachment then attachment else None) with
         | Some filename =>
             ai_organized_content ++ [Py.LF; Py.LF]
             ++ "Detailed equipment, software, and material information is provided in "
             ++ filename ++ "."
         | None => ai_organized_content
         end in
       Ok (mkTaskResult true ai_organized_content None))
    (fun e => mkTaskResult false
                "Unable to process equipment data at this time."
                (Some ("EquipmentUsedAgent processing failed: " ++ e))).

End Task.
End EquipmentUsedAgent.

(** ** ai_agents.py: TestMethodLossAgent *)

Module TestMethodLossAgent.
Import BaseDVTAgent.

(** The worksheets of one parsed workbook: name to rows of cell text. *)
Definition sheets := Dict.dict (list (list text)).

Record loss_data := LossData {
  worksheet_name : text;
  investigations : list (Dict.dict text);
  headers : list text
}.

(** The first worksheet of a workbook named TEST METHOD LOSSES, in any
    case. *)
Definition find_in_file (file_sheets : sheets)
  : option (text * list (list text)) :=
  find (fun sheet => Py.eqt (Py.upper (fst sheet)) "TEST METHOD LOSSES")
       file_sheets.

(** The loop over the workbooks: it stops at the first one whose worksheet
    has rows; an entry without ['sheets'] is [None]. *)
Fixpoint find_sheet (files : list (text * option sheets))
    (found : option (text * list (list text)))
  : option (text * list (list text)) :=
  match files with
  | [] => found
  | (_, file_data) :: files' =>
      let found' :=
        match file_data with
        | Some file_sheets =>
            match find_in_file file_sheets with
            | Some hit => Some hit
            | None => found
            end
        | None => found
        end in
      match found' with
      | Some (_, _ :: _) => found'
      | _ => find_sheet files' found'
      end
  end.

Definition investigation_of (headers : list text) (r : list text)
  : Dict.dict text :=
  fold_left
    (fun investigation jc =>
       let header := nth (fst jc) headers [] in
       if (fst jc <? List.length headers) && Py.truthy header
       then Dict.set header (Py.strip (snd jc)) investigation
       else investigation)
    (Py.enumerate_from 0 r) [].

Definition is_loss (investigation : Dict.dict text) : bool :=
  let protocol_note_type :=
    Py.lower (match Dict.get "PROTOCOL NOTE TYPE" investigation with
              | Some v => v
              | None => []
              end) in
  Py.contains "test method loss" protocol_note_type.

(** [None] is the empty dictionary the source returns when no worksheet with
    rows is found. *)
Definition _extract_test_method_loss_data
    (excel_data_dict : list (text * option sheets)) : option loss_data :=
  match find_sheet excel_data_dict None with
  | Some (test_method_loss_sheet, header_row :: data) =>
      let headers := map Py.strip header_row in
      let investigations :=
        filter is_loss
          (map (investigation_of headers) (filter (existsb Py.truthy) data)) in
      Some (LossData test_method_loss_sheet investigations headers)
  | _ => None
  end.

Definition field (name : text) (investigation : Dict.dict text) : text :=
  match Dict.get name investigation with
  | Some v => v
  | None => []
  end.

Definition _format_data_for_ai (test_method_loss_data : loss_data) : text :=
  match investigations test_method_loss_data with
  | [] => "No test method loss investigations found."
  | found =>
      Py.join [Py.LF]
        (["TEST METHOD LOSSES Data:" : text; repeat "="%char 50]
         ++ flat_map
              (fun it =>
                 [[Py.LF] ++ "Investigation #" ++ str_of_nat (fst it) ++ ":";
                  "- #: " ++ field "#" (snd it);
                  "- PROTOCOL NOTE TYPE: " ++ field "PROTOCOL NOTE TYPE" (snd it);
                  "- TEST UNIT SN or ID: " ++ field "TEST UNIT SN or ID" (snd it);
                  "- PROTOCOL STEP / SECTION: "
                  ++ field "PROTOCOL STEP / SECTION" (snd it);
                  "- REPLACEMENT(S): " ++ field "REPLACEMENT(S)" (snd it);
                  "- OBSERVATIONS: " ++ field "OBSERVATIONS" (snd it)])
              (Py.enumerate_from 1 found))
  end.

Definition _generate_no_losses_content : text :=
  "No test method loss occurred in the execution of this test.".

Definition _format_final_content (ai_response : text) : text :=
  if negb (Py.truthy (Py.strip ai_response)) then _generate_no_losses_content
  else
    let content := Py.strip ai_response in
    let content :=
      if Py.startswith "## TEST METHOD LOSS INVESTIGATIONS" content
      then Py.strip (Py.replace "## TEST METHOD LOSS INVESTIGATIONS" [] content)
      else content in
    let content :=
      if Py.startswith "# TEST METHOD LOSS INVESTIGATIONS" content
      then Py.strip (Py.replace "# TEST METHOD LOSS INVESTIGATIONS" [] content)
      else content in
    content.

Definition default_report_config : Dict.dict text :=
  [("document_number" : text, "RPT-XXXXXX" : text);
   ("revision" : text, "XXX" : text)].

Section Task.
Variable client : option ai_client.
(** [DVTPrompts.test_method_loss_prompt] *)
Variable test_method_loss_prompt : text -> Dict.dict text -> text.

Definition _generate_ai_content (test_method_loss_data : loss_data)
    (report_config : Dict.dict text) : text :=
  try_except
    (if negb (Py.nonempty (investigations test_method_loss_data))
     then Ok _generate_no_losses_content
     else
       let formatted_data := _format_data_for_ai test_method_loss_data in
       let prompt := test_method_loss_prompt formatted_data report_config in
       bind (generate_content client prompt) (fun response =>
       if Py.truthy response then Ok (_format_final_content response)
       else Ok _generate_no_losses_content))
    (fun _ => _generate_no_losses_content).

Definition create_test_method_loss_investigations
    (excel_data_dict : list (text * option sheets))
    (report_config : Dict.dict text) : TaskResult :=
  try_except
    (let report_config :=
       if Py.nonempty report_config then report_config
       else default_report_config in
     match _extract_test_method_loss_data excel_data_dict with
     | None => Ok (mkTaskResult true _generate_no_losses_content None)
     | Some test_method_loss_data =>
         let processed_content :=
           _generate_ai_content test_method_loss_data report_config in
         if negb (Py.truthy processed_content)
         then Ok (mkTaskResult false []
                    (Some ("Failed to generate AI content for test method loss investigations" : text)))
         else Ok (mkTaskResult true processed_content None)
     end)
    (fun e => mkTaskResult false []
                (Some ("Error processing test method loss investigations: "
                       ++ e))).

End Task.
End TestMethodLossAgent.


(** ** ai_agents.py: TestResultSummaryAgent *)

Module TestResultSummaryAgent.

Record excel_stats := ExcelStats {
  initial_sample_size : Z;
  test_method_losses : Z;
  actual_sample_size : Z;
  defective_units : Z
}.

(** [d.get(k, default)] *)
Definition get_default (k : text) (d : Dict.dict text) (default : text) : text :=
  match Dict.get k d with
  | Some v => v
  | None => default
  end.

Section Float.
(** [float(s)] on a string: the float, or [ValueError]. *)
Variable py_float : text -> result spec_float.

(** [float(part.replace("%", "")) / 100] *)
Definition percentage (part : text) : result spec_float :=
  bind (py_float (Py.replace "%" [] part))
       (fun x => Ok (PyFloat.div x (PyFloat.of_Z 100))).

(** The [try] block of [_generate_attribute_table] for one criterion. *)
Definition confidence_block (criteria : Dict.dict text) (stats : excel_stats)
  : result text :=
  let confidence_rel := get_default "confidence_reliability" criteria "90%/90%" in
  let parts := Py.split "/" confidence_rel in
  bind (percentage (nth 0 parts [])) (fun confidence_level =>
  bind (match nth_error parts 1 with
        | Some part => percentage part
        | None => Raise "list index out of range"
        end) (fun reliability_target =>
  let num_failures := defective_units stats in
  let sample_size := actual_sample_size stats in
  if (0 <? sample_size)%Z && (0 <=? num_failures)%Z then
    bind (PyFloat.int_true_div num_failures sample_size) (fun ratio =>
    let actual_confidence := PyFloat.sub (PyFloat.of_Z 1) ratio in
    Ok (PyFloat.format_percent actual_confidence ++ " / "
        ++ PyFloat.format_percent reliability_target))
  else Ok ("TBD" : text))).

(** The last cell of the row: any exception of the block gives ["TBD"]. *)
Definition actual_conf_rel (criteria : Dict.dict text) (stats : excel_stats)
  : text :=
  try_except (confidence_block criteria stats) (fun _ => "TBD").

Definition attribute_row (criteria : Dict.dict text) (stats : excel_stats)
  : list text :=
  [ get_default "req_id" criteria [];
    get_default "acceptance_criteria" criteria [];
    get_default "confidence_reliability" criteria [];
    str_of_Z (initial_sample_size stats);
    str_of_Z (test_method_losses stats);
    str_of_Z (actual_sample_size stats);
    str_of_Z (defective_units stats);
    actual_conf_rel criteria stats ].

Definition attribute_headers : list text :=
  ["REQ ID" : text; "Acceptance Criteria" : text;
   "Confidence / Reliability" : text; "Initial Sample Size" : text;
   "Test Method Losses" : text; "Actual Sample Size" : text;
   "Defective Units" : text; "Actual Confidence/ Reliability" : text].

Definition _generate_attribute_table (criteria_info : list (Dict.dict text))
    (stats : excel_stats) : text :=
  Markdown._format_word_table attribute_headers
    (map (fun criteria => attribute_row criteria stats) criteria_info).

Definition variable_row (criteria : Dict.dict text) (stats : excel_stats)
  : list text :=
  [ get_default "req_id" criteria [];
    get_default "acceptance_criteria" criteria [];
    str_of_Z (initial_sample_size stats);
    str_of_Z (test_method_losses stats);
    str_of_Z (actual_sample_size stats);
    str_of_Z (defective_units stats);
    [];
    [] ].

Definition variable_headers : list text :=
  ["REQ ID" : text; "Acceptance Criteria" : text;
   "Initial Sample Size" : text; "Test Method Losses" : text;
   "Actual Sample Size" : text; "Defective Units" : text;
   "Tolerance Interval" : text; "Confidence / Reliability" : text].

Definition _generate_variable_table (criteria_info : list (Dict.dict text))
    (stats : excel_stats) : text :=
  Markdown._format_word_table variable_headers
    (map (fun criteria => variable_row criteria stats) criteria_info).

Definition _generate_table (criteria_info : list (Dict.dict text))
    (stats : excel_stats) (test_data_type : text) : text :=
  if Py.eqt (Py.lower test_data_type) "attribute"
  then _generate_attribute_table criteria_info stats
  else _generate_variable_table criteria_info stats.

Definition default_criteria : list (Dict.dict text) :=
  [[("req_id" : text, "TBD" : text);
    ("acceptance_criteria" : text,
     "TBD (Please update with actual acceptance criteria)" : text);
    ("confidence_reliability" : text, "90%/90%" : text)]].

(** [stats] is what [_get_excel_statistics] reads from the parsed
    workbooks. *)
Definition _generate_default_table (test_data_type : text)
    (stats : excel_stats) : TaskResult :=
  let table_content := _generate_table default_criteria stats test_data_type in
  mkTaskResult true
    (table_content ++ [Py.LF; Py.LF]
     ++ "*Note: Default template generated. Please update with actual Acceptance Criteria data.*")
    None.

(** The text given to the capability: the prepared format when there is one,
    the JSON dump of the parsed document otherwise, and the protocol text
    after it.  [json_dumps] is the outcome of [json.dumps(doc_data, ...)]. *)
Definition _get_acceptance_criteria (json_dumps : result text)
    (protocol_content ai_friendly_format : text) : result text :=
  bind (if Py.truthy ai_friendly_format then Ok ai_friendly_format
        else json_dumps) (fun doc_text =>
  if Py.truthy protocol_content
  then Ok (doc_text ++ [Py.LF; Py.LF] ++ "Protocol Content:" ++ [Py.LF]
           ++ protocol_content)
  else Ok doc_text).

(** The suffix of [s] that starts at the first [c]. *)
Fixpoint from_first (c : ascii) (s : text) : option text :=
  match s with
  | [] => None
  | x :: s' => if Py.eqc x c then Some s else from_first c s'
  end.

(** The prefix of [s] that ends at the last [c]. *)
Definition to_last (c : ascii) (s : text) : option text :=
  match from_first c (rev s) with
  | Some r => Some (rev r)
  | None => None
  end.

(** The match of a bracket, anything, a bracket, where the dot matches the
    line feed too: from the first opening bracket to the last closing one
    after it. *)
Definition bracket_match (response : text) : option text :=
  match from_first "["%char response with
  | Some (open :: after) =>
      match to_last "]"%char after with
      | Some inner => Some (open :: inner)
      | None => None
      end
  | _ => None
  end.

(** One line of the text format read when the JSON reading raised; the state
    is the list of criteria and the criterion being filled. *)
Definition text_line (st : list (Dict.dict text) * Dict.dict text)
    (line : text) : list (Dict.dict text) * Dict.dict text :=
  let line := Py.strip line in
  if Py.startswith "REQ ID:" line then
    ((if Py.nonempty (snd st) then fst st ++ [snd st] else fst st),
     [("req_id" : text, Py.strip (Py.replace "REQ ID:" [] line))])
  else if Py.startswith "Acceptance Criteria:" line then
    (fst st,
     Dict.set "acceptance_criteria"
       (Py.strip (Py.replace "Acceptance Criteria:" [] line)) (snd st))
  else if Py.startswith "Confidence/Reliability:" line then
    (fst st,
     Dict.set "confidence_reliability"
       (Py.strip (Py.replace "Confidence/Reliability:" [] line)) (snd st))
  else st.

Definition text_format (criteria_list : list (Dict.dict text))
    (response : text) : list (Dict.dict text) :=
  let st := fold_left text_line (Py.splitlines response) (criteria_list, []) in
  if Py.nonempty (snd st) then fst st ++ [snd st] else fst st.

Variable client : option BaseDVTAgent.ai_client.
(** [DVTPrompts.test_result_summary_extraction_prompt] *)
Variable test_result_summary_extraction_prompt : text -> text.
(** [json.loads] of the bracketed text and the loop over its items: the
    criteria appended (the items with the three keys), and whether the
    reading raised. *)
Variable json_criteria : text -> list (Dict.dict text) * bool.

Definition _parse_criteria_response (response : text)
  : list (Dict.dict text) :=
  match bracket_match response with
  | Some json_match =>
      let read := json_criteria json_match in
      if snd read then text_format (fst read) response else fst read
  | None => []
  end.

Definition _extract_criteria_info (acceptance_criteria_data : text)
  : list (Dict.dict text) :=
  try_except
    (let prompt :=
       test_result_summary_extraction_prompt acceptance_criteria_data in
     bind (BaseDVTAgent.generate_content client prompt) (fun response =>
     Ok (_parse_criteria_response response)))
    (fun _ => []).

Definition create_test_result_summary (json_dumps : result text)
    (stats : excel_stats) (test_data_type protocol_content
     ai_friendly_format : text) : TaskResult :=
  try_except
    (bind (_get_acceptance_criteria json_dumps protocol_content
                                    ai_friendly_format)
       (fun acceptance_criteria_data =>
     if negb (Py.truthy acceptance_criteria_data)
     then Ok (_generate_default_table test_data_type stats)
     else
       let criteria_info := _extract_criteria_info acceptance_criteria_data in
       if negb (Py.nonempty criteria_info)
       then Ok (_generate_default_table test_data_type stats)
       else
         let table_content :=
           _generate_table criteria_info stats test_data_type in
         Ok (mkTaskResult true table_content None)))
    (fun e => mkTaskResult false []
                (Some ("Error in create_test_result_summary: " ++ e))).

End Float.

End TestResultSummaryAgent.

(** ** ai_agents.py: ProtocolDeviationsAgent *)

Module ProtocolDeviationsAgent.
Import BaseDVTAgent.

Definition no_deviations : text := "No deviations.".

Section Task.
Variable client : option ai_client.
(** [DVTPrompts.get_protocol_deviations_prompt] *)
Variable get_protocol_deviations_prompt : text -> text.
(** The two rewritings by regular expressions. *)
Variable _fix_deviation_numbering : text -> text.
Variable _clean_formatting : text -> text.

Definition _validate_and_format (raw_content : text) : text :=
  let content := Py.strip raw_content in
  if negb (Py.truthy content)
     || Py.contains "no deviations" (Py.lower content)
  then no_deviations
  else _clean_formatting (_fix_deviation_numbering content).

Definition process_deviations (deviations_text : text) : TaskResult :=
  if negb (Py.truthy deviations_text)
     || Py.eqt (Py.strip deviations_text) "No deviations data found."
  then mkTaskResult true no_deviations None
  else
    try_except
      (let prompt := get_protocol_deviations_prompt deviations_text in
       bind (generate_content client prompt) (fun raw_content =>
       if negb (Py.truthy raw_content)
       then Ok (mkTaskResult false no_deviations
                  (Some ("Failed to generate deviation content" : text)))
       else Ok (mkTaskResult true (_validate_and_format raw_content) None)))
      (fun e => mkTaskResult false no_deviations
                  (Some ("Deviation processing failed: " ++ e))).

End Task.
End ProtocolDeviationsAgent.

(** ** ai_agents.py: DefectiveUnitInvestigationsAgent *)

Module DefectiveUnitInvestigationsAgent.
Import BaseDVTAgent.

Definition no_defective_unit : text :=
  "No defective unit in the execution of this test.".

Section Task.
Variable client : option ai_client.
(** [DVTPrompts.get_defective_unit_investigations_prompt] *)
Variable get_defective_unit_investigations_prompt : text -> text.
(** The two rewritings by regular expressions. *)
Variable _fix_investigation_numbering : text -> text.
Variable _clean_formatting : text -> text.

Definition _validate_and_format (raw_content : text) : text :=
  let content := Py.strip raw_content in
  if negb (Py.truthy content)
     || Py.contains "no defective unit" (Py.lower content)
  then no_defective_unit
  else _clean_formatting (_fix_investigation_numbering content).

Definition process_defective_units (defective_units_text : text)
  : TaskResult :=
  if negb (Py.truthy defective_units_text)
     || Py.eqt (Py.strip defective_units_text) "No defective units data found."
  then mkTaskResult true no_defective_unit None
  else
    try_except
      (let prompt :=
         get_defective_unit_investigations_prompt defective_units_text in
       bind (generate_content client prompt) (fun raw_content =>
       if negb (Py.truthy raw_content)
       then Ok (mkTaskResult false no_defective_unit
                  (Some ("Failed to generate defective unit content" : text)))
       else Ok (mkTaskResult true (_validate_and_format raw_content) None)))
      (fun e => mkTaskResult false no_defective_unit
                  (Some ("Defective unit processing failed: " ++ e))).

End Task.
End DefectiveUnitInvestigationsAgent.

(** ** ai_agents.py: ConclusionAgent *)

Module ConclusionAgent.
Import BaseDVTAgent.

Section Task.
Variable client : option ai_client.
(** [DVTPrompts.get_conclusion_prompt] *)
Variable get_conclusion_prompt : text -> text -> text.

Definition generate_conclusion (test_results_content scope_content : text)
  : TaskResult :=
  if negb (Py.truthy test_results_content) || negb (Py.truthy scope_content)
  then mkTaskResult false []
         (Some ("Missing test results or scope content for conclusion generation" : text))
  else
    try_except
      (let prompt := get_conclusion_prompt test_results_content scope_content in
       bind (generate_content client prompt) (fun content =>
       if Py.truthy content
       then Ok (mkTaskResult true content (Some []))
       else Ok (mkTaskResult false []
                  (Some ("AI failed to generate conclusion content" : text)))))
      (fun e => mkTaskResult false []
                  (Some ("Error in conclusion generation: " ++ e))).

End Task.
End ConclusionAgent.

(** The specification's reading of the section order. *)
Module SectionOrder.

(** [k] is the pair (major, minor) of the numbers a section identifier
    [<major>.<minor>] is written with. *)
Definition numeric_key (section_num : text) (k : Z * Z) : Prop :=
  exists major minor,
    section_num = major ++ ["."%char] ++ minor /\
    Py.isdigit major = true /\ Py.isdigit minor = true /\
    k = (int_of_digits major, int_of_digits minor).

(** A section identifier written as two runs of digits around a dot. *)
Definition well_formed (section_num : text) : Prop :=
  exists k, numeric_key section_num k.




End SectionOrder.

(** The specification's reading of the test-article extraction. *)
Module TestArticleSpec.
Import Excel TestArticleParser.

(** The text of the primary-key cell of a row. *)
Definition key_of (ws : worksheet) (pk_col row : nat) : text :=
  cell_text (cell ws row pk_col).

(** The record of a row: column header to cell text, left to right. *)
Definition row_record (ws : worksheet) (cols : list text) (row : nat)
  : record :=
  fold_left (fun d col =>
               Dict.set (column_name_at cols col) (cell_text (cell ws row col)) d)
            (range 1 (max_column ws + 1)) [].

(** What a data row does to the records: it is stored under its key when
    the key is not empty. *)
Definition keyed_step (ws : worksheet) (cols : list text) (pk_col : nat)
    (recs : Dict.dict record) (row : nat) : Dict.dict record :=
  if Py.truthy (key_of ws pk_col row)
  then Dict.set (key_of ws pk_col row) (row_record ws cols row) recs
  else recs.

(** The data rows of a worksheet, top to bottom. *)
Definition data_rows (ws : worksheet) : list nat := range 2 (max_row ws + 1).

(** The number of result cells classified as test-method losses. *)
Definition tml_cells (recs : Dict.dict record) (cols : list text) : nat :=
  list_sum
    (map (fun item =>
            List.length (filter (fun col => is_tml (result_of (snd item) col)) cols))
         recs).

End TestArticleSpec.

(** The specification's reading of the generation tasks: the eleven tasks,
    what each is given, and a capability that fails. *)
Module GenerationTasks.
Import BaseDVTAgent.

Inductive task :=
| scope_and_purpose
| reference_section
| test_procedure_summary
| acronyms_and_definitions
| device_configuration_section
| equipment_used
| test_method_loss_investigations
| test_result_summary
| protocol_deviations
| defective_unit_investigations
| conclusion.

Definition all_tasks : list task :=
  [scope_and_purpose; reference_section; test_procedure_summary;
   acronyms_and_definitions; device_configuration_section; equipment_used;
   test_method_loss_investigations; test_result_summary; protocol_deviations;
   defective_unit_investigations; conclusion].

(** The prompt builders of [ai_prompts.py] and the prompt of the equipment
    task. *)
Record DVTPrompts := Prompts {
  scope_and_purpose_prompt : text -> text -> text -> text;
  reference_section_prompt : text -> text;
  test_procedure_summary_prompt : text -> text -> text;
  acronyms_definitions_prompt : text -> text;
  device_under_test_prompt :
    text -> DeviceUnderTestAgent.device_configuration -> Dict.dict text
    -> nat -> text;
  organize_prompt : text -> bool -> text;
  test_method_loss_prompt : text -> Dict.dict text -> text;
  test_result_summary_extraction_prompt : text -> text;
  get_protocol_deviations_prompt : text -> text;
  get_defective_unit_investigations_prompt : text -> text;
  get_conclusion_prompt : text -> text -> text
}.

(** What the tasks take from [re], [json] and [float]. *)
Record library := Library {
  py_float : text -> result spec_float;
  json_criteria : text -> list (Dict.dict text) * bool;
  fix_deviation_numbering : text -> text;
  clean_deviation_formatting : text -> text;
  fix_investigation_numbering : text -> text;
  clean_investigation_formatting : text -> text
}.

(** What the tasks are given. *)
Record inputs := Inputs {
  protocol_content : text;
  protocol_number : text;
  project_name : text;
  report_content : text;
  complete_report_content : text;
  excel_data : text;
  device_config : DeviceUnderTestAgent.device_configuration;
  report_config : Dict.dict text;
  parsed_data : Dict.dict (list EquipmentUsedAgent.row);
  calibration_verified : bool;
  attachment : option text;
  excel_data_dict : list (text * option TestMethodLossAgent.sheets);
  json_dumps : result text;
  stats : TestResultSummaryAgent.excel_stats;
  test_data_type : text;
  ai_friendly_format : text;
  deviations_text : text;
  defective_units_text : text;
  test_results_content : text;
  scope_content : text
}.

Definition run (lib : library) (prompts : DVTPrompts)
    (client : option ai_client) (i : inputs) (t : task) : TaskResult :=
  match t with
  | scope_and_purpose =>
      ScopeAndPurposeAgent.create_scope_and_purpose client
        (scope_and_purpose_prompt prompts)
        (protocol_content i) (protocol_number i) (project_name i)
  | reference_section =>
      ReferenceAgent.create_reference_section client
        (reference_section_prompt prompts) (report_content i)
  | test_procedure_summary =>
      TestProcedureSummaryAgent.create_test_procedure_summary client
        (test_procedure_summary_prompt prompts)
        (protocol_content i) (protocol_number i)
  | acronyms_and_definitions =>
      AcronymsDefinitionsAgent.create_acronyms_and_definitions client
        (acronyms_definitions_prompt prompts) (complete_report_content i)
  | device_configuration_section =>
      DeviceUnderTestAgent.create_device_configuration_section client
        (device_under_test_prompt prompts)
        (excel_data i) (device_config i) (report_config i)
  | equipment_used =>
      EquipmentUsedAgent.process client (organize_prompt prompts)
        (parsed_data i) (calibration_verified i) (attachment i)
  | test_method_loss_investigations =>
      TestMethodLossAgent.create_test_method_loss_investigations client
        (test_method_loss_prompt prompts) (excel_data_dict i) (report_config i)
  | test_result_summary =>
      TestResultSummaryAgent.create_test_result_summary (py_float lib) client
        (test_result_summary_extraction_prompt prompts) (json_criteria lib)
        (json_dumps i) (stats i) (test_data_type i) (protocol_content i)
        (ai_friendly_format i)
  | protocol_deviations =>
      ProtocolDeviationsAgent.process_deviations client
        (get_protocol_deviations_prompt prompts)
        (fix_deviation_numbering lib) (clean_deviation_formatting lib)
        (deviations_text i)
  | defective_unit_investigations =>
      DefectiveUnitInvestigationsAgent.process_defective_units client
        (get_defective_unit_investigations_prompt prompts)
        (fix_investigation_numbering lib) (clean_investigation_formatting lib)
        (defective_units_text i)
  | conclusion =>
      ConclusionAgent.generate_conclusion client
        (get_conclusion_prompt prompts)
        (test_results_content i) (scope_content i)
  end.

(** A capability that raises whatever the prompt: no client at all, or a
    client whose calls raise. *)
Definition raises (client : option ai_client) : Prop :=
  match client with
  | None => True
  | Some c =>
      forall prompt,
        (exists e, models_generate_content c prompt = Raise e) /\
        (exists e, chat_completions_create c prompt = Raise e)
  end.

(** A capability that returns empty content whatever the prompt. *)
Definition returns_empty (client : option ai_client) : Prop :=
  match client with
  | None => False
  | Some c =>
      forall prompt,
        models_generate_content c prompt = Ok [] /\
        chat_completions_create c prompt = Ok []
  end.

(** The result the specification asks for: a success that carries
    content. *)
Definition fallback_success (r : TaskResult) : Prop :=
  success r = true /\ content r <> [].

(** A failure that carries its error message and the content [c]. *)
Definition reported_failure (r : TaskResult) (c : text) : Prop :=
  success r = false /\ content r = c /\ error r <> None.

(** The tables of the protocol that the scope task appends. *)
Definition scope_tables (i : inputs) : list ScopeAndPurposeAgent.table_data :=
  filter ScopeAndPurposeAgent.is_scope_table
    (ScopeAndPurposeAgent._extract_tables_from_protocol (protocol_content i)).

(** No log holds a row. *)
Definition no_log_data (i : inputs) : bool :=
  negb (Py.nonempty (parsed_data i))
  || forallb (fun data => List.length data =? 0) (Dict.values (parsed_data i)).

(** The text of a deviation or defective-unit sheet says there is no
    data. *)
Definition no_data (message sheet_text : text) : bool :=
  negb (Py.truthy sheet_text) || Py.eqt (Py.strip sheet_text) message.

End GenerationTasks.

(** Sample worksheets. *)
Module Samples.
Import Excel.

(** A worksheet from its rows of cells; cells outside are [None]. *)
Definition grid (g : list (list cell_value)) : worksheet :=
  Worksheet (List.length g)
            (fold_left Nat.max (map (@List.length cell_value) g) 0)
            (fun r c => nth (c - 1) (nth (r - 1) g []) none_cell).

Definition txt (s : text) : cell_value := str_cell s.

(** Serial 100 twice (the later row wins), one row without a serial. *)
Definition losses_sheet : worksheet :=
  grid [ [txt "DUT Part Number"; txt "DUT Serial Number";
          txt "Test Result 1"; txt "Test Result 2"];
         [txt "P-1"; txt "100"; txt "PASS"; txt "PASS"];
         [txt "P-1"; none_cell; txt "PASS"; txt "FAIL"];
         [txt "P-1"; txt "100"; txt "TML"; txt "test method loss"] ].

(** Scenario A of the specification. *)
Definition scenario_a : list DocumentParser.element :=
  [ DocumentParser.Paragraph "1.0 PURPOSE";
    DocumentParser.Paragraph "1.1 The purpose of the test.";
    DocumentParser.Paragraph "2.0 SCOPE";
    DocumentParser.Paragraph "2.1 The scope of the test." ].

(** Sections met in the order 10.0, 2.0, 2.1, 1.0. *)
Definition shuffled_document : list DocumentParser.element :=
  [ DocumentParser.Paragraph "10.0 CONCLUSION";
    DocumentParser.Paragraph "All units passed.";
    DocumentParser.Paragraph "2.0 SCOPE";
    DocumentParser.Table [["REQ ID" : text; "Requirement" : text];
                          ["R-1" : text; "Battery life" : text]];
    DocumentParser.Paragraph "2.1 Accelerated aging";
    DocumentParser.Paragraph "1.0 PURPOSE" ].

Definition zero_hash (t : text) : Z := 0%Z.

(** [float(s)] on the strings of decimal digits, where it is the integer
    read as a float; it stands for [float] in the examples and reads nothing
    else. *)
Definition float_of_digits (s : text) : result spec_float :=
  if Py.isdigit s then Ok (PyFloat.of_Z (int_of_digits s))
  else Raise "could not convert string to float".

(** Scenario D of the specification: one defective unit in fifty. *)
Definition scenario_d : TestResultSummaryAgent.excel_stats :=
  TestResultSummaryAgent.ExcelStats 50 0 50 1.

Definition criterion_90_95 : Dict.dict text :=
  [("req_id" : text, "REQ-1" : text);
   ("acceptance_criteria" : text, "Battery life of 10 days" : text);
   ("confidence_reliability" : text, "90%/95%" : text)].

(** Searches that find nothing. *)
Definition no_match : TemplateAssembler.searches :=
  TemplateAssembler.Searches
    (fun _ => None) (fun _ => None) (fun _ => None) (fun _ => None)
    (fun _ => None) (fun _ => None) (fun _ => None) (fun _ => None)
    (fun _ => None).

(** A two-column table whose only data row has a cell of three dashes. *)
Definition dashes_table : text :=
  MarkdownSpec.md_table [" Item " : text; " Value " : text]
                        [" --- " : text; " --- " : text]
                        [[" Lot " : text; " --- " : text]].

(** A table with an empty cell. *)
Definition results_table : text :=
  MarkdownSpec.padded [[]] [[]; []]
    (MarkdownSpec.md_table [" REQ ID " : text; " Result " : text]
                           [" --- " : text; " --- " : text]
                           [[" R-1 " : text; "  " : text];
                            [" R-2 " : text; " PASS " : text]]).

(** A client whose calls raise, and one whose calls return nothing. *)
Definition unreachable_client : BaseDVTAgent.ai_client :=
  BaseDVTAgent.AIClient (fun _ => Raise "503 Service Unavailable")
                        (fun _ => Raise "503 Service Unavailable").

Definition silent_client : BaseDVTAgent.ai_client :=
  BaseDVTAgent.AIClient (fun _ => Ok []) (fun _ => Ok []).

(** Prompts that are the data alone. *)
Definition plain_prompts : GenerationTasks.DVTPrompts :=
  GenerationTasks.Prompts
    (fun protocol_content _ _ => protocol_content)
    (fun report_content => report_content)
    (fun protocol_content _ => protocol_content)
    (fun complete_report_content => complete_report_content)
    (fun excel_data _ _ _ => excel_data)
    (fun data_summary _ => data_summary)
    (fun excel_data _ => excel_data)
    (fun full_document_data => full_document_data)
    (fun deviations_text => deviations_text)
    (fun defective_units_text => defective_units_text)
    (fun test_results_content _ => test_results_content).

(** No JSON is read and the rewritings change nothing. *)
Definition plain_library : GenerationTasks.library :=
  GenerationTasks.Library float_of_digits (fun _ => ([], false))
    (fun content => content) (fun content => content)
    (fun content => content) (fun content => content).

(** A report with a scope table, one piece of equipment, one test method
    loss, one deviation and one defective unit. *)
Definition report_inputs : GenerationTasks.inputs :=
  GenerationTasks.Inputs
    (Py.join [Py.LF]
       ["2.0 SCOPE" : text;
        "| REQ ID | Requirement |" : text;
        "| --- | --- |" : text;
        "| R-1 | Battery life |" : text])
    "PT-100 rev A" "Pump" "Report text" "Report text with DVT"
    "=== WORKSHEET: TEST ARTICLE LOG & TEST RESULTS ==="
    (DeviceUnderTestAgent.DeviceConfig true false None)
    []
    [("EQUIPMENT LOG" : text,
      [[("Name" : text, "Scale" : text); ("ID" : text, "E-1" : text)]]);
     ("SOFTWARE LOG" : text, []);
     ("MATERIAL LOG" : text, [])]
    true None
    [("data.xlsx" : text,
      Some [("Test Method Losses" : text,
             [["#" : text; "PROTOCOL NOTE TYPE" : text];
              ["1" : text; "Test Method Loss" : text]])])]
    (Ok ("{}" : text)) scenario_d "attribute" []
    "Deviation 1: the test started late."
    "Unit 7 failed the leak test."
    "| REQ-1 | 49 of 50 units passed |"
    "The scope of the test.".

End Samples.

(** The specification's reading of the unique-DUT counter: [s] is an accepted
    serial number of [line] when [line] is a non-header data line, [s] is its
    second pipe-delimited column (trimmed), all digits and at least 8 long. *)
Definition accepted_serial (line s : text) : Prop :=
  Py.has_char Py.PIPE line = true /\
  Py.strip line <> [] /\
  Py.startswith "===" line = false /\
  Py.any_in DeviceUnderTestAgent.header_keywords (Py.upper line) = false /\
  (exists col, nth_error (Py.split Py.PIPE line) 1 = Some col
               /\ s = Py.strip col) /\
  Py.isdigit s = true /\
  8 <= List.length s.

Definition accepted_in (excel_data s : text) : Prop :=
  exists line, In line (Py.splitlines excel_data) /\ accepted_serial line s.

(** ** doc_parsers.py: the module-level functions *)

Module DocParsers.
Import DocumentParser.

Section Functions.
Variable py_hash : text -> Z.
Variable repr_row : Dict.dict text -> text.
Variable repr_table : list (Dict.dict text) -> text.


End Functions.
End DocParsers.

(** The specification's reading of the content of a section. *)
Module SectionContent.
Import DocumentParser.

(** A paragraph that is neither blank, nor an appendices heading, nor a
    section heading. *)
Definition plain (py_hash : text -> Z) (paragraph_text : text) : Prop :=
  Py.strip paragraph_text <> [] /\
  _should_stop_parsing (Py.strip paragraph_text) = false /\
  _extract_section_number py_hash (Py.strip paragraph_text) = None.

(** A paragraph that is the heading of the section [section_num]. *)
Definition heading (py_hash : text -> Z) (paragraph_text section_num title : text)
  : Prop :=
  Py.strip paragraph_text <> [] /\
  _should_stop_parsing (Py.strip paragraph_text) = false /\
  _extract_section_number py_hash (Py.strip paragraph_text)
  = Some (section_num, title).

(** The items [content_<start>], [content_<start+1>], ... holding the
    trimmed texts in order. *)
Definition content_items (start : nat) (paragraphs : list text)
  : Dict.dict value :=
  map (fun it => ("content_" ++ str_of_nat (fst it), VStr (Py.strip (snd it))))
      (Py.enumerate_from start paragraphs).

End SectionContent.

(** The specification's reading of the header row of the test-article
    sheet. *)
Module SerialHeader.
Import Excel.

(** The header of column [col] names the DUT serial number, in any case. *)
Definition serial_header (ws : worksheet) (col : nat) : bool :=
  Py.contains "dut serial" (Py.lower (header_name ws col)).

End SerialHeader.

(** Sample workbooks. *)
Module SampleWorkbooks.
Import Excel Samples.

Definition deviation_sheet : worksheet :=
  grid [ [txt "ID"; txt "Description"];
         [txt "D-1"; txt "late start"] ].

Definition later_deviation_sheet : worksheet :=
  grid [ [txt "ID"; txt "Description"];
         [txt "D-2"; txt "chamber door opened"];
         [txt "D-3"; txt "operator change"] ].

Definition deviation_workbook : Upload.load_result :=
  Upload.Workbook [ ("Deviations" : text, deviation_sheet);
                    ("Summary" : text, grid []);
                    (" deviations " : text, later_deviation_sheet) ].


End SampleWorkbooks.

(** ** excel_parsers.py: what the parsers report about their data *)

Module TestArticleReport.
Import Excel TestArticleParser.

(** [analysis[key]]: the dictionary of a sheet without result columns holds
    the message only, and the lookup of a counter raises [KeyError], whose
    text is the quoted key. *)
Definition counter (analysis : analysis_result) (key : text)
    (field : TestArticleParser.analysis -> Z) : result Z :=
  match analysis with
  | NoResultColumns => Raise ("'" ++ key ++ "'")
  | Stats a => Ok (field a)
  end.

Section Repr.
(** [str(record)] of a record dictionary. *)
Variable repr_record : record -> text.

(** [format_for_ai_prompt]; [parsed_data] is [self.parsed_data]. *)
Definition format_for_ai_prompt (parsed_data : Dict.dict sheet_data)
  : result text :=
  match Dict.get "TEST_ARTICLE_DATA" parsed_data with
  | None => Ok ("No test article data found." : text)
  | Some data =>
      let formatted_lines : list text :=
        [ "=== " ++ sheet_name data ++ " ===";
          "Primary Key: " ++ sd_primary_key data;
          "Total DUT Units: " ++ str_of_nat (total_units data);
          "Columns: " ++ Py.join ", " (sd_columns data);
          "Test Result Columns: " ++ Py.join ", " (test_result_columns data);
          [] ] in
      let analysis := test_results_analysis data in
      bind (counter analysis "total_tests_performed" total_tests_performed)
        (fun total =>
      bind (counter analysis "pass_count" pass_count) (fun pass =>
      bind (counter analysis "fail_count" fail_count) (fun fail =>
      bind (counter analysis "test_method_losses" test_method_losses)
        (fun losses =>
      bind (counter analysis "actual_sample_size" actual_sample_size)
        (fun actual =>
      let formatted_lines :=
        formatted_lines ++
        [ "Test Results Analysis:" : text;
          "  - Total Tests Performed: " ++ str_of_Z total;
          "  - PASS: " ++ str_of_Z pass;
          "  - FAIL: " ++ str_of_Z fail;
          "  - Test Method Losses: " ++ str_of_Z losses;
          "  - Actual Sample Size: " ++ str_of_Z actual;
          [] ] in
      let formatted_lines := formatted_lines ++ ["Sample Records:" : text] in
      let formatted_lines :=
        formatted_lines ++
        map (fun it : nat * (text * record) =>
               "  DUT " ++ str_of_nat (fst it) ++ " (" ++ fst (snd it) ++ "): "
               ++ repr_record (snd (snd it)))
            (Py.enumerate_from 1 (firstn 3 (records data))) in
      let formatted_lines :=
        if 3 <? total_units data
        then formatted_lines ++
             [ "  ... and " ++ str_of_nat (total_units data - 3)
               ++ " more DUT units" ]
        else formatted_lines in
      Ok (Py.join [Py.LF] formatted_lines))))))
  end.

End Repr.

(** [get_records_by_result]: the records with [result_type] in one of the
    result columns, each record once. *)
Definition get_records_by_result (parsed_data : Dict.dict sheet_data)
    (result_type : text) : list record :=
  match Dict.get "TEST_ARTICLE_DATA" parsed_data with
  | None => []
  | Some data =>
      filter (fun record =>
                existsb (fun col =>
                           Py.eqt (result_of record col) (Py.upper result_type))
                        (test_result_columns data))
             (Dict.values (records data))
  end.

(** [get_dut_count] *)
Definition get_dut_count (parsed_data : Dict.dict sheet_data) : nat :=
  match Dict.get "TEST_ARTICLE_DATA" parsed_data with
  | Some data => total_units data
  | None => 0
  end.

End TestArticleReport.

Module LogReport.
Import BaseExcelParser.

Section Repr.
(** [str(row)] of a row dictionary. *)
Variable repr_row : Dict.dict text -> text.

(** The lines [format_for_ai_prompt] of the three log parsers gives one
    sheet; the parsers differ in the words [noun] and [item]. *)
Definition sheet_lines (noun item : text) (entry : text * sheet_dict)
  : list text :=
  let sheet_data := snd entry in
  [ Py.LF :: "=== " ++ fst entry ++ " ===";
    "Found " ++ str_of_nat (row_count sheet_data) ++ " " ++ noun;
    "Columns: " ++ Py.join ", " (columns sheet_data) ]
  ++ map (fun it : nat * Dict.dict text =>
            "  " ++ item ++ " " ++ str_of_nat (fst it) ++ ": "
            ++ repr_row (snd it))
         (Py.enumerate_from 1 (firstn 3 (data sheet_data)))
  ++ (if 3 <? row_count sheet_data
      then [ "  ... and " ++ str_of_nat (row_count sheet_data - 3)
             ++ " more " ++ noun ]
      else []).

Definition format_sheets (none_found noun item : text)
    (parsed_data : Dict.dict sheet_dict) : text :=
  match parsed_data with
  | [] => none_found
  | _ => Py.join [Py.LF] (flat_map (sheet_lines noun item) parsed_data)
  end.

(** [DeviationsParser.format_for_ai_prompt] *)
Definition deviations_format_for_ai_prompt :=
  format_sheets "No deviations data found." "deviations" "Deviation".

(** [DefectiveUnitsParser.format_for_ai_prompt] *)
Definition defective_units_format_for_ai_prompt :=
  format_sheets "No defective units data found." "defective units"
                "Defective Unit".

(** [EquipmentUsedParser.format_for_ai_prompt] *)
Definition equipment_format_for_ai_prompt :=
  format_sheets "No equipment, software, or material log data found."
                "items" "Item".

End Repr.

End LogReport.

Module CombinedSummary.
Import TestArticleParser CombinedExcelParser TestArticleReport.

(** [_print_parsing_summary]: what it prints is left out, the lookups of the
    printed values are kept, in their order. *)
Definition _print_parsing_summary (all_parsed_data : all_results)
  : result unit :=
  match Dict.values (test_article_data all_parsed_data) with
  | [] => Ok tt
  | test_data :: _ =>
      let analysis := test_results_analysis test_data in
      bind (counter analysis "pass_count" pass_count) (fun _ =>
      bind (counter analysis "fail_count" fail_count) (fun _ =>
      bind (counter analysis "test_method_losses" test_method_losses)
        (fun _ =>
      bind (counter analysis "actual_sample_size" actual_sample_size)
        (fun _ => Ok tt))))
  end.

(** The whole of [parse_all_excel_files]: the loop, then the summary, then
    the results. *)
Definition parse_all_excel_files_and_report
    (data_files : list (option Upload.upload_file)) : result all_results :=
  let all_results := parse_all_excel_files data_files in
  bind (_print_parsing_summary all_results) (fun _ => Ok all_results).

End CombinedSummary.

(** ** report_generator.py: the Excel parsers in process_files *)

Module ProcessFiles.
Import Excel Upload.

(** A value of the dictionary [_parse_test_article_sheet] returns. *)
Inductive field_value :=
| FText (s : text)
| FNat (n : nat)
| FList (l : list text)
| FAnalysis (a : TestArticleParser.analysis_result)
| FRecords (r : Dict.dict TestArticleParser.record).

(** That dictionary, key by key. *)
Definition items (v : TestArticleParser.sheet_data) : Dict.dict field_value :=
  [ ("sheet_name" : text, FText (TestArticleParser.sheet_name v));
    ("primary_key" : text, FText (TestArticleParser.sd_primary_key v));
    ("columns" : text, FList (TestArticleParser.sd_columns v));
    ("total_units" : text, FNat (TestArticleParser.total_units v));
    ("test_result_columns" : text,
     FList (TestArticleParser.test_result_columns v));
    ("test_results_analysis" : text,
     FAnalysis (TestArticleParser.test_results_analysis v));
    ("records" : text, FRecords (TestArticleParser.records v)) ].

(** [v.get("Test Result") in values] *)
Definition test_result_in (values : list text)
    (v : TestArticleParser.sheet_data) : bool :=
  match Dict.get "Test Result" (items v) with
  | Some (FText s) => existsb (Py.eqt s) values
  | _ => false
  end.

Record statistics := Statistics {
  total_units : nat;
  test_method_losses : nat;
  actual_sample_size : nat
}.

Definition statistics_of
    (test_article_data : Dict.dict TestArticleParser.sheet_data)
  : statistics :=
  Statistics
    (List.length test_article_data)
    (List.length (filter (fun kv => test_result_in ["TML" : text] (snd kv))
                         test_article_data))
    (List.length (filter (fun kv => test_result_in ["PASS" : text; "FAIL" : text]
                                                   (snd kv))
                         test_article_data)).

Record test_articles_entry := TestArticles {
  raw_data : Dict.dict TestArticleParser.sheet_data;
  ai_format : text;
  stats : statistics
}.

Record parsed_excel_data := ParsedExcelData {
  test_articles : option test_articles_entry;
  equipment_logs : option (Dict.dict BaseExcelParser.sheet_dict * text);
  deviations : option (Dict.dict BaseExcelParser.sheet_dict * text);
  defective_units : option (Dict.dict BaseExcelParser.sheet_dict * text)
}.

Section Repr.
Variable repr_record : TestArticleParser.record -> text.
Variable repr_row : Dict.dict text -> text.

(** The [try] block of the loop over the data files, with fresh parsers. *)
Definition parse_with_all_parsers (pe : parsed_excel_data) (data_file : upload_file)
  : result parsed_excel_data :=
  bind (BaseExcelParser.parse_uploaded_file
          (TestArticleFile.parse_excel_file
             TestArticleParser.initial_primary_key)
          ([], TestArticleParser.initial_primary_key) data_file)
    (fun test =>
  let test_article_data := fst test in
  bind (if CombinedExcelParser.truthy_dict test_article_data then
          bind (TestArticleReport.format_for_ai_prompt repr_record
                  test_article_data)
            (fun ai_prompt_data =>
               Ok (ParsedExcelData
                     (Some (TestArticles test_article_data ai_prompt_data
                                         (statistics_of test_article_data)))
                     (equipment_logs pe) (deviations pe) (defective_units pe)))
        else Ok pe)
    (fun pe1 =>
  bind (BaseExcelParser.parse_uploaded_file
          EquipmentUsedParser.parse_excel_file [] data_file)
    (fun equipment_sheets_data =>
  let pe2 :=
    if CombinedExcelParser.truthy_dict equipment_sheets_data then
      ParsedExcelData
        (test_articles pe1)
        (Some (equipment_sheets_data,
               LogReport.equipment_format_for_ai_prompt repr_row
                 equipment_sheets_data))
        (deviations pe1) (defective_units pe1)
    else pe1 in
  bind (BaseExcelParser.parse_uploaded_file
          DeviationsParser.parse_excel_file [] data_file)
    (fun deviations_data =>
  let pe3 :=
    if CombinedExcelParser.truthy_dict deviations_data then
      ParsedExcelData
        (test_articles pe2) (equipment_logs pe2)
        (Some (deviations_data,
               LogReport.deviations_format_for_ai_prompt repr_row
                 deviations_data))
        (defective_units pe2)
    else pe2 in
  bind (BaseExcelParser.parse_uploaded_file
          DefectiveUnitsParser.parse_excel_file [] data_file)
    (fun defective_units_data =>
  let pe4 :=
    if CombinedExcelParser.truthy_dict defective_units_data then
      ParsedExcelData
        (test_articles pe3) (equipment_logs pe3) (deviations pe3)
        (Some (defective_units_data,
               LogReport.defective_units_format_for_ai_prompt repr_row
                 defective_units_data))
    else pe3 in
  Ok pe4))))).

(** The block with its [except], which prints the error and goes on: what
    was stored before the exception stays, and the only call of the block
    that can raise comes before the first store. *)
Definition enhanced_excel_parsing (pe : parsed_excel_data)
    (data_file : upload_file) : parsed_excel_data :=
  try_except (parse_with_all_parsers pe data_file) (fun _ => pe).

End Repr.

End ProcessFiles.

(** A sample upload: a test-article sheet without result columns beside a
    deviations sheet. *)
Module SampleUploads.
Import Excel Upload Samples.

Definition article_sheet : worksheet :=
  grid [ [txt "DUT Serial Number"; txt "Outcome"];
         [txt "100"; txt "PASS"] ].

Definition sheets : list (text * worksheet) :=
  [ ("Test Article Log" : text, article_sheet);
    ("Deviations" : text, SampleWorkbooks.deviation_sheet) ].

Definition data_file : upload_file :=
  UploadFile (Some ("results.xlsx" : text)) (Bytes (Workbook sheets)).

Definition nothing_parsed : ProcessFiles.parsed_excel_data :=
  ProcessFiles.ParsedExcelData None None None None.

End SampleUploads.

(** ** report_generator.py: the tables and placeholders it writes itself *)

Module ReportTables.

(** The header and the separator line of the chronology table, as the
    triple-quoted strings hold them. *)
Definition chronology_head : text :=
  [Py.LF] ++ "| Step | Start Date | End Date | Location |" ++ [Py.LF]
  ++ "|------|------------|----------|----------|" ++ [Py.LF].

Definition chronology_row (item : Dict.dict text) : text :=
  let step := Py.strip (TemplateAssembler.get_or_empty "step" item) in
  let start_date := Py.strip (TemplateAssembler.get_or_empty "start_date" item) in
  let end_date := Py.strip (TemplateAssembler.get_or_empty "end_date" item) in
  let location := Py.strip (TemplateAssembler.get_or_empty "location" item) in
  "| " ++ step ++ " | " ++ start_date ++ " | " ++ end_date ++ " | "
  ++ location ++ " |" ++ [Py.LF].

(** [create_test_execution_chronology] *)
Definition create_test_execution_chronology
    (chronology_data : list (Dict.dict text)) : text :=
  match chronology_data with
  | [] =>
      chronology_head ++ "|      |            |          |          |"
      ++ [Py.LF]
  | _ =>
      Py.strip (fold_left (fun table_content item =>
                             table_content ++ chronology_row item)
                          chronology_data chronology_head)
  end.

(** [create_test_result_analysis_images] *)
Definition create_test_result_analysis_images (image_paths : list text)
  : text :=
  match image_paths with
  | [] => "TBD"
  | _ =>
      "{ANALYSIS_IMAGES:" ++ str_of_nat (List.length image_paths) ++ ":"
      ++ Py.join "|" image_paths ++ "}"
  end.

End ReportTables.

(** The specification's reading of the tables the program writes. *)
Module TableSpec.

(** A cell as the generators write it, between two blanks. *)
Definition pad (c : text) : text := " " ++ c ++ " ".

(** The line [_format_word_table] writes for a row. *)
Definition line (row : list text) : text :=
  "| " ++ Py.join " | " row ++ " |".

(** The four cells of a chronology item. *)
Definition chronology_cells (item : Dict.dict text) : list text :=
  [ Py.strip (TemplateAssembler.get_or_empty "step" item);
    Py.strip (TemplateAssembler.get_or_empty "start_date" item);
    Py.strip (TemplateAssembler.get_or_empty "end_date" item);
    Py.strip (TemplateAssembler.get_or_empty "location" item) ].

Definition chronology_header : list text :=
  [ "Step" : text; "Start Date" : text; "End Date" : text; "Location" : text ].

End TableSpec.

(** * Part II: properties *)

(** ** Python strings *)

Module PyFacts.

Lemma eqc_true a b : Py.eqc a b = true <-> a = b.
Proof. unfold Py.eqc. apply Ascii.eqb_eq. Qed.

Lemma eqt_true a : forall b, Py.eqt a b = true <-> a = b.
Proof.
  induction a as [|x a IH]; intros [|y b]; simpl; split; intro H;
    try reflexivity; try discriminate.
  - apply andb_true_iff in H as [Hx Ha].
    apply eqc_true in Hx. apply IH in Ha. congruence.
  - injection H as -> ->. apply andb_true_iff. split.
    + now apply eqc_true.
    + now apply IH.
Qed.

Lemma existsb_eqt x l : existsb (Py.eqt x) l = true <-> In x l.
Proof.
  rewrite existsb_exists. split.
  - intros [y [Hy He]]. apply eqt_true in He. now subst.
  - intro H. exists x. split; [assumption | now apply eqt_true].
Qed.

Lemma set_add_In x s y : In y (Py.set_add x s) <-> In y s \/ y = x.
Proof.
  unfold Py.set_add. destruct (existsb (Py.eqt x) s) eqn:E.
  - apply existsb_eqt in E. split; [now left | intros [H| ->]; assumption].
  - rewrite in_app_iff. simpl. intuition congruence.
Qed.

Lemma set_add_NoDup x s : NoDup s -> NoDup (Py.set_add x s).
Proof.
  intro H. unfold Py.set_add. destruct (existsb (Py.eqt x) s) eqn:E; [assumption|].
  assert (Hx : ~ In x s).
  { intro Hin. apply existsb_eqt in Hin. congruence. }
  clear E. induction H as [|y s Hy Hs IH]; simpl.
  - constructor; [intros [] | constructor].
  - constructor.
    + rewrite in_app_iff. intros [Hin|[Heq|[]]]; [now apply Hy|].
      subst. apply Hx. now left.
    + apply IH. intro Hin. apply Hx. now right.
Qed.

(** [lstrip] removes a prefix of white space and stops at the first other
    character. *)
Lemma lstrip_split s :
  exists w, s = w ++ Py.lstrip s /\ forallb Py.isspace w = true.
Proof.
  induction s as [|c s [w [Hs Hw]]]; simpl.
  - exists []. now split.
  - destruct (Py.isspace c) eqn:E.
    + exists (c :: w). simpl. rewrite E, Hw. split; [now f_equal | reflexivity].
    + exists []. now split.
Qed.

Lemma lstrip_head s c r : Py.lstrip s = c :: r -> Py.isspace c = false.
Proof.
  induction s as [|d s IH]; simpl; [discriminate|].
  destruct (Py.isspace d) eqn:E; [assumption|].
  intro H. injection H as -> _. assumption.
Qed.

Lemma lstrip_id s :
  match s with [] => True | c :: _ => Py.isspace c = false end ->
  Py.lstrip s = s.
Proof. destruct s as [|c s]; simpl; [reflexivity|]. now intros ->. Qed.

Lemma lstrip_idem s : Py.lstrip (Py.lstrip s) = Py.lstrip s.
Proof.
  apply lstrip_id. destruct (Py.lstrip s) eqn:E; [exact I|].
  now apply lstrip_head in E.
Qed.

Lemma rstrip_split s :
  exists w, s = Py.rstrip s ++ w /\ forallb Py.isspace w = true.
Proof.
  destruct (lstrip_split (rev s)) as [w [Hs Hw]].
  exists (rev w). split.
  - unfold Py.rstrip. rewrite <- rev_app_distr, <- Hs. now rewrite rev_involutive.
  - rewrite forallb_forall in *. intros x Hx. apply Hw. now apply in_rev.
Qed.

Lemma rstrip_idem s : Py.rstrip (Py.rstrip s) = Py.rstrip s.
Proof.
  unfold Py.rstrip. rewrite rev_involutive. now rewrite lstrip_idem.
Qed.

(** What [rstrip] leaves of a left-trimmed string is still left-trimmed. *)
Lemma lstrip_rstrip_lstrip s :
  Py.lstrip (Py.rstrip (Py.lstrip s)) = Py.rstrip (Py.lstrip s).
Proof.
  apply lstrip_id.
  destruct (rstrip_split (Py.lstrip s)) as [w [Hs _]].
  destruct (Py.rstrip (Py.lstrip s)) as [|c r] eqn:E; [exact I|].
  simpl in Hs. now apply lstrip_head in Hs.
Qed.

Lemma strip_idem s : Py.strip (Py.strip s) = Py.strip s.
Proof.
  unfold Py.strip. rewrite lstrip_rstrip_lstrip. apply rstrip_idem.
Qed.

Lemma truthy_true s : Py.truthy s = true <-> s <> [].
Proof. destruct s; simpl; split; congruence. Qed.

End PyFacts.

(** ** The unique-DUT counter *)

Module DeviceUnderTestAgentFacts.
Import DeviceUnderTestAgent.

Lemma scan_line_In acc line s :
  In s (scan_line acc line) <-> In s acc \/ accepted_serial line s.
Proof.
  unfold scan_line, accepted_serial.
  destruct (Py.has_char Py.PIPE line) eqn:E1; cbn [andb negb];
    [|split; [now left | intros [H|H]; [assumption | destruct H; discriminate]]].
  destruct (Py.truthy (Py.strip line)) eqn:E2; cbn [andb negb].
  2:{ split; [now left | intros [H|(_ & H & _)]; [assumption|]].
      apply PyFacts.truthy_true in H. congruence. }
  apply PyFacts.truthy_true in E2.
  destruct (Py.startswith "===" line) eqn:E3; cbn [andb negb];
    [split; [now left | intros [H|(_ & _ & H & _)]; [assumption | discriminate]]|].
  destruct (Py.any_in header_keywords (Py.upper line)) eqn:E4;
    [split; [now left | intros [H|(_ & _ & _ & H & _)]; [assumption | discriminate]]|].
  cbv zeta. rewrite length_map.
  destruct (Py.split Py.PIPE line) as [|p0 [|p1 ps]] eqn:E5;
    cbn [List.length map nth nth_error]; simpl (2 <=? _); cbv iota.
  - split; [now left | intros [H|(_ & _ & _ & _ & (c & H & _) & _)];
                        [assumption | discriminate]].
  - split; [now left | intros [H|(_ & _ & _ & _ & (c & H & _) & _)];
                        [assumption | discriminate]].
  - rewrite PyFacts.strip_idem.
    destruct (Py.truthy (Py.strip p1) && Py.isdigit (Py.strip p1)
              && (8 <=? List.length (Py.strip p1))) eqn:E6.
    + apply andb_true_iff in E6 as [E6 E8].
      apply andb_true_iff in E6 as [_ E7]. apply Nat.leb_le in E8.
      rewrite PyFacts.set_add_In. split.
      * intros [H| ->]; [now left|]. right.
        repeat split; try assumption. exists p1. now split.
      * intros [H|(_ & _ & _ & _ & (c & Hc & ->) & _)]; [now left|].
        right. now injection Hc as <-.
    + split; [now left|].
      intros [H|(_ & _ & _ & _ & (c & Hc & ->) & Hd & Hl)]; [assumption|].
      injection Hc as <-. apply Nat.leb_le in Hl. rewrite Hd, Hl in E6.
      destruct (Py.strip p1); discriminate.
Qed.

Lemma scan_line_NoDup acc line : NoDup acc -> NoDup (scan_line acc line).
Proof.
  intro H. unfold scan_line.
  repeat match goal with
         | |- NoDup (if ?b then _ else _) => destruct b
         | |- NoDup (let _ := _ in _) => cbv zeta
         end; try assumption.
  now apply PyFacts.set_add_NoDup.
Qed.

Lemma fold_scan_In lines : forall acc s,
  In s (fold_left scan_line lines acc) <->
  In s acc \/ exists line, In line lines /\ accepted_serial line s.
Proof.
  induction lines as [|l lines IH]; intros acc s; simpl.
  - split; [now left | intros [H|[x [[] _]]]; assumption].
  - rewrite IH, scan_line_In. split.
    + intros [[H|H]|[x [Hx Ha]]]; [now left | right; exists l; auto |].
      right. exists x. auto.
    + intros [H|[x [[->|Hx] Ha]]]; [now left; left | now left; right |].
      right. exists x. auto.
Qed.

Lemma fold_scan_NoDup lines : forall acc,
  NoDup acc -> NoDup (fold_left scan_line lines acc).
Proof.
  induction lines as [|l lines IH]; intros acc H; simpl; [assumption|].
  apply IH. now apply scan_line_NoDup.
Qed.

(** C3 (as amended).  The counter returns [max 1 n], where [n] is the number
    of distinct accepted serial numbers of the input: the serial numbers
    collected are duplicate-free and are exactly the accepted ones, and the
    result is their number floored at 1. *)
Theorem count_test_articles_is_floored_distinct_count (excel_data : text) :
  exists serials : list text,
    NoDup serials /\
    (forall s, In s serials <-> accepted_in excel_data s) /\
    _count_test_articles_in_content excel_data
    = Nat.max 1 (List.length serials) /\
    1 <= _count_test_articles_in_content excel_data.
Proof.
  exists (scan_lines (Py.splitlines excel_data)). split; [|split; [|split]].
  - apply fold_scan_NoDup. constructor.
  - intro s. unfold scan_lines, accepted_in. rewrite fold_scan_In.
    split; [intros [[]|H]; assumption | now right].
  - reflexivity.
  - unfold _count_test_articles_in_content. cbv zeta. lia.
Qed.

(** C3 (as stated) fails: the count is not always the number of distinct
    accepted serial numbers.  On the empty input nothing is accepted, yet the
    count is 1. *)
Lemma count_test_articles_empty_input_counterexample :
  ~ (forall (excel_data : text) (serials : list text),
        NoDup serials ->
        (forall s, In s serials <-> accepted_in excel_data s) ->
        _count_test_articles_in_content excel_data = List.length serials).
Proof.
  intro H. specialize (H [] []).
  assert (E : _count_test_articles_in_content [] = 1) by reflexivity.
  rewrite E in H. simpl in H.
  assert (H0 : 1 = 0); [|discriminate].
  apply H; [constructor|]. intro s. split; [intros []|].
  intros [line [Hl Ha]]. simpl in Hl. destruct Hl as [<-|[]].
  destruct Ha as [Hp _]. discriminate.
Qed.

End DeviceUnderTestAgentFacts.

(** ** Dictionaries *)

Module DictFacts.
Section DictFacts.
Context {V : Type}.
Implicit Types (d : Dict.dict V) (k : text) (v : V).

Lemma get_set k k' v d :
  Dict.get k (Dict.set k' v d) = if Py.eqt k k' then Some v else Dict.get k d.
Proof.
  induction d as [|[k0 v0] d IH]; simpl.
  - destruct (Py.eqt k k'); reflexivity.
  - destruct (Py.eqt k' k0) eqn:E; simpl.
    + apply PyFacts.eqt_true in E. subst k0.
      destruct (Py.eqt k k'); reflexivity.
    + destruct (Py.eqt k k0) eqn:E0.
      * apply PyFacts.eqt_true in E0. subst k0.
        destruct (Py.eqt k k') eqn:E1; [|reflexivity].
        apply PyFacts.eqt_true in E1. subst k'.
        assert (Py.eqt k k = true) by now apply PyFacts.eqt_true.
        congruence.
      * exact IH.
Qed.

Lemma keys_set k k' v d :
  In k (Dict.keys (Dict.set k' v d)) <-> k = k' \/ In k (Dict.keys d).
Proof.
  unfold Dict.keys. induction d as [|[k0 v0] d IH]; simpl.
  - intuition.
  - destruct (Py.eqt k' k0) eqn:E; simpl.
    + apply PyFacts.eqt_true in E. subst k0. intuition.
    + rewrite IH. intuition.
Qed.

Lemma keys_set_NoDup k v d :
  NoDup (Dict.keys d) -> NoDup (Dict.keys (Dict.set k v d)).
Proof.
  unfold Dict.keys. induction d as [|[k0 v0] d IH]; simpl; intro H.
  - constructor; [intros [] | constructor].
  - inversion H as [|? ? Hn Hd]; subst.
    destruct (Py.eqt k k0) eqn:E; simpl.
    + apply PyFacts.eqt_true in E. subst k0. now constructor.
    + constructor; [|now apply IH].
      intro Hin. apply (keys_set k0 k v d) in Hin. destruct Hin as [->|Hin].
      * assert (Py.eqt k k = true) by now apply PyFacts.eqt_true. congruence.
      * now apply Hn.
Qed.

Lemma get_Some_In k d : (exists v, Dict.get k d = Some v) <-> In k (Dict.keys d).
Proof.
  unfold Dict.keys. induction d as [|[k0 v0] d IH]; simpl.
  - split; [intros [v H]; discriminate | intros []].
  - destruct (Py.eqt k k0) eqn:E.
    + apply PyFacts.eqt_true in E. subst. split; [now left | now exists v0].
    + rewrite IH. split; [now right | intros [->|H]; [|assumption]].
      assert (Py.eqt k k = true) by now apply PyFacts.eqt_true. congruence.
Qed.

End DictFacts.
End DictFacts.

(** ** The test-article worksheet *)

Module TestArticleParserFacts.
Import Excel TestArticleParser TestArticleSpec.

Lemma in_range lo hi n : In n (range lo hi) <-> lo <= n < hi.
Proof. unfold range. rewrite in_seq. lia. Qed.

Section Row.
Variables (ws : worksheet) (cols : list text) (pk_col row : nat).

Let step := cell_step ws cols pk_col row.

Lemma fold_cell_key l : forall st,
  primary_key_value (fold_left step l st)
  = if existsb (Nat.eqb pk_col) l then Some (key_of ws pk_col row)
    else primary_key_value st.
Proof.
  induction l as [|c l IH]; intro st; simpl; [reflexivity|].
  rewrite IH. rewrite (Nat.eqb_sym pk_col c).
  destruct (existsb (Nat.eqb pk_col) l); [now rewrite orb_true_r|].
  rewrite orb_false_r. unfold step, cell_step; simpl.
  destruct (c =? pk_col) eqn:E; [|reflexivity].
  apply Nat.eqb_eq in E. now subst.
Qed.

Lemma fold_cell_has_data l : forall st,
  has_data (fold_left step l st)
  = has_data st
    || existsb (fun c => Py.truthy (cell_text (cell ws row c))) l.
Proof.
  induction l as [|c l IH]; intro st; simpl; [now rewrite orb_false_r|].
  rewrite IH. unfold step, cell_step; simpl.
  destruct (Py.truthy (cell_text (cell ws row c))), (has_data st); reflexivity.
Qed.

Lemma fold_cell_row_dict l : forall st,
  row_dict (fold_left step l st)
  = fold_left (fun d col =>
                 Dict.set (column_name_at cols col) (cell_text (cell ws row col)) d)
              l (row_dict st).
Proof.
  induction l as [|c l IH]; intro st; simpl; [reflexivity|]. now rewrite IH.
Qed.

Hypothesis pk_in_range : In pk_col (range 1 (max_column ws + 1)).

Lemma keyed_scan_row trc :
  keyed (scan_row ws cols pk_col trc row)
  = if Py.truthy (key_of ws pk_col row) then Some (key_of ws pk_col row)
    else None.
Proof.
  unfold keyed, scan_row. fold step.
  rewrite fold_cell_key, fold_cell_has_data. simpl has_data.
  assert (E : existsb (Nat.eqb pk_col) (range 1 (max_column ws + 1)) = true).
  { apply existsb_exists. exists pk_col. split; [assumption|].
    apply Nat.eqb_refl. }
  rewrite E.
  destruct (Py.truthy (key_of ws pk_col row)) eqn:T.
  - replace (existsb _ _) with true; [reflexivity|].
    symmetry. apply existsb_exists. exists pk_col. now split.
  - now destruct (false || existsb _ _).
Qed.

Lemma row_dict_scan_row trc :
  row_dict (scan_row ws cols pk_col trc row) = row_record ws cols row.
Proof. unfold scan_row. fold step. now rewrite fold_cell_row_dict. Qed.

End Row.

Section Rows.
Variables (ws : worksheet) (cols : list text) (pk_col : nat).
Hypothesis pk_in_range : In pk_col (range 1 (max_column ws + 1)).

Let keyed_step := keyed_step ws cols pk_col.

Lemma fst_fold_rows rows : forall acc,
  fst (fold_left (row_step ws cols pk_col) rows acc)
  = fold_left keyed_step rows (fst acc).
Proof.
  induction rows as [|r rows IH]; intro acc; simpl; [reflexivity|].
  rewrite IH. f_equal. unfold row_step, keyed_step, TestArticleSpec.keyed_step.
  rewrite keyed_scan_row by assumption.
  destruct (Py.truthy (key_of ws pk_col r)); simpl; [|reflexivity].
  now rewrite row_dict_scan_row.
Qed.

Lemma fold_keys rows : forall acc k,
  In k (Dict.keys (fold_left keyed_step rows acc)) <->
  In k (Dict.keys acc)
  \/ (k <> [] /\ exists row, In row rows /\ key_of ws pk_col row = k).
Proof.
  induction rows as [|r rows IH]; intros acc k; simpl.
  - split; [now left | intros [H|[_ [x [[] _]]]]; assumption].
  - rewrite IH. unfold keyed_step, TestArticleSpec.keyed_step.
    destruct (Py.truthy (key_of ws pk_col r)) eqn:T.
    + apply PyFacts.truthy_true in T. rewrite DictFacts.keys_set. split.
      * intros [[->|H]|[Hk [x [Hx He]]]]; [right | now left | right].
        -- split; [assumption|]. exists r. auto.
        -- split; [assumption|]. exists x. auto.
      * intros [H|[Hk [x [[->|Hx] He]]]]; [now left; right | now left; left |].
        right. split; [assumption|]. exists x. auto.
    + split.
      * intros [H|[Hk [x [Hx He]]]]; [now left|].
        right. split; [assumption|]. exists x. auto.
      * intros [H|[Hk [x [[->|Hx] He]]]]; [now left | |].
        -- subst k. destruct (key_of ws pk_col x); [congruence | discriminate].
        -- right. split; [assumption|]. exists x. auto.
Qed.

Lemma fold_keys_NoDup rows : forall acc,
  NoDup (Dict.keys acc) -> NoDup (Dict.keys (fold_left keyed_step rows acc)).
Proof.
  induction rows as [|r rows IH]; intros acc H; simpl; [assumption|].
  apply IH. unfold keyed_step, TestArticleSpec.keyed_step.
  destruct (Py.truthy (key_of ws pk_col r)); [|assumption].
  now apply DictFacts.keys_set_NoDup.
Qed.

(** The record kept under a key is the one of the last row carrying it. *)
Lemma fold_get_last rows : forall acc k rd,
  Dict.get k (fold_left keyed_step rows acc) = Some rd <->
  (exists before row after,
      rows = before ++ row :: after /\ key_of ws pk_col row = k /\ k <> [] /\
      rd = row_record ws cols row /\
      forall r', In r' after -> key_of ws pk_col r' <> k)
  \/ ((forall r, In r rows -> key_of ws pk_col r = k -> k = []) /\
      Dict.get k acc = Some rd).
Proof.
  induction rows as [|r rows IH]; intros acc k rd; simpl.
  - split.
    + intro H. right. split; [intros r []|assumption].
    + intros [(b & r & a & H & _)|[_ H]]; [|assumption].
      destruct b; discriminate.
  - rewrite IH. split.
    + intros [(b & x & a & -> & Hk & Hne & Hrd & Hl)|[Hno Hg]].
      * left. exists (r :: b), x, a. now repeat split.
      * unfold keyed_step, TestArticleSpec.keyed_step in Hg.
        destruct (Py.truthy (key_of ws pk_col r)) eqn:T.
        -- rewrite DictFacts.get_set in Hg.
           destruct (Py.eqt k (key_of ws pk_col r)) eqn:E.
           ++ apply PyFacts.eqt_true in E. apply PyFacts.truthy_true in T.
              left. exists [], r, rows. injection Hg as <-.
              repeat split; try congruence.
              intros r' Hr' He. apply T. rewrite <- E. apply (Hno r' Hr' He).
           ++ right. split; [|assumption]. intros x [->|Hx] He.
              ** subst k. assert (Py.eqt (key_of ws pk_col x) (key_of ws pk_col x) = true)
                   by now apply PyFacts.eqt_true.
                 congruence.
              ** now apply (Hno x).
        -- right. split; [|assumption]. intros x [->|Hx] He.
           ++ subst k. now destruct (key_of ws pk_col x).
           ++ now apply (Hno x).
    + intros [(b & x & a & Hrows & Hk & Hne & Hrd & Hl)|[Hno Hg]].
      * destruct b as [|r0 b]; simpl in Hrows; injection Hrows as -> ->.
        -- right. split.
           ++ intros r' Hr' He. exfalso. now apply (Hl r').
           ++ unfold keyed_step, TestArticleSpec.keyed_step. subst k rd.
              apply PyFacts.truthy_true in Hne. rewrite Hne.
              rewrite DictFacts.get_set.
              assert (E : Py.eqt (key_of ws pk_col x) (key_of ws pk_col x) = true)
                by now apply PyFacts.eqt_true.
              now rewrite E.
        -- left. exists b, x, a. now repeat split.
      * right. split; [intros x Hx; apply Hno; now right|].
        unfold keyed_step, TestArticleSpec.keyed_step.
        destruct (Py.truthy (key_of ws pk_col r)) eqn:T;
          [|assumption].
        rewrite DictFacts.get_set.
        destruct (Py.eqt k (key_of ws pk_col r)) eqn:E; [|assumption].
        apply PyFacts.eqt_true in E. apply PyFacts.truthy_true in T.
        exfalso. apply T. rewrite <- E. apply (Hno r); [now left | congruence].
Qed.

End Rows.

Lemma fold_header_col ws l : forall st c,
  primary_key_col (fold_left (header_step ws) l st) = Some c ->
  In c l \/ primary_key_col st = Some c.
Proof.
  induction l as [|x l IH]; intros st c H; simpl in *; [now right|].
  apply IH in H. destruct H as [H|H]; [now left; right|].
  unfold header_step in H.
  destruct (_ || _) in H; simpl in H; [|now right].
  injection H as ->. now left; left.
Qed.

Lemma key_column_in_range pk ws c :
  key_column pk ws = Some c -> In c (range 1 (max_column ws + 1)).
Proof.
  unfold key_column, scan_header. intro H.
  apply fold_header_col in H. destruct H as [H|H]; [assumption|discriminate].
Qed.

(** C10.  When the sheet is parsed, the keyed records are exactly those of
    the data rows whose primary-key cell is not empty: a row with an empty
    key cell adds nothing, whatever its other cells hold; [total_units] is
    the number of distinct non-empty key values; under each key the record of
    the last row carrying it is kept. *)
Theorem records_keyed_by_nonempty_serial
    (self_primary_key : text) (ws : worksheet) (name : text) (sd : sheet_data) :
  _parse_test_article_sheet self_primary_key ws name = Some sd ->
  exists pk_col,
    key_column self_primary_key ws = Some pk_col /\
    NoDup (Dict.keys (records sd)) /\
    total_units sd = List.length (Dict.keys (records sd)) /\
    (forall k, In k (Dict.keys (records sd)) <->
               k <> [] /\
               exists row, In row (data_rows ws) /\ key_of ws pk_col row = k) /\
    (forall k rd,
        Dict.get k (records sd) = Some rd <->
        exists before row after,
          data_rows ws = before ++ row :: after /\
          key_of ws pk_col row = k /\ k <> [] /\
          rd = row_record ws (sd_columns sd) row /\
          forall r', In r' after -> key_of ws pk_col r' <> k).
Proof.
  unfold _parse_test_article_sheet. destruct (max_row ws <? 2); [discriminate|].
  destruct (primary_key_col (scan_header self_primary_key ws)) as [pk_col|] eqn:E;
    [|discriminate].
  intro H. injection H as <-. cbn [records total_units sd_columns].
  exists pk_col. split; [exact E|].
  pose proof (key_column_in_range _ _ _ E) as Hr.
  unfold scan_rows. rewrite (fst_fold_rows ws _ pk_col Hr).
  cbn [fst]. fold (data_rows ws). split; [|split; [|split]].
  - apply fold_keys_NoDup. constructor.
  - unfold Dict.keys. now rewrite length_map.
  - intro k. rewrite fold_keys. split; [intros [[]|H]; assumption | now right].
  - intros k rd. rewrite fold_get_last. split.
    + intros [H|[_ H]]; [assumption | discriminate].
    + intro H. now left.
Qed.

Lemma records_keyed_by_nonempty_serial_witness :
  exists sd,
    _parse_test_article_sheet initial_primary_key Samples.losses_sheet "LOG"
    = Some sd /\
    exists pk_col,
      key_column initial_primary_key Samples.losses_sheet = Some pk_col /\
      NoDup (Dict.keys (records sd)) /\
      total_units sd = List.length (Dict.keys (records sd)) /\
      (forall k, In k (Dict.keys (records sd)) <->
                 k <> [] /\
                 exists row, In row (data_rows Samples.losses_sheet)
                             /\ key_of Samples.losses_sheet pk_col row = k) /\
      (forall k rd,
          Dict.get k (records sd) = Some rd <->
          exists before row after,
            data_rows Samples.losses_sheet = before ++ row :: after /\
            key_of Samples.losses_sheet pk_col row = k /\ k <> [] /\
            rd = row_record Samples.losses_sheet (sd_columns sd) row /\
            forall r', In r' after -> key_of Samples.losses_sheet pk_col r' <> k).
Proof.
  eexists. split; [vm_compute; reflexivity|].
  apply (records_keyed_by_nonempty_serial
           initial_primary_key Samples.losses_sheet "LOG").
  vm_compute. reflexivity.
Defined.

(** *** The statistics *)

Lemma is_tml_classified r :
  is_tml r = true ->
  Py.truthy r = true /\ Py.eqt r "PASS" = false /\ Py.eqt r "FAIL" = false.
Proof.
  unfold is_tml. simpl. rewrite orb_false_r. intro H.
  apply orb_true_iff in H as [H|H]; apply PyFacts.eqt_true in H; subst;
    repeat split; reflexivity.
Qed.

Lemma result_step_losses rec st col :
  test_method_losses (fst (result_step rec st col))
  = (test_method_losses (fst st)
     + if is_tml (result_of rec col) then 1 else 0)%Z.
Proof.
  unfold result_step. cbv zeta. destruct (is_tml (result_of rec col)) eqn:E.
  - destruct (is_tml_classified _ E) as (-> & -> & ->). reflexivity.
  - destruct (Py.truthy _); [|simpl; lia].
    destruct (Py.eqt _ "PASS"); [simpl; lia|].
    destruct (Py.eqt _ "FAIL"); simpl; lia.
Qed.

Lemma fold_result_losses rec cols : forall st,
  test_method_losses (fst (fold_left (result_step rec) cols st))
  = (test_method_losses (fst st)
     + Z.of_nat (List.length
                   (filter (fun col => is_tml (result_of rec col)) cols)))%Z.
Proof.
  induction cols as [|c cols IH]; intro st; simpl; [lia|].
  rewrite IH, result_step_losses.
  destruct (is_tml (result_of rec c)); simpl List.length; lia.
Qed.

Lemma record_step_losses cols a item :
  test_method_losses (record_step cols a item)
  = (test_method_losses a
     + Z.of_nat (List.length
                   (filter (fun col => is_tml (result_of (snd item) col)) cols)))%Z.
Proof.
  unfold record_step. cbv zeta.
  destruct (snd (fold_left _ _ _)); simpl; now rewrite fold_result_losses.
Qed.

Lemma fold_record_losses cols recs : forall a,
  test_method_losses (fold_left (record_step cols) recs a)
  = (test_method_losses a + Z.of_nat (tml_cells recs cols))%Z.
Proof.
  unfold tml_cells.
  induction recs as [|item recs IH]; intro a; simpl; [lia|].
  rewrite IH, record_step_losses. lia.
Qed.

(** C2.  Whenever a test-article sheet is parsed and has result columns, its
    statistics satisfy [actual_sample_size = total_units - test_method_losses],
    where [total_units] is the number of keyed records and
    [test_method_losses] the number of result cells classified as
    test-method losses (without result columns there are no statistics).
    Nothing keeps the difference from being negative: a sheet with one
    record and two loss cells has [actual_sample_size = -1]. *)
Theorem actual_sample_size_is_units_minus_losses :
  (forall self_primary_key ws name sd,
      _parse_test_article_sheet self_primary_key ws name = Some sd ->
      total_units sd = List.length (records sd) /\
      match test_results_analysis sd with
      | NoResultColumns => test_result_columns sd = []
      | Stats a =>
          test_result_columns sd <> [] /\
          actual_sample_size a
          = (Z.of_nat (total_units sd) - test_method_losses a)%Z /\
          test_method_losses a
          = Z.of_nat (tml_cells (records sd) (test_result_columns sd))
      end) /\
  (exists sd a,
      _parse_test_article_sheet initial_primary_key Samples.losses_sheet "LOG"
      = Some sd /\
      test_results_analysis sd = Stats a /\
      total_units sd = 1 /\ test_method_losses a = 2%Z /\
      actual_sample_size a = (-1)%Z).
Proof.
  split.
  - intros pk ws name sd. unfold _parse_test_article_sheet.
    destruct (max_row ws <? 2); [discriminate|].
    destruct (primary_key_col (scan_header pk ws)) as [pk_col|]; [|discriminate].
    intro H. injection H as <-.
    cbn [records total_units test_results_analysis test_result_columns].
    split; [reflexivity|].
    destruct (snd (scan_rows ws (columns (scan_header pk ws)) pk_col))
      as [|c cols] eqn:E; [reflexivity|].
    cbn [_analyze_test_results actual_sample_size test_method_losses].
    split; [discriminate|]. split; [reflexivity|].
    now rewrite fold_record_losses.
  - eexists. eexists. split; [vm_compute; reflexivity|].
    vm_compute. repeat split; reflexivity.
Qed.

Lemma actual_sample_size_is_units_minus_losses_witness :
  exists sd,
    _parse_test_article_sheet initial_primary_key Samples.losses_sheet "LOG"
    = Some sd /\
    total_units sd = List.length (records sd) /\
    match test_results_analysis sd with
    | NoResultColumns => test_result_columns sd = []
    | Stats a =>
        test_result_columns sd <> [] /\
        actual_sample_size a
        = (Z.of_nat (total_units sd) - test_method_losses a)%Z /\
        test_method_losses a
        = Z.of_nat (tml_cells (records sd) (test_result_columns sd))
    end.
Proof.
  eexists. split; [vm_compute; reflexivity|].
  apply (proj1 actual_sample_size_is_units_minus_losses
               initial_primary_key Samples.losses_sheet "LOG").
  vm_compute. reflexivity.
Defined.

End TestArticleParserFacts.

(** ** The combined parser *)

Module CombinedExcelParserFacts.
Import Excel Upload CombinedExcelParser.

(** [parse_uploaded_file] swallows every exception, so the [try] block of
    [parse_all_excel_files] always runs to its end: the file is counted and
    the error list is left as it was. *)
Lemma process_file_ok st f :
  exists st',
    process_file st f = Ok st' /\
    errors (summary (fst st')) = errors (summary (fst st)) /\
    files_processed (summary (fst st')) = S (files_processed (summary (fst st))).
Proof.
  unfold process_file, BaseExcelParser.parse_uploaded_file. cbn [bind].
  eexists. split; [reflexivity|]. cbn [fst summary errors files_processed].
  repeat match goal with
         | |- context [if ?b then _ else _] => destruct b
         end; cbn [summary errors files_processed]; split; lia || reflexivity.
Qed.

Lemma file_step_summary st entry :
  errors (summary (fst (file_step st entry))) = errors (summary (fst st)) /\
  files_processed (summary (fst (file_step st entry)))
  = files_processed (summary (fst st))
    + match snd entry with Some _ => 1 | None => 0 end.
Proof.
  unfold file_step. destruct (snd entry) as [f|]; [|split; [reflexivity | lia]].
  destruct (process_file_ok st f) as (st' & -> & He & Hf). cbn [try_except].
  split; [assumption | lia].
Qed.

Lemma fold_file_step_summary entries : forall st,
  errors (summary (fst (fold_left file_step entries st)))
  = errors (summary (fst st)) /\
  files_processed (summary (fst (fold_left file_step entries st)))
  = files_processed (summary (fst st))
    + List.length (filter (fun e : nat * option upload_file =>
                             match snd e with Some _ => true | None => false end)
                          entries).
Proof.
  induction entries as [|e entries IH]; intro st; simpl; [split; [reflexivity|lia]|].
  destruct (IH (file_step st e)) as [He Hf].
  destruct (file_step_summary st e) as [He' Hf'].
  rewrite He, Hf, He', Hf'. split; [reflexivity|].
  destruct (snd e); simpl; lia.
Qed.

Lemma parse_target_sheets_none normalize targets sheets :
  (forall sh, In sh sheets ->
     existsb (Py.eqt (normalize (fst sh))) targets = false) ->
  BaseExcelParser.parse_target_sheets normalize targets sheets = [].
Proof.
  intro H. unfold BaseExcelParser.parse_target_sheets.
  generalize (@nil (text * BaseExcelParser.sheet_dict)) as acc. revert H.
  induction sheets as [|sh sheets IH]; intros H acc; cbn [fold_left];
    [reflexivity|].
  cbv zeta. rewrite (H sh) by now left. apply IH. intros; apply H; now right.
Qed.

(** C7, the part that holds: a workbook without a target worksheet gives an
    empty extraction from each of the four parsers, and no exception. *)
Lemma missing_worksheet_is_empty_extraction
    (pk : text) (sheets : list (text * worksheet)) :
  (forall sh, In sh sheets -> TestArticleFile._is_target_sheet (fst sh) = false) ->
  TestArticleFile.parse_excel_file pk (Workbook sheets) = ([], pk).
Proof.
  intros Ht.
  unfold TestArticleFile.parse_excel_file. cbn [load_workbook bind].
  destruct (find _ sheets) as [[n w]|] eqn:E; [|reflexivity].
  apply find_some in E as [Hin Hs]. rewrite (Ht _ Hin) in Hs. discriminate.
Qed.

Lemma missing_log_sheets_is_empty_extraction
    (sheets : list (text * worksheet)) :
  (forall sh, In sh sheets ->
     existsb (Py.eqt (EquipmentUsedParser._normalize_sheet_name (fst sh)))
             EquipmentUsedParser.target_sheets = false) ->
  EquipmentUsedParser.parse_excel_file (Workbook sheets) = [].
Proof.
  intro H. unfold EquipmentUsedParser.parse_excel_file,
    BaseExcelParser.parse_excel_file.
  cbn [load_workbook bind try_except]. now apply parse_target_sheets_none.
Qed.

Lemma count_enumerate (l : list (option upload_file)) : forall start,
  List.length (filter (fun e : nat * option upload_file =>
                         match snd e with Some _ => true | None => false end)
                      (combine (seq start (List.length l)) l))
  = List.length (filter (fun f : option upload_file =>
                           match f with Some _ => true | None => false end) l).
Proof.
  induction l as [|f fs IH]; intro start; [reflexivity|].
  simpl. specialize (IH (S start)). destruct f; simpl; lia.
Qed.

(** C7, the part that fails.  Whatever the uploaded files are, corrupt
    workbooks included, [parse_all_excel_files] ends with an empty error
    list, and every file that is not [None] is counted as processed. *)
Theorem parse_all_never_records_an_error
    (data_files : list (option upload_file)) :
  errors (summary (parse_all_excel_files data_files)) = [] /\
  files_processed (summary (parse_all_excel_files data_files))
  = List.length (filter (fun f : option upload_file =>
                           match f with Some _ => true | None => false end)
                        data_files).
Proof.
  unfold parse_all_excel_files.
  destruct (fold_file_step_summary (enumerate data_files)
              (empty_results, TestArticleParser.initial_primary_key)) as [He Hf].
  rewrite He, Hf. split; [reflexivity|].
  cbn [fst empty_results summary files_processed]. unfold enumerate.
  now rewrite count_enumerate.
Qed.

(** The failing input: a corrupt workbook followed by a readable one. *)
Example corrupt_workbook_counts_as_processed :
  let files := [ Some (UploadFile (Some ("bad.xlsx" : text))
                                  (Bytes (Corrupt "File is not a zip file")));
                 Some (UploadFile (Some ("log.xlsx" : text))
                                  (Bytes (Workbook
                                     [("TEST ARTICLE LOG & TEST RESULTS" : text,
                                       Samples.losses_sheet)]))) ] in
  let r := parse_all_excel_files files in
  errors (summary r) = [] /\ files_processed (summary r) = 2 /\
  Dict.keys (test_article_data r) = ["TEST_ARTICLE_DATA" : text].
Proof. vm_compute. repeat split; reflexivity. Qed.

End CombinedExcelParserFacts.

(** ** The document parser *)

Module DocumentParserFacts.
Import DocumentParser.

Section Parse.
Variable py_hash : text -> Z.

(** The parser once [stop_parsing] is set. *)
Let stopped (st : parser) : parser :=
  Parser (parsed_data st) (current_section st) (content_counter st) true.

Lemma stopped_id st : stop_parsing st = true -> stopped st = st.
Proof. destruct st as [pd cur cc stop]. simpl. now intros ->. Qed.

Lemma parse_elements_stopped st body :
  stop_parsing st = true -> parse_elements py_hash st body = Ok st.
Proof. intro H. destruct body; simpl; [reflexivity | now rewrite H]. Qed.

Lemma process_stop_paragraph st h :
  Py.strip h <> [] -> _should_stop_parsing (Py.strip h) = true ->
  _process_paragraph py_hash st h = Ok (stopped st).
Proof.
  intros Hne Hstop. unfold _process_paragraph. cbv zeta.
  apply PyFacts.truthy_true in Hne. now rewrite Hne, Hstop.
Qed.

Lemma parse_elements_stop_at before : forall st h after,
  Py.strip h <> [] -> _should_stop_parsing (Py.strip h) = true ->
  parse_elements py_hash st (before ++ Paragraph h :: after)
  = bind (parse_elements py_hash st before) (fun st' => Ok (stopped st')).
Proof.
  induction before as [|e before IH]; intros st h after Hne Hstop; simpl.
  - destruct (stop_parsing st) eqn:E; [now rewrite stopped_id|].
    rewrite process_stop_paragraph by assumption. simpl.
    now apply parse_elements_stopped.
  - destruct (stop_parsing st) eqn:E; [simpl; now rewrite stopped_id|].
    destruct (process_element py_hash st e) as [st'|err]; simpl; [|reflexivity].
    now apply IH.
Qed.

(** C4.  A paragraph recognised as an appendices heading ends the parse:
    the section tree of the whole document is the tree of the elements before
    that paragraph, so the heading itself and every paragraph or table after
    it add nothing. *)
Theorem parsing_stops_at_appendices_heading
    (before after : list element) (heading : text) :
  Py.strip heading <> [] ->
  _should_stop_parsing (Py.strip heading) = true ->
  parse_document py_hash (before ++ Paragraph heading :: after)
  = parse_document py_hash before.
Proof.
  intros Hne Hstop. unfold parse_document.
  rewrite parse_elements_stop_at by assumption.
  destruct (parse_elements py_hash initial before); reflexivity.
Qed.

End Parse.

Lemma parsing_stops_at_appendices_heading_witness :
  parse_document Samples.zero_hash
    (Samples.scenario_a
     ++ Paragraph "9.0 APPENDICES"
     :: [Paragraph "Appendix text"; Table [["A" : text]; ["1" : text]];
         Paragraph "10.0 LATER"])
  = parse_document Samples.zero_hash Samples.scenario_a.
Proof.
  apply parsing_stops_at_appendices_heading.
  - vm_compute. discriminate.
  - vm_compute. reflexivity.
Defined.

Example scenario_a_sections :
  match parse_document Samples.zero_hash
          (Samples.scenario_a
           ++ [Paragraph "9.0 APPENDICES"; Paragraph "ignored text"]) with
  | Ok tree => Dict.keys tree = ["1.0" : text; "1.1" : text; "2.0" : text; "2.1" : text]
  | Raise _ => False
  end.
Proof. vm_compute. reflexivity. Qed.

End DocumentParserFacts.

(** ** Stable sorting by a key *)

Module SortedFacts.
Section SortFacts.
Context {K A : Type}.
Variable le : K -> K -> bool.
Hypothesis le_total : forall a b, le a b = false -> le b a = true.
Hypothesis le_trans : forall a b c, le a b = true -> le b c = true -> le a c = true.







End SortFacts.
End SortedFacts.

(** ** The order of the sections in the prompt *)

Module PromptFacts.
Import DocumentParser Prompt SectionOrder.

Lemma span_fst p s : forallb p (fst (Re.span p s)) = true.
Proof.
  induction s as [|c s IH]; simpl; [reflexivity|].
  destruct (p c) eqn:E; simpl; [now rewrite E|reflexivity].
Qed.

Lemma isdigit_iff s :
  Py.isdigit s = true <-> s <> [] /\ forallb Py.isdigit_char s = true.
Proof.
  destruct s as [|c s]; simpl.
  - split; [discriminate | now intros [H _]].
  - split; [now split | now intros [_ H]].
Qed.

Lemma number_prefix_well_formed s num r :
  Re.number_prefix s = Some (num, r) -> well_formed num.
Proof.
  unfold Re.number_prefix. cbv zeta.
  pose proof (span_fst Py.isdigit_char s) as H1.
  destruct (Re.span Py.isdigit_char s) as [d1 r1]. cbn [fst snd] in *.
  destruct d1 as [|c1 d1]; [discriminate|].
  destruct r1 as [|dot r1]; [discriminate|].
  destruct (Py.eqc dot ".") eqn:E; [|discriminate].
  apply PyFacts.eqc_true in E. subst dot.
  pose proof (span_fst Py.isdigit_char r1) as H2.
  destruct (Re.span Py.isdigit_char r1) as [d2 r2]. cbn [fst snd] in *.
  destruct d2 as [|c2 d2]; [discriminate|].
  intro H. injection H as <- _.
  exists (int_of_digits (c1 :: d1), int_of_digits (c2 :: d2)).
  exists (c1 :: d1), (c2 :: d2). repeat split; try reflexivity.
  - now apply isdigit_iff.
  - now apply isdigit_iff.
Qed.

(** Decimal numerals print as digits. *)
Lemma string_of_uint_digits d :
  forallb Py.isdigit_char (list_ascii_of_string (NilEmpty.string_of_uint d)) = true.
Proof. induction d; simpl; auto. Qed.

Lemma revapp_nonnil d : forall acc,
  acc <> Decimal.Nil -> Decimal.revapp d acc <> Decimal.Nil.
Proof. induction d; intros acc H; simpl; try apply IHd; try discriminate; assumption. Qed.

Lemma little_succ_nonnil d : Decimal.Little.succ d <> Decimal.Nil.
Proof. destruct d; simpl; discriminate. Qed.

Lemma to_little_uint_nonnil n : forall acc,
  acc <> Decimal.Nil -> Nat.to_little_uint n acc <> Decimal.Nil.
Proof.
  induction n as [|n IH]; intros acc H; simpl; [assumption|].
  apply IH. apply little_succ_nonnil.
Qed.

Lemma str_of_nat_isdigit n : Py.isdigit (str_of_nat n) = true.
Proof.
  apply isdigit_iff. split; [|apply string_of_uint_digits].
  unfold str_of_nat, Nat.to_uint, Decimal.rev.
  assert (H : Nat.to_little_uint n Decimal.zero <> Decimal.Nil)
    by (apply to_little_uint_nonnil; discriminate).
  destruct (Nat.to_little_uint n Decimal.zero) as [|d|d|d|d|d|d|d|d|d|d];
    [congruence| | | | | | | | | |]; simpl;
    match goal with
    | |- context [Decimal.revapp d ?acc] =>
        let H' := fresh in
        assert (H' : Decimal.revapp d acc <> Decimal.Nil)
          by (apply revapp_nonnil; discriminate);
        destruct (Decimal.revapp d acc); [congruence| | | | | | | | | |];
        simpl; discriminate
    end.
Qed.


Lemma split_no_sep sep s :
  forallb (fun c => negb (Py.eqc c sep)) s = true -> Py.split sep s = [s].
Proof.
  induction s as [|c s IH]; simpl; [reflexivity|]. intro H.
  apply andb_true_iff in H as [Hc Hs]. apply negb_true_iff in Hc.
  rewrite Hc, IH by assumption. reflexivity.
Qed.

Lemma split_app_sep sep a b :
  forallb (fun c => negb (Py.eqc c sep)) a = true ->
  Py.split sep (a ++ sep :: b) = a :: Py.split sep b.
Proof.
  induction a as [|c a IH]; simpl; intro H.
  - assert (E : Py.eqc sep sep = true) by now apply PyFacts.eqc_true.
    now rewrite E.
  - apply andb_true_iff in H as [Hc Hs]. apply negb_true_iff in Hc.
    rewrite Hc, IH by assumption. reflexivity.
Qed.






(** *** The identifiers the parser creates are well formed *)

Lemma numbered_1_prefix t num title :
  Re.numbered_1 t = Some (num, title) -> well_formed num.
Proof.
  unfold Re.numbered_1.
  destruct (Re.number_prefix t) as [[n r]|] eqn:E; [|discriminate].
  destruct r as [|c r]; [discriminate|].
  destruct (Py.isspace c); [|discriminate].
  destruct (Re.rest_of_line _); [|discriminate].
  intro H. injection H as <- _. eapply number_prefix_well_formed, E.
Qed.

Lemma numbered_2_prefix t num title :
  Re.numbered_2 t = Some (num, title) -> well_formed num.
Proof.
  unfold Re.numbered_2.
  destruct (Re.number_prefix t) as [[n r]|] eqn:E; [|discriminate]. cbv zeta.
  destruct (Re.rest_of_line _); [|discriminate].
  intro H. injection H as <- _. eapply number_prefix_well_formed, E.
Qed.

Lemma numbered_3_prefix t num title :
  Re.numbered_3 t = Some (num, title) -> well_formed num.
Proof.
  unfold Re.numbered_3.
  destruct (Re.number_prefix t) as [[n r]|] eqn:E; [|discriminate].
  destruct (Py.lstrip r) as [|c r']; [discriminate|].
  destruct (Py.eqc c ":"); [|discriminate]. cbv zeta.
  destruct (Re.rest_of_line _); [|discriminate].
  intro H. injection H as <- _. eapply number_prefix_well_formed, E.
Qed.

Lemma extract_section_number_well_formed py_hash t num title :
  _extract_section_number py_hash t = Some (num, title) -> well_formed num.
Proof.
  unfold _extract_section_number.
  destruct (Re.numbered_1 t) as [[n1 t1]|] eqn:E1.
  { intro H. injection H as <- _. eapply numbered_1_prefix, E1. }
  destruct (Re.numbered_2 t) as [[n2 t2]|] eqn:E2.
  { intro H. injection H as <- _. eapply numbered_2_prefix, E2. }
  destruct (Re.numbered_3 t) as [[n3 t3]|] eqn:E3.
  { intro H. injection H as <- _. eapply numbered_3_prefix, E3. }
  cbv zeta. destruct (_ && _); [|discriminate].
  intro H. injection H as <- _.
  set (n := Z.to_nat _).
  exists (int_of_digits (str_of_nat n), int_of_digits "0").
  exists (str_of_nat n), ("0" : text). repeat split.
  apply str_of_nat_isdigit.
Qed.









(** Met in the order 10.0, 2.0, 2.1, 1.0, the sections are rendered as
    1.0, 2.0, 2.1, 10.0: by number, where the order of the strings would put
    10.0 before 2.0. *)
Example shuffled_document_order :
  match parse_document Samples.zero_hash Samples.shuffled_document with
  | Ok tree =>
      Dict.keys tree = ["10.0" : text; "2.0" : text; "2.1" : text; "1.0" : text] /\
      match sorted_sections tree with
      | Ok ordered =>
          map (fun x => fst (snd x)) ordered
          = ["1.0" : text; "2.0" : text; "2.1" : text; "10.0" : text]
      | Raise _ => False
      end
  | Raise _ => False
  end.
Proof. vm_compute. split; reflexivity. Qed.

End PromptFacts.

(** ** Markdown tables *)

Module MarkdownFacts.
Import Markdown MarkdownSpec.

Lemma split_nonempty sep s : Py.split sep s <> [].
Proof.
  destruct s as [|c s]; simpl; [discriminate|].
  destruct (Py.eqc c sep); [discriminate|]. destruct (Py.split sep s); discriminate.
Qed.

Lemma split_app sep a b :
  Py.split sep (a ++ sep :: b) = Py.split sep a ++ Py.split sep b.
Proof.
  induction a as [|c a IH]; simpl.
  - assert (E : Py.eqc sep sep = true) by now apply PyFacts.eqc_true.
    now rewrite E.
  - destruct (Py.eqc c sep); [now rewrite IH|]. rewrite IH.
    pose proof (split_nonempty sep a) as Hne.
    destruct (Py.split sep a); [congruence | reflexivity].
Qed.

Lemma free_of_app sep a b :
  free_of sep (a ++ b) = free_of sep a && free_of sep b.
Proof. unfold free_of. apply forallb_app. Qed.

(** Joining lines and splitting again gives the lines back. *)
Lemma split_join sep l ls :
  forallb (free_of sep) (l :: ls) = true ->
  Py.split sep (Py.join [sep] (l :: ls)) = l :: ls.
Proof.
  revert l. induction ls as [|l' ls IH]; intros l H.
  - simpl in *. rewrite andb_true_r in H. now apply PromptFacts.split_no_sep.
  - change (Py.join [sep] (l :: l' :: ls))
      with (l ++ sep :: Py.join [sep] (l' :: ls)).
    cbn [forallb] in H. apply andb_true_iff in H as [Hl H].
    rewrite PromptFacts.split_app_sep by exact Hl. now rewrite IH.
Qed.

Lemma cell_ok_free c :
  cell_ok c = true -> free_of Py.PIPE c = true /\ free_of Py.LF c = true.
Proof.
  unfold cell_ok, free_of. rewrite !forallb_forall. intro H.
  split; intros ch Hch; specialize (H ch Hch);
    apply andb_true_iff in H as [H1 H2]; assumption.
Qed.

Lemma md_row_free_of_LF cells :
  row_ok cells = true -> free_of Py.LF (md_row cells) = true.
Proof.
  unfold md_row, row_ok. intro H. rewrite free_of_app.
  apply andb_true_iff. split; [|reflexivity].
  induction cells as [|c cells IH]; [reflexivity|].
  cbn [forallb] in H. apply andb_true_iff in H as [Hc H].
  cbn [map List.concat]. rewrite free_of_app.
  apply andb_true_iff. split; [|now apply IH].
  apply cell_ok_free in Hc as [_ Hc].
  change (Py.PIPE :: c) with ([Py.PIPE] ++ c). rewrite free_of_app, Hc.
  reflexivity.
Qed.

Lemma split_cells cells : forall c,
  free_of Py.PIPE c = true -> row_ok cells = true ->
  Py.split Py.PIPE (c ++ List.concat (map (cons Py.PIPE) cells) ++ [Py.PIPE])
  = c :: cells ++ [[]].
Proof.
  unfold row_ok. induction cells as [|c' cells IH]; intros c Hc H.
  - cbn [map List.concat app]. now rewrite PromptFacts.split_app_sep.
  - cbn [forallb] in H. apply andb_true_iff in H as [Hc' H].
    apply cell_ok_free in Hc' as [Hc' _].
    cbn [map List.concat].
    replace (((Py.PIPE :: c') ++ List.concat (map (cons Py.PIPE) cells)) ++ [Py.PIPE])
      with (Py.PIPE :: c' ++ List.concat (map (cons Py.PIPE) cells) ++ [Py.PIPE])
      by (simpl; now rewrite <- app_assoc).
    rewrite PromptFacts.split_app_sep by exact Hc.
    now rewrite IH.
Qed.

Lemma split_md_row cells :
  row_ok cells = true ->
  Py.split Py.PIPE (md_row cells) = [] :: cells ++ [[]].
Proof. intro H. now apply (split_cells cells []). Qed.

Lemma slice_inner_wrap {A} (x y : A) l : slice_inner (x :: l ++ [y]) = l.
Proof. unfold slice_inner. simpl. apply removelast_last. Qed.

Lemma row_cells_md_row cells :
  row_ok cells = true -> row_cells (md_row cells) = map Py.strip cells.
Proof.
  intro H. unfold row_cells. now rewrite split_md_row, slice_inner_wrap.
Qed.

(** *** Trimming *)

Lemma lstrip_blank_app w s :
  forallb Py.isspace w = true -> Py.lstrip (w ++ s) = Py.lstrip s.
Proof.
  induction w as [|c w IH]; simpl; [reflexivity|]. intro H.
  apply andb_true_iff in H as [-> H]. now apply IH.
Qed.

Lemma rstrip_app_blank s w :
  forallb Py.isspace w = true -> Py.rstrip (s ++ w) = Py.rstrip s.
Proof.
  intro H. unfold Py.rstrip. rewrite rev_app_distr, lstrip_blank_app;
    [reflexivity|].
  rewrite forallb_forall in *. intros x Hx. apply H. now apply in_rev.
Qed.

Lemma rstrip_last s c :
  Py.isspace c = false -> Py.rstrip (s ++ [c]) = s ++ [c].
Proof.
  intro H. unfold Py.rstrip. rewrite rev_app_distr. simpl. rewrite H.
  simpl. now rewrite rev_involutive.
Qed.

(** A text that starts and ends with a pipe is trimmed already, and
    trimming removes the blank lines around it. *)
Lemma strip_between body before after :
  forallb Py.isspace before = true -> forallb Py.isspace after = true ->
  Py.strip (before ++ (Py.PIPE :: body ++ [Py.PIPE]) ++ after)
  = Py.PIPE :: body ++ [Py.PIPE].
Proof.
  intros Hb Ha. unfold Py.strip. rewrite lstrip_blank_app by assumption.
  rewrite <- app_comm_cons. rewrite PyFacts.lstrip_id by reflexivity.
  rewrite app_comm_cons. rewrite rstrip_app_blank by assumption.
  rewrite app_comm_cons. now apply rstrip_last.
Qed.

Lemma md_row_shape cells : exists body, md_row cells = Py.PIPE :: body.
Proof.
  unfold md_row. destruct cells as [|c cells]; simpl; eauto.
Qed.

Lemma join_md_rows_end ls : forall l,
  exists x, Py.join [Py.LF] (map md_row (l :: ls)) = x ++ [Py.PIPE].
Proof.
  induction ls as [|l' ls IH]; intro l.
  - simpl. unfold md_row. eauto.
  - destruct (IH l') as [x Hx].
    change (Py.join [Py.LF] (map md_row (l :: l' :: ls)))
      with (md_row l ++ [Py.LF] ++ Py.join [Py.LF] (map md_row (l' :: ls))).
    rewrite Hx. exists (md_row l ++ [Py.LF] ++ x). now rewrite <- !app_assoc.
Qed.

(** A table block starts and ends with a pipe. *)
Lemma md_table_shape header separator data :
  exists body, md_table header separator data = Py.PIPE :: body ++ [Py.PIPE].
Proof.
  unfold md_table.
  destruct (join_md_rows_end data separator) as [x Hx].
  destruct (md_row_shape header) as [b Hb].
  change (Py.join [Py.LF] (md_row header :: md_row separator :: map md_row data))
    with (md_row header ++ [Py.LF]
          ++ Py.join [Py.LF] (map md_row (separator :: data))).
  rewrite Hx, Hb. exists (b ++ [Py.LF] ++ x). simpl. now rewrite <- !app_assoc.
Qed.

Lemma blank_lines_before before :
  forallb blank before = true ->
  forallb Py.isspace (List.concat (map (fun l => l ++ [Py.LF]) before)) = true.
Proof.
  induction before as [|l before IH]; intro H; [reflexivity|].
  cbn [forallb] in H. apply andb_true_iff in H as [Hl H].
  unfold blank in Hl.
  cbn [map List.concat]. rewrite !forallb_app, Hl, (IH H). reflexivity.
Qed.

Lemma blank_lines_after after :
  forallb blank after = true ->
  forallb Py.isspace (List.concat (map (cons Py.LF) after)) = true.
Proof.
  induction after as [|l after IH]; intro H; [reflexivity|].
  cbn [forallb] in H. apply andb_true_iff in H as [Hl H].
  cbn [map List.concat]. rewrite forallb_app. cbn [forallb].
  unfold blank in Hl. rewrite Hl, (IH H). reflexivity.
Qed.

Lemma strip_padded_table before after header separator data :
  forallb blank before = true -> forallb blank after = true ->
  Py.strip (padded before after (md_table header separator data))
  = md_table header separator data.
Proof.
  intros Hb Ha. unfold padded.
  destruct (md_table_shape header separator data) as [body ->].
  apply strip_between; [now apply blank_lines_before | now apply blank_lines_after].
Qed.

(** *** The lines of a block *)

Lemma md_table_lines header separator data :
  row_ok header = true -> row_ok separator = true ->
  forallb row_ok data = true ->
  Py.splitlines (md_table header separator data)
  = md_row header :: md_row separator :: map md_row data.
Proof.
  intros Hh Hs Hd. unfold Py.splitlines, md_table. apply split_join.
  cbn [forallb]. rewrite !md_row_free_of_LF by assumption. cbn [andb].
  apply forallb_forall. intros line Hline.
  apply in_map_iff in Hline as (row & <- & Hrow).
  apply md_row_free_of_LF. rewrite forallb_forall in Hd. now apply Hd.
Qed.

Lemma splitlines_before before : forall rest,
  Py.splitlines (List.concat (map (fun l => l ++ [Py.LF]) before) ++ rest)
  = List.concat (map Py.splitlines before) ++ Py.splitlines rest.
Proof.
  unfold Py.splitlines. induction before as [|l before IH]; intro rest;
    [reflexivity|].
  cbn [map List.concat]. rewrite <- !app_assoc.
  change ([Py.LF] ++ List.concat (map (fun l0 => l0 ++ [Py.LF]) before) ++ rest)
    with (Py.LF :: List.concat (map (fun l0 => l0 ++ [Py.LF]) before) ++ rest).
  now rewrite split_app, IH.
Qed.

Lemma splitlines_after after : forall block,
  exists more,
    Py.splitlines (block ++ List.concat (map (cons Py.LF) after))
    = Py.splitlines block ++ more.
Proof.
  unfold Py.splitlines. induction after as [|l after IH]; intro block.
  - exists []. cbn [map List.concat]. now rewrite !app_nil_r.
  - cbn [map List.concat]. rewrite <- app_comm_cons.
    rewrite split_app. destruct (IH l) as [more ->]. eauto.
Qed.

(** The lines of a padded block are the lines of the block, with other
    lines before and after. *)
Lemma splitlines_padded before after block :
  exists pre post,
    Py.splitlines (padded before after block)
    = pre ++ Py.splitlines block ++ post.
Proof.
  unfold padded. rewrite splitlines_before.
  destruct (splitlines_after after block) as [more ->]. eauto.
Qed.

Lemma filter_length_middle {A} (p : A -> bool) pre mid post :
  List.length (filter p mid) <= List.length (filter p (pre ++ mid ++ post)).
Proof. rewrite !filter_app, !length_app. lia. Qed.

Lemma has_pipe_md_row cells : Py.has_char Py.PIPE (md_row cells) = true.
Proof. destruct (md_row_shape cells) as [b ->]. reflexivity. Qed.

Lemma contains_padded_table before after header separator data :
  row_ok header = true -> separator_ok separator = true ->
  forallb row_ok data = true ->
  contains_markdown_table (padded before after (md_table header separator data))
  = true.
Proof.
  intros Hh Hs Hd. unfold separator_ok in Hs.
  apply andb_true_iff in Hs as [Hs Hsep].
  unfold contains_markdown_table. cbv zeta.
  destruct (splitlines_padded before after (md_table header separator data))
    as (pre & post & ->).
  rewrite md_table_lines by assumption.
  apply andb_true_iff. split; apply Nat.leb_le.
  - eapply Nat.le_trans; [|apply filter_length_middle].
    cbn [filter]. rewrite !has_pipe_md_row. cbn [List.length].
    repeat apply le_n_S. apply Nat.le_0_l.
  - eapply Nat.le_trans; [|apply filter_length_middle].
    cbn [filter]. rewrite Hsep.
    destruct (Py.contains "---" (md_row header)
              || Py.contains "|-" (md_row header));
      cbn [List.length]; repeat apply le_n_S; apply Nat.le_0_l.
Qed.

(** *** The conversion *)

Lemma strip_md_row cells : Py.strip (md_row cells) = md_row cells.
Proof.
  unfold Py.strip. destruct (md_row_shape cells) as [b Hb].
  rewrite Hb, PyFacts.lstrip_id by reflexivity. rewrite <- Hb.
  unfold md_row. now apply rstrip_last.
Qed.

Lemma is_table_line_md_row cells : is_table_line (md_row cells) = true.
Proof.
  unfold is_table_line. rewrite strip_md_row. apply andb_true_iff. split.
  - destruct (md_row_shape cells) as [b ->]. reflexivity.
  - unfold Py.endswith, md_row. now rewrite rev_app_distr.
Qed.

Lemma table_lines_md_rows rows :
  map Py.strip (filter is_table_line (map md_row rows)) = map md_row rows.
Proof.
  induction rows as [|r rows IH]; [reflexivity|].
  cbn [map filter]. rewrite is_table_line_md_row. cbn [map].
  now rewrite strip_md_row, IH.
Qed.

Lemma kept_lines data :
  filter (fun line => negb (Py.contains "---" line)) (map md_row data)
  = map md_row (kept data).
Proof.
  unfold kept. induction data as [|r data IH]; [reflexivity|].
  cbn [map filter]. destruct (negb _); cbn [map]; now rewrite IH.
Qed.

Lemma fill_row_exact cols row :
  List.length row = cols -> fill_row cols row = row.
Proof.
  intros <-. unfold fill_row. now rewrite firstn_all, Nat.sub_diag, app_nil_r.
Qed.

Lemma kept_In data row : In row (kept data) -> In row data.
Proof. unfold kept. intro H. now apply filter_In in H as [H _]. Qed.

(** What the conversion keeps of a block whose separator row is one the
    detection knows (three dashes, or a pipe followed by a dash): the block
    is detected as a table and converted to a table with as many columns
    as the header, whose rows are the header and the data rows that hold no
    run of three dashes, each cell with its text trimmed, empty cells
    included.  When no data row holds three dashes that is the header and all
    the N data rows: N + 1 rows. *)
Theorem markdown_table_converts_to_word_table
    (before after : list text) (header separator : list text)
    (data : list (list text)) :
  forallb blank before = true -> forallb blank after = true ->
  header <> [] ->
  row_ok header = true -> separator_ok separator = true ->
  forallb row_ok data = true ->
  (forall row, In row data -> List.length row = List.length header) ->
  let content := padded before after (md_table header separator data) in
  contains_markdown_table content = true /\
  convert_markdown_table_to_word content
  = Some (WordTable (List.length header)
                    (map Py.strip header :: map (map Py.strip) (kept data))) /\
  ((forall row, In row data -> Py.contains "---" (md_row row) = false) ->
   convert_markdown_table_to_word content
   = Some (WordTable (List.length header)
                     (map Py.strip header :: map (map Py.strip) data)) /\
   List.length (map Py.strip header :: map (map Py.strip) data)
   = List.length data + 1).
Proof.
  intros Hb Ha Hne Hh Hs Hd Hlen content.
  assert (Hsr : row_ok separator = true).
  { unfold separator_ok in Hs. now apply andb_true_iff in Hs as [Hs _]. }
  assert (Hconv : convert_markdown_table_to_word content
                  = Some (WordTable (List.length header)
                            (map Py.strip header :: map (map Py.strip) (kept data)))).
  { unfold convert_markdown_table_to_word, content. cbv zeta.
    rewrite strip_padded_table by assumption.
    rewrite md_table_lines by assumption.
    change (md_row header :: md_row separator :: map md_row data)
      with (map md_row (header :: separator :: data)).
    rewrite table_lines_md_rows. cbn [map List.length Nat.ltb Nat.leb nth skipn].
    rewrite kept_lines, row_cells_md_row by assumption.
    destruct header as [|h header]; [congruence|]. cbn [map].
    cbn [List.length]. rewrite length_map. f_equal. f_equal.
    rewrite fill_row_exact by (cbn [List.length]; now rewrite length_map).
    f_equal. rewrite !map_map. apply map_ext_in. intros row Hrow.
    apply kept_In in Hrow. rewrite row_cells_md_row.
    - apply fill_row_exact. rewrite length_map. rewrite (Hlen row Hrow).
      reflexivity.
    - rewrite forallb_forall in Hd. now apply Hd. }
  split; [now apply contains_padded_table|]. split; [exact Hconv|].
  intro Hnone.
  assert (Hk : kept data = data).
  { unfold kept. clear - Hnone. induction data as [|r data IH]; [reflexivity|].
    cbn [filter]. rewrite (Hnone r) by now left. cbn [negb]. f_equal.
    apply IH. intros; apply Hnone; now right. }
  rewrite Hk in Hconv. split; [exact Hconv|].
  cbn [List.length]. rewrite length_map. lia.
Qed.

Lemma markdown_table_converts_to_word_table_witness :
  contains_markdown_table Samples.results_table = true /\
  convert_markdown_table_to_word Samples.results_table
  = Some (WordTable 2 [["REQ ID" : text; "Result" : text];
                       ["R-1" : text; [] ];
                       ["R-2" : text; "PASS" : text]]).
Proof.
  destruct (markdown_table_converts_to_word_table
              [[]] [[]; []] [" REQ ID " : text; " Result " : text]
              [" --- " : text; " --- " : text]
              [[" R-1 " : text; "  " : text]; [" R-2 " : text; " PASS " : text]])
    as (Hc & Hconv & _).
  - reflexivity.
  - reflexivity.
  - discriminate.
  - reflexivity.
  - reflexivity.
  - reflexivity.
  - intros row [<-|[<-|[]]]; reflexivity.
  - split; [exact Hc | exact Hconv].
Defined.

(** C5 (as stated) fails: not every well-formed block of N data rows
    converts to a table of N + 1 rows.  A block of one data row whose second
    cell is three dashes converts to the header row alone. *)
Lemma markdown_table_dashes_row_counterexample :
  ~ (forall (header separator : list text) (data : list (list text)),
        header <> [] -> row_ok header = true ->
        separator_ok separator = true -> forallb row_ok data = true ->
        (forall row, In row data -> List.length row = List.length header) ->
        exists t,
          convert_markdown_table_to_word (md_table header separator data)
          = Some t /\
          table_cols t = List.length header /\
          List.length (table_rows t) = List.length data + 1).
Proof.
  intro H.
  destruct (H [" Item " : text; " Value " : text]
              [" --- " : text; " --- " : text]
              [[" Lot " : text; " --- " : text]]) as (t & Ht & _ & Hrows).
  - discriminate.
  - reflexivity.
  - reflexivity.
  - reflexivity.
  - intros row [<-|[]]. reflexivity.
  - vm_compute in Ht. injection Ht as <-. discriminate.
Qed.

End MarkdownFacts.

(** ** The template assembler *)

Module TemplateAssemblerFacts.
Import TemplateAssembler.

Section Facts.
Variable re : searches.
Variable clean_markdown_content : text -> text.
Variable images_text : text -> text -> text.
Variable intro_content : text.

(** The keys [extract_content_sections] can store. *)
Let stored_keys : list text :=
  ["BK_PURPOSE_TEXT" : text; "BK_SCOPE_TEXT" : text; "BK_ACRONYMS" : text;
   "BK_DEFINITIONS" : text; "BK_REFERENCES" : text;
   "BK_PROCEDURE_SUMMARY" : text; "BK_DUT_CONFIG" : text;
   "BK_TEST_EXECUTION_CHRONOLOGY" : text; "BK_CONSUMABLES_USED" : text;
   "BK_TEST_METHOD_LOSS_INVESTIGATIONS" : text;
   "BK_PROTOCOL_DEVIATIONS" : text; "BK_DEFECTIVE_UNIT" : text;
   "BK_TEST_RESULT_SUMMARY" : text; "BK_TEST_RESULT_ANALYSIS" : text].

Lemma extract_one_key placeholder section_content key value :
  extract_one re clean_markdown_content placeholder section_content
  = Some (key, value) ->
  In key stored_keys.
Proof.
  unfold extract_one.
  repeat match goal with
         | |- context [if Py.eqt placeholder ?x then _ else _] =>
             destruct (Py.eqt placeholder x)
         end;
    intro H;
    try discriminate;
    try (injection H as <- _; simpl; tauto);
    unfold option_map in H;
    match type of H with
    | match ?o with _ => _ end = _ =>
        destruct o; [injection H as <- _; simpl; tauto | discriminate]
    end.
Qed.

Lemma extract_keys sections key :
  In key (Dict.keys (extract_content_sections re clean_markdown_content sections)) ->
  In key stored_keys.
Proof.
  unfold extract_content_sections.
  assert (H : forall (l : list (text * text)) (acc : Dict.dict text),
             (forall k, In k (Dict.keys acc) -> In k stored_keys) ->
             forall k,
               In k (Dict.keys
                       (fold_left
                          (fun content_mapping (pm : text * text) =>
                             match Dict.get (snd pm) sections with
                             | Some section_content =>
                                 match extract_one re clean_markdown_content
                                         (fst pm) section_content with
                                 | Some (key, value) =>
                                     Dict.set key value content_mapping
                                 | None => content_mapping
                                 end
                             | None => content_mapping
                             end) l acc)) ->
               In k stored_keys).
  { induction l as [|pm l IH]; intros acc Hacc k; [apply Hacc|].
    cbn [fold_left]. apply IH.
    destruct (Dict.get (snd pm) sections) as [c|]; [|exact Hacc].
    destruct (extract_one re clean_markdown_content (fst pm) c)
      as [[k' v']|] eqn:E; [|exact Hacc].
    intros k0 Hk0. apply DictFacts.keys_set in Hk0 as [->|Hk0];
      [eapply extract_one_key; eauto | now apply Hacc]. }
  apply H. intros k [].
Qed.

(** Neither the conclusion nor the attachments list ever has an entry in
    [content_mapping]. *)
Lemma content_mapping_lacks (sections : Dict.dict text) (key : text) :
  key = "BK_CONCLUSION" \/ key = "BK_ATTACHMENTS" ->
  get_or_empty key
    (Dict.set "intro" intro_content
       (extract_content_sections re clean_markdown_content sections))
  = [].
Proof.
  intro Hkey. unfold get_or_empty. rewrite DictFacts.get_set.
  replace (Py.eqt key "intro") with false
    by (destruct Hkey as [->| ->]; reflexivity).
  destruct (Dict.get key _) as [v|] eqn:E; [|reflexivity].
  assert (Hin : In key stored_keys).
  { apply extract_keys with (sections := sections).
    apply DictFacts.get_Some_In. eauto. }
  exfalso. destruct Hkey as [->| ->]; simpl in Hin;
    repeat (destruct Hin as [Hin|Hin]; [discriminate|]); exact Hin.
Qed.

(** Whatever the template and the sections are, the last loop adds nothing
    for the conclusion and nothing for the attachments list. *)
Lemma missing_step_conclusion sections found :
  let content_mapping :=
    Dict.set "intro" intro_content
      (extract_content_sections re clean_markdown_content sections) in
  missing_step content_mapping found ("[BK_CONCLUSION]" : text, "conclusion" : text)
  = [] /\
  missing_step content_mapping found ("[BK_ATTACHMENTS]" : text, "attachments" : text)
  = [].
Proof.
  cbv zeta. unfold missing_step. cbn [fst].
  change (content_key_clean "[BK_CONCLUSION]") with ("BK_CONCLUSION" : text).
  change (content_key_clean "[BK_ATTACHMENTS]") with ("BK_ATTACHMENTS" : text).
  rewrite !content_mapping_lacks by auto.
  split; destruct (existsb _ found); reflexivity.
Qed.

(** C8 at the failing input.  The template has no [[BK_CONCLUSION]]; the
    sections hold the test-result summary and the conclusion.  The output is
    the template with the summary filled in: no note and no conclusion text is
    added at the end. *)
Theorem conclusion_without_placeholder_is_dropped :
  create_word_document_from_template re clean_markdown_content images_text
    intro_content
    ["DVT Report" : text; "Summary: [BK_TEST_RESULT_SUMMARY]" : text]
    [("task_4_7" : text, "3 of 3 units passed" : text);
     ("conclusion" : text, "All units passed." : text)]
  = [Para "DVT Report" []; Para "Summary: 3 of 3 units passed" []].
Proof. vm_compute. reflexivity. Qed.

End Facts.

(** A placeholder with a branch in [extract_content_sections] is treated as
    the claim says: the procedure summary, absent from the same template, is
    added at the end after a note that names it (here with searches that find
    nothing and a cleaning that changes nothing). *)
Example procedure_summary_without_placeholder_is_appended :
  create_word_document_from_template Samples.no_match (fun t => t)
    (fun t _ => t) "Report Number: TBD"
    ["DVT Report" : text]
    [("task_4_4" : text, "Condition, then test." : text);
     ("conclusion" : text, "All units passed." : text)]
  = [Para "DVT Report" []; Para [] [];
     Para "Missing section content for [BK_PROCEDURE_SUMMARY]:" [];
     Para "Condition, then test." []].
Proof. vm_compute. reflexivity. Qed.

End TemplateAssemblerFacts.

(** ** The attribute table *)

Module TestResultSummaryAgentFacts.
Import TestResultSummaryAgent.

Section Facts.
Variable py_float : text -> result spec_float.

Lemma block_without_sample criteria stats :
  (actual_sample_size stats <= 0)%Z ->
  actual_conf_rel py_float criteria stats = "TBD".
Proof.
  intro Hn. unfold actual_conf_rel, confidence_block. cbv zeta.
  destruct (percentage py_float _) as [c|e]; [|reflexivity]. cbn [bind].
  destruct (match nth_error _ 1 with Some part => _ | None => _ end) as [r|e];
    [|reflexivity].
  cbn [bind].
  replace (0 <? actual_sample_size stats)%Z with false
    by (symmetry; apply Z.ltb_ge; exact Hn).
  reflexivity.
Qed.

Lemma block_well_formed criteria stats p0 p1 rest c r q :
  Py.split "/" (get_default "confidence_reliability" criteria "90%/90%")
  = p0 :: p1 :: rest ->
  py_float (Py.replace "%" [] p0) = Ok c ->
  py_float (Py.replace "%" [] p1) = Ok r ->
  (0 < actual_sample_size stats)%Z -> (0 <= defective_units stats)%Z ->
  PyFloat.int_true_div (defective_units stats) (actual_sample_size stats) = Ok q ->
  actual_conf_rel py_float criteria stats
  = PyFloat.format_percent (PyFloat.sub (PyFloat.of_Z 1) q) ++ " / "
    ++ PyFloat.format_percent (PyFloat.div r (PyFloat.of_Z 100)).
Proof.
  intros Hs H0 H1 Hn Hd Hq. unfold actual_conf_rel, confidence_block. cbv zeta.
  rewrite Hs. cbn [nth nth_error]. unfold percentage. rewrite H0, H1.
  cbn [bind].
  replace (0 <? actual_sample_size stats)%Z with true
    by (symmetry; apply Z.ltb_lt; exact Hn).
  replace (0 <=? defective_units stats)%Z with true
    by (symmetry; apply Z.leb_le; exact Hd).
  cbn [andb]. rewrite Hq. reflexivity.
Qed.

Lemma block_malformed criteria stats :
  let parts :=
    Py.split "/" (get_default "confidence_reliability" criteria "90%/90%") in
  (nth_error parts 1 = None \/
   (exists e, py_float (Py.replace "%" [] (nth 0 parts [])) = Raise e) \/
   (exists p1 e, nth_error parts 1 = Some p1 /\
                 py_float (Py.replace "%" [] p1) = Raise e)) ->
  actual_conf_rel py_float criteria stats = "TBD".
Proof.
  intros parts H. unfold actual_conf_rel, confidence_block. cbv zeta.
  fold parts. unfold percentage.
  destruct (py_float (Py.replace "%" [] (nth 0 parts []))) as [c|e0] eqn:E0;
    [|reflexivity].
  cbn [bind]. destruct H as [H|[[e H]|(p1 & e & Hp & H)]].
  - rewrite H. reflexivity.
  - discriminate.
  - rewrite Hp, H. reflexivity.
Qed.

Lemma one_in_fifty :
  exists q, PyFloat.int_true_div 1 50 = Ok q /\
            PyFloat.format_percent (PyFloat.sub (PyFloat.of_Z 1) q) = "98.00%".
Proof. eexists. split; vm_compute; reflexivity. Qed.

(** C6.  For an attribute-data row whose confidence/reliability string has
    two parts that [float] reads, with [actual_sample_size > 0] (and a count of
    defective units, which is not negative), the cell reports
    [1 - defective_units / actual_sample_size], computed in floats, as a
    percentage with two decimals, before the target reliability; with one
    defective unit in fifty that is [98.00%].  When the sample size is 0 (or
    negative), when the string has no second part or [float] rejects a part,
    the cell is ["TBD"].  The cell is a value in every case: no exception
    leaves the block. *)
Theorem attribute_confidence_cell
    (criteria : Dict.dict text) (stats : excel_stats) :
  let parts :=
    Py.split "/" (get_default "confidence_reliability" criteria "90%/90%") in
  (forall p0 p1 rest c r q,
      parts = p0 :: p1 :: rest ->
      py_float (Py.replace "%" [] p0) = Ok c ->
      py_float (Py.replace "%" [] p1) = Ok r ->
      (0 < actual_sample_size stats)%Z -> (0 <= defective_units stats)%Z ->
      PyFloat.int_true_div (defective_units stats) (actual_sample_size stats)
      = Ok q ->
      actual_conf_rel py_float criteria stats
      = PyFloat.format_percent (PyFloat.sub (PyFloat.of_Z 1) q) ++ " / "
        ++ PyFloat.format_percent (PyFloat.div r (PyFloat.of_Z 100))) /\
  (forall p0 p1 rest c r,
      parts = p0 :: p1 :: rest ->
      py_float (Py.replace "%" [] p0) = Ok c ->
      py_float (Py.replace "%" [] p1) = Ok r ->
      defective_units stats = 1%Z -> actual_sample_size stats = 50%Z ->
      actual_conf_rel py_float criteria stats
      = "98.00%" ++ " / "
        ++ PyFloat.format_percent (PyFloat.div r (PyFloat.of_Z 100))) /\
  ((actual_sample_size stats <= 0)%Z ->
   actual_conf_rel py_float criteria stats = "TBD") /\
  ((nth_error parts 1 = None \/
    (exists e, py_float (Py.replace "%" [] (nth 0 parts [])) = Raise e) \/
    (exists p1 e, nth_error parts 1 = Some p1 /\
                  py_float (Py.replace "%" [] p1) = Raise e)) ->
   actual_conf_rel py_float criteria stats = "TBD").
Proof.
  intro parts. split; [|split; [|split]].
  - intros. eapply block_well_formed; eauto.
  - intros p0 p1 rest c r Hs H0 H1 Hd Hn.
    destruct one_in_fifty as (q & Hq & Hfmt). rewrite <- Hfmt.
    eapply block_well_formed; eauto; rewrite ?Hd, ?Hn; try lia. exact Hq.
  - apply block_without_sample.
  - apply block_malformed.
Qed.

End Facts.

Lemma attribute_confidence_cell_witness :
  actual_conf_rel Samples.float_of_digits Samples.criterion_90_95
                  Samples.scenario_d
  = "98.00% / 95.00%" /\
  actual_conf_rel Samples.float_of_digits Samples.criterion_90_95
                  (ExcelStats 50 50 0 1)
  = "TBD" /\
  actual_conf_rel Samples.float_of_digits
                  [("confidence_reliability" : text, "ninety percent" : text)]
                  Samples.scenario_d
  = "TBD".
Proof.
  pose proof (attribute_confidence_cell Samples.float_of_digits
                Samples.criterion_90_95 Samples.scenario_d) as (_ & H1 & _ & _).
  pose proof (attribute_confidence_cell Samples.float_of_digits
                Samples.criterion_90_95 (ExcelStats 50 50 0 1)) as (_ & _ & H2 & _).
  pose proof (attribute_confidence_cell Samples.float_of_digits
                [("confidence_reliability" : text, "ninety percent" : text)]
                Samples.scenario_d) as (_ & _ & _ & H3).
  split; [|split].
  - rewrite (H1 ("90%" : text) ("95%" : text) [] (PyFloat.of_Z 90) (PyFloat.of_Z 95));
      reflexivity.
  - apply H2. vm_compute. discriminate.
  - apply H3. left. reflexivity.
Defined.

End TestResultSummaryAgentFacts.

(** ** The generation tasks when the capability fails *)

Module GenerationTasksFacts.
Import BaseDVTAgent GenerationTasks.

Lemma generate_content_raises client prompt :
  raises client -> exists e, generate_content client prompt = Raise e.
Proof.
  destruct client as [c|]; simpl; intro H; [|eauto].
  destruct (H prompt) as [[e He] _]. rewrite He. eauto.
Qed.

Lemma chat_raises client prompt :
  raises client -> exists e, EquipmentUsedAgent.chat client prompt = Raise e.
Proof.
  destruct client as [c|]; simpl; intro H; [|eauto].
  destruct (H prompt) as [_ [e He]]. eauto.
Qed.

Lemma generate_content_empty client prompt :
  returns_empty client -> generate_content client prompt = Ok [].
Proof.
  destruct client as [c|]; simpl; intro H; [|contradiction].
  destruct (H prompt) as [He _]. now rewrite He.
Qed.

Lemma chat_empty client prompt :
  returns_empty client -> EquipmentUsedAgent.chat client prompt = Ok [].
Proof.
  destruct client as [c|]; simpl; intro H; [|contradiction].
  now destruct (H prompt) as [_ He].
Qed.

(** A joined list that starts with a non-empty text is not empty. *)
Lemma join_head_nonempty sep (x : text) l :
  x <> [] -> Py.join sep (x :: l) <> [].
Proof.
  intro Hx. destruct l; simpl; [exact Hx|].
  destruct x; [contradiction|]. discriminate.
Qed.

Section Failure.
Variable lib : library.
Variable prompts : DVTPrompts.
Variable client : option ai_client.
Variable i : inputs.

Let result_of (t : task) : TaskResult := run lib prompts client i t.

(** *** The capability raises *)

Lemma scope_raises :
  raises client -> exists e,
    result_of scope_and_purpose = mkTaskResult false [] (Some e).
Proof.
  intro H. unfold result_of, run, ScopeAndPurposeAgent.create_scope_and_purpose.
  cbv zeta.
  match goal with |- context [generate_content client ?p] =>
    destruct (generate_content_raises client p H) as [e He]; rewrite He end.
  simpl. eauto.
Qed.

Lemma reference_raises :
  raises client -> exists e,
    result_of reference_section = mkTaskResult false [] (Some e).
Proof.
  intro H. unfold result_of, run, ReferenceAgent.create_reference_section.
  cbv zeta.
  match goal with |- context [generate_content client ?p] =>
    destruct (generate_content_raises client p H) as [e He]; rewrite He end.
  simpl. eauto.
Qed.

Lemma procedure_raises :
  raises client -> exists e,
    result_of test_procedure_summary = mkTaskResult false [] (Some e).
Proof.
  intro H.
  unfold result_of, run, TestProcedureSummaryAgent.create_test_procedure_summary.
  cbv zeta.
  match goal with |- context [generate_content client ?p] =>
    destruct (generate_content_raises client p H) as [e He]; rewrite He end.
  simpl. eauto.
Qed.

Lemma acronyms_raises :
  raises client ->
  result_of acronyms_and_definitions
  = mkTaskResult true AcronymsDefinitionsAgent._create_fallback_acronyms_section
                 None.
Proof.
  intro H.
  unfold result_of, run, AcronymsDefinitionsAgent.create_acronyms_and_definitions.
  cbv zeta.
  match goal with |- context [generate_content client ?p] =>
    destruct (generate_content_raises client p H) as [e He]; rewrite He end.
  reflexivity.
Qed.

Lemma device_configuration_raises :
  raises client -> exists e,
    result_of device_configuration_section
    = mkTaskResult false
        (DeviceUnderTestAgent._create_fallback_section (device_config i))
        (Some e).
Proof.
  intro H.
  unfold result_of, run, DeviceUnderTestAgent.create_device_configuration_section.
  cbv zeta.
  match goal with |- context [generate_content client ?p] =>
    destruct (generate_content_raises client p H) as [e He]; rewrite He end.
  simpl. eauto.
Qed.

Lemma fallback_section_nonempty device :
  DeviceUnderTestAgent._create_fallback_section device <> [].
Proof.
  unfold DeviceUnderTestAgent._create_fallback_section. cbv zeta.
  apply join_head_nonempty. discriminate.
Qed.

Lemma fallback_organize_nonempty data verified :
  EquipmentUsedAgent._fallback_organize_data data verified <> [].
Proof.
  unfold EquipmentUsedAgent._fallback_organize_data. cbv zeta.
  cbn [app]. apply join_head_nonempty. destruct verified; discriminate.
Qed.

Lemma app_nonempty (a b : text) : a <> [] -> a ++ b <> [].
Proof. destruct a; [contradiction|discriminate]. Qed.

Lemma equipment_raises :
  raises client -> fallback_success (result_of equipment_used).
Proof.
  intro H. unfold result_of, run, EquipmentUsedAgent.process.
  destruct (_ || _); [split; [reflexivity|discriminate]|].
  cbv zeta. unfold EquipmentUsedAgent._ai_organize_equipment_data. cbv zeta.
  match goal with |- context [EquipmentUsedAgent.chat client ?p] =>
    destruct (chat_raises client p H) as [e He]; rewrite He end.
  cbn [bind try_except].
  split; [reflexivity|]. cbn [content].
  match goal with |- context [match ?x with Some _ => _ | None => _ end] =>
    destruct x end;
    [apply app_nonempty|]; apply fallback_organize_nonempty.
Qed.

(** *** The capability raises or returns empty content *)

Lemma generate_ai_content_fails data config :
  raises client \/ returns_empty client ->
  TestMethodLossAgent._generate_ai_content client
    (test_method_loss_prompt prompts) data config
  = TestMethodLossAgent._generate_no_losses_content.
Proof.
  intro H. unfold TestMethodLossAgent._generate_ai_content.
  destruct (negb _); [reflexivity|]. cbv zeta.
  destruct H as [H|H].
  - match goal with |- context [generate_content client ?p] =>
      destruct (generate_content_raises client p H) as [e He]; rewrite He end.
    reflexivity.
  - rewrite (generate_content_empty client _ H). reflexivity.
Qed.

Lemma test_method_loss_fails :
  raises client \/ returns_empty client ->
  result_of test_method_loss_investigations
  = mkTaskResult true TestMethodLossAgent._generate_no_losses_content None.
Proof.
  intro H. unfold result_of, run,
    TestMethodLossAgent.create_test_method_loss_investigations. cbv zeta.
  destruct (TestMethodLossAgent._extract_test_method_loss_data _);
    [|reflexivity].
  rewrite (generate_ai_content_fails _ _ H). reflexivity.
Qed.

Lemma extract_criteria_info_fails data :
  raises client \/ returns_empty client ->
  TestResultSummaryAgent._extract_criteria_info client
    (test_result_summary_extraction_prompt prompts) (json_criteria lib) data
  = [].
Proof.
  intro H. unfold TestResultSummaryAgent._extract_criteria_info. cbv zeta.
  destruct H as [H|H].
  - match goal with |- context [generate_content client ?p] =>
      destruct (generate_content_raises client p H) as [e He]; rewrite He end.
    reflexivity.
  - rewrite (generate_content_empty client _ H). reflexivity.
Qed.

Lemma test_result_summary_fails :
  raises client \/ returns_empty client ->
  Py.truthy (ai_friendly_format i) = true
  \/ (exists doc_text, json_dumps i = Ok doc_text) ->
  result_of test_result_summary
  = TestResultSummaryAgent._generate_default_table (py_float lib)
      (test_data_type i) (stats i).
Proof.
  intros H Hdoc. unfold result_of, run,
    TestResultSummaryAgent.create_test_result_summary.
  assert (Hacd : exists acd,
             TestResultSummaryAgent._get_acceptance_criteria (json_dumps i)
               (protocol_content i) (ai_friendly_format i) = Ok acd).
  { unfold TestResultSummaryAgent._get_acceptance_criteria.
    destruct Hdoc as [Hf|[doc_text Hj]].
    - rewrite Hf. cbn [bind]. destruct (Py.truthy (protocol_content i)); eauto.
    - rewrite Hj. destruct (Py.truthy (ai_friendly_format i)); cbn [bind];
        destruct (Py.truthy (protocol_content i)); eauto. }
  destruct Hacd as [acd Hacd]. rewrite Hacd. cbn [bind].
  destruct (negb (Py.truthy acd)); [reflexivity|].
  cbv zeta. rewrite (extract_criteria_info_fails _ H). reflexivity.
Qed.

Lemma format_word_table_nonempty headers rows :
  Markdown._format_word_table headers rows <> [].
Proof. unfold Markdown._format_word_table. discriminate. Qed.

Lemma default_table_success float type st :
  fallback_success
    (TestResultSummaryAgent._generate_default_table float type st).
Proof.
  split; [reflexivity|].
  unfold TestResultSummaryAgent._generate_default_table. cbv zeta.
  cbn [content]. apply app_nonempty.
  unfold TestResultSummaryAgent._generate_table,
    TestResultSummaryAgent._generate_attribute_table,
    TestResultSummaryAgent._generate_variable_table.
  destruct (Py.eqt _ _); apply format_word_table_nonempty.
Qed.

Lemma deviations_fail :
  raises client \/ returns_empty client ->
  success (result_of protocol_deviations)
  = no_data "No deviations data found." (deviations_text i)
  /\ content (result_of protocol_deviations)
     = ProtocolDeviationsAgent.no_deviations
  /\ (success (result_of protocol_deviations) = false ->
      error (result_of protocol_deviations) <> None).
Proof.
  intro H. unfold result_of, run, ProtocolDeviationsAgent.process_deviations,
    no_data.
  destruct (_ || _); [now repeat split|]. cbv zeta.
  destruct H as [H|H].
  - match goal with |- context [generate_content client ?p] =>
      destruct (generate_content_raises client p H) as [e He]; rewrite He end.
    now repeat split.
  - rewrite (generate_content_empty client _ H). now repeat split.
Qed.

Lemma defective_units_fail :
  raises client \/ returns_empty client ->
  success (result_of defective_unit_investigations)
  = no_data "No defective units data found." (defective_units_text i)
  /\ content (result_of defective_unit_investigations)
     = DefectiveUnitInvestigationsAgent.no_defective_unit
  /\ (success (result_of defective_unit_investigations) = false ->
      error (result_of defective_unit_investigations) <> None).
Proof.
  intro H. unfold result_of, run,
    DefectiveUnitInvestigationsAgent.process_defective_units, no_data.
  destruct (_ || _); [now repeat split|]. cbv zeta.
  destruct H as [H|H].
  - match goal with |- context [generate_content client ?p] =>
      destruct (generate_content_raises client p H) as [e He]; rewrite He end.
    now repeat split.
  - rewrite (generate_content_empty client _ H). now repeat split.
Qed.

Lemma conclusion_fails :
  raises client \/ returns_empty client ->
  reported_failure (result_of conclusion) [].
Proof.
  intro H. unfold result_of, run, ConclusionAgent.generate_conclusion,
    reported_failure.
  destruct (_ || _); [now repeat split|]. cbv zeta.
  destruct H as [H|H].
  - match goal with |- context [generate_content client ?p] =>
      destruct (generate_content_raises client p H) as [e He]; rewrite He end.
    now repeat split.
  - rewrite (generate_content_empty client _ H). now repeat split.
Qed.

(** *** The capability returns empty content *)

Lemma strip_nil : Py.strip [] = [].
Proof. reflexivity. Qed.

Lemma scope_empty :
  returns_empty client ->
  result_of scope_and_purpose
  = mkTaskResult true
      (Py.strip (if Py.nonempty (scope_tables i)
                 then ScopeAndPurposeAgent.appended_tables (scope_tables i)
                 else []))
      None.
Proof.
  intro H. unfold result_of, run, ScopeAndPurposeAgent.create_scope_and_purpose.
  cbv zeta. rewrite (generate_content_empty client _ H). cbn [bind try_except].
  fold (scope_tables i).
  destruct (Py.nonempty (scope_tables i)); reflexivity.
Qed.

Lemma reference_empty :
  returns_empty client ->
  result_of reference_section = mkTaskResult true [] None.
Proof.
  intro H. unfold result_of, run, ReferenceAgent.create_reference_section.
  cbv zeta. now rewrite (generate_content_empty client _ H).
Qed.

Lemma procedure_empty :
  returns_empty client ->
  result_of test_procedure_summary = mkTaskResult true [] None.
Proof.
  intro H. unfold result_of, run,
    TestProcedureSummaryAgent.create_test_procedure_summary.
  cbv zeta. now rewrite (generate_content_empty client _ H).
Qed.

Lemma acronyms_empty :
  returns_empty client ->
  result_of acronyms_and_definitions = mkTaskResult true [] None.
Proof.
  intro H. unfold result_of, run,
    AcronymsDefinitionsAgent.create_acronyms_and_definitions.
  cbv zeta. now rewrite (generate_content_empty client _ H).
Qed.

Lemma device_configuration_empty :
  returns_empty client ->
  result_of device_configuration_section = mkTaskResult true [] None.
Proof.
  intro H. unfold result_of, run,
    DeviceUnderTestAgent.create_device_configuration_section.
  cbv zeta. now rewrite (generate_content_empty client _ H).
Qed.

Lemma equipment_empty :
  returns_empty client -> no_log_data i = false -> attachment i = None ->
  result_of equipment_used = mkTaskResult true [] None.
Proof.
  intros H Hdata Hatt. unfold result_of, run, EquipmentUsedAgent.process.
  unfold no_log_data in Hdata. rewrite Hdata. cbv zeta.
  unfold EquipmentUsedAgent._ai_organize_equipment_data. cbv zeta.
  rewrite (chat_empty client _ H). rewrite Hatt.
  cbn [bind try_except].
  match goal with |- context [if ?b then None else None] => destruct b end;
    reflexivity.
Qed.

End Failure.

(** C1, as the code has it.  When the generation capability raises or
    returns empty content, every generation task returns a [TaskResult]; what
    it carries depends on the task.  Success with non-empty fallback content:
    the test-method-loss task and (when the document text can be prepared) the
    test-result-summary task for both kinds of failure, the acronyms and the
    equipment task when the call raises.  Failure with the fallback text and
    the error: the device-configuration task when the call raises, the
    deviation and the defective-unit task for both kinds when their sheet text
    has data.  Failure with empty content and the error: the scope, the
    reference and the procedure task when the call raises, the conclusion task
    for both kinds.  Success with the empty content as it is: the reference,
    procedure, acronyms and device-configuration task when the call returns
    empty content, the scope task too apart from the scope tables of the
    protocol, and the equipment task when no attachment is written. *)
Theorem failing_capability_task_results
    (lib : library) (prompts : DVTPrompts) (client : option ai_client)
    (i : inputs) :
  raises client \/ returns_empty client ->
  (fallback_success (run lib prompts client i test_method_loss_investigations)
   /\ content (run lib prompts client i test_method_loss_investigations)
      = TestMethodLossAgent._generate_no_losses_content)
  /\ (Py.truthy (ai_friendly_format i) = true
      \/ (exists doc_text, json_dumps i = Ok doc_text) ->
      fallback_success (run lib prompts client i test_result_summary)
      /\ run lib prompts client i test_result_summary
         = TestResultSummaryAgent._generate_default_table (py_float lib)
             (test_data_type i) (stats i))
  /\ (success (run lib prompts client i protocol_deviations)
      = no_data "No deviations data found." (deviations_text i)
      /\ content (run lib prompts client i protocol_deviations)
         = ProtocolDeviationsAgent.no_deviations
      /\ (success (run lib prompts client i protocol_deviations) = false ->
          error (run lib prompts client i protocol_deviations) <> None))
  /\ (success (run lib prompts client i defective_unit_investigations)
      = no_data "No defective units data found." (defective_units_text i)
      /\ content (run lib prompts client i defective_unit_investigations)
         = DefectiveUnitInvestigationsAgent.no_defective_unit
      /\ (success (run lib prompts client i defective_unit_investigations)
          = false ->
          error (run lib prompts client i defective_unit_investigations)
          <> None))
  /\ reported_failure (run lib prompts client i conclusion) []
  /\ (raises client ->
      fallback_success (run lib prompts client i acronyms_and_definitions)
      /\ fallback_success (run lib prompts client i equipment_used)
      /\ reported_failure
           (run lib prompts client i device_configuration_section)
           (DeviceUnderTestAgent._create_fallback_section (device_config i))
      /\ DeviceUnderTestAgent._create_fallback_section (device_config i) <> []
      /\ forall t,
           In t [scope_and_purpose; reference_section; test_procedure_summary] ->
           reported_failure (run lib prompts client i t) [])
  /\ (returns_empty client ->
      run lib prompts client i scope_and_purpose
      = mkTaskResult true
          (Py.strip (if Py.nonempty (scope_tables i)
                     then ScopeAndPurposeAgent.appended_tables (scope_tables i)
                     else []))
          None
      /\ (forall t,
            In t [reference_section; test_procedure_summary;
                  acronyms_and_definitions; device_configuration_section] ->
            run lib prompts client i t = mkTaskResult true [] None)
      /\ (no_log_data i = false -> attachment i = None ->
          run lib prompts client i equipment_used = mkTaskResult true [] None)).
Proof.
  intro H. repeat apply conj.
  - rewrite (test_method_loss_fails lib prompts client i H). reflexivity.
  - rewrite (test_method_loss_fails lib prompts client i H). discriminate.
  - now rewrite (test_method_loss_fails lib prompts client i H).
  - intro Hdoc.
    rewrite (test_result_summary_fails lib prompts client i H Hdoc).
    split; [apply default_table_success|reflexivity].
  - apply (deviations_fail lib prompts client i H).
  - apply (deviations_fail lib prompts client i H).
  - apply (deviations_fail lib prompts client i H).
  - apply (defective_units_fail lib prompts client i H).
  - apply (defective_units_fail lib prompts client i H).
  - apply (defective_units_fail lib prompts client i H).
  - apply (conclusion_fails lib prompts client i H).
  - apply (conclusion_fails lib prompts client i H).
  - apply (conclusion_fails lib prompts client i H).
  - intro Hr. repeat apply conj.
    + now rewrite (acronyms_raises lib prompts client i Hr).
    + rewrite (acronyms_raises lib prompts client i Hr). discriminate.
    + apply (equipment_raises lib prompts client i Hr).
    + apply (equipment_raises lib prompts client i Hr).
    + destruct (device_configuration_raises lib prompts client i Hr) as [e ->].
      reflexivity.
    + destruct (device_configuration_raises lib prompts client i Hr) as [e ->].
      reflexivity.
    + destruct (device_configuration_raises lib prompts client i Hr) as [e ->].
      discriminate.
    + apply fallback_section_nonempty.
    + intros t [<-|[<-|[<-|[]]]].
      * destruct (scope_raises lib prompts client i Hr) as [e ->].
        repeat split; discriminate.
      * destruct (reference_raises lib prompts client i Hr) as [e ->].
        repeat split; discriminate.
      * destruct (procedure_raises lib prompts client i Hr) as [e ->].
        repeat split; discriminate.
  - intro He. repeat apply conj.
    + apply (scope_empty lib prompts client i He).
    + intros t [<-|[<-|[<-|[<-|[]]]]].
      * apply (reference_empty lib prompts client i He).
      * apply (procedure_empty lib prompts client i He).
      * apply (acronyms_empty lib prompts client i He).
      * apply (device_configuration_empty lib prompts client i He).
    + apply (equipment_empty lib prompts client i He).
Qed.

Lemma failing_capability_task_results_witness :
  raises (Some Samples.unreachable_client)
  /\ content (run Samples.plain_library Samples.plain_prompts
                  (Some Samples.unreachable_client) Samples.report_inputs
                  test_method_loss_investigations)
     = "No test method loss occurred in the execution of this test."
  /\ content (run Samples.plain_library Samples.plain_prompts
                  (Some Samples.unreachable_client) Samples.report_inputs
                  protocol_deviations)
     = "No deviations."
  /\ reported_failure
       (run Samples.plain_library Samples.plain_prompts
            (Some Samples.unreachable_client) Samples.report_inputs
            scope_and_purpose)
       [].
Proof.
  assert (H : raises (Some Samples.unreachable_client)).
  { intro prompt. split; eexists; reflexivity. }
  split; [exact H|].
  pose proof (failing_capability_task_results Samples.plain_library
                Samples.plain_prompts (Some Samples.unreachable_client)
                Samples.report_inputs (or_introl H))
    as ((_ & Hcontent) & _ & (_ & Hc & _) & _ & _ & Hraise & _).
  destruct (Hraise H) as (_ & _ & _ & _ & Hscope).
  split; [exact Hcontent|split; [exact Hc|]].
  apply Hscope. left. reflexivity.
Defined.

(** C1 (as stated) fails: not every task returns a success with content when
    its capability fails.  With no client the device-configuration task
    returns its fallback section in a result that is not a success. *)
Lemma device_configuration_failure_counterexample :
  ~ (forall (lib : library) (prompts : DVTPrompts)
            (client : option ai_client) (i : inputs) (t : task),
        raises client \/ returns_empty client ->
        fallback_success (run lib prompts client i t)).
Proof.
  intro H.
  destruct (H Samples.plain_library Samples.plain_prompts None
              Samples.report_inputs device_configuration_section
              (or_introl I)) as [Hsuccess _].
  discriminate Hsuccess.
Qed.

(** With a client that answers nothing, the scope task succeeds with the
    scope table of the protocol alone and the deviation task fails with its
    fallback text. *)
Example silent_client_results :
  run Samples.plain_library Samples.plain_prompts (Some Samples.silent_client)
      Samples.report_inputs scope_and_purpose
  = mkTaskResult true
      (Py.join [Py.LF]
         ["| REQ ID | Requirement |" : text;
          "| --- | --- |" : text;
          "| R-1 | Battery life |" : text])
      None
  /\ run Samples.plain_library Samples.plain_prompts
         (Some Samples.silent_client) Samples.report_inputs protocol_deviations
     = mkTaskResult false "No deviations."
         (Some ("Failed to generate deviation content" : text))
  /\ run Samples.plain_library Samples.plain_prompts
         (Some Samples.silent_client) Samples.report_inputs equipment_used
     = mkTaskResult true [] None.
Proof. repeat split; vm_compute; reflexivity. Qed.

(** With a client that raises, the equipment task succeeds with the section
    organised without the capability. *)
Example unreachable_client_equipment :
  content (run Samples.plain_library Samples.plain_prompts
               (Some Samples.unreachable_client) Samples.report_inputs
               equipment_used)
  = EquipmentUsedAgent._fallback_organize_data
      (parsed_data Samples.report_inputs) true
  /\ Py.startswith
       "All equipment used in this testing was verified as calibrated at the time of use."
       (EquipmentUsedAgent._fallback_organize_data
          (parsed_data Samples.report_inputs) true) = true.
Proof. split; vm_compute; reflexivity. Qed.

End GenerationTasksFacts.

(** ** The generation tasks, whatever the capability answers *)

Module TaskResultFacts.
Import BaseDVTAgent GenerationTasks.

Ltac case_capability :=
  match goal with
  | |- context [generate_content ?c ?p] => destruct (generate_content c p)
  end.

Section AnyClient.
Variable lib : library.
Variable prompts : DVTPrompts.
Variable client : option ai_client.
Variable i : inputs.

Lemma error_of_failure_scope t :
  In t [scope_and_purpose; reference_section; test_procedure_summary;
        acronyms_and_definitions; device_configuration_section] ->
  success (run lib prompts client i t) = false ->
  error (run lib prompts client i t) <> None.
Proof.
  intros [<-|[<-|[<-|[<-|[<-|[]]]]]]; cbn [run];
    unfold ScopeAndPurposeAgent.create_scope_and_purpose,
      ReferenceAgent.create_reference_section,
      TestProcedureSummaryAgent.create_test_procedure_summary,
      AcronymsDefinitionsAgent.create_acronyms_and_definitions,
      DeviceUnderTestAgent.create_device_configuration_section;
    cbv zeta; case_capability; cbn [bind try_except success error];
    congruence.
Qed.

Lemma equipment_always_succeeds :
  success (run lib prompts client i equipment_used) = true.
Proof.
  cbn [run]. unfold EquipmentUsedAgent.process.
  destruct (_ || _); reflexivity.
Qed.

Lemma error_of_failure_loss :
  success (run lib prompts client i test_method_loss_investigations) = false ->
  error (run lib prompts client i test_method_loss_investigations) <> None.
Proof.
  cbn [run].
  unfold TestMethodLossAgent.create_test_method_loss_investigations. cbv zeta.
  destruct (TestMethodLossAgent._extract_test_method_loss_data _);
    cbn [try_except]; [|discriminate].
  destruct (negb _); cbn [try_except success error]; congruence.
Qed.

Lemma error_of_failure_summary :
  success (run lib prompts client i test_result_summary) = false ->
  error (run lib prompts client i test_result_summary) <> None.
Proof.
  cbn [run]. unfold TestResultSummaryAgent.create_test_result_summary.
  destruct (TestResultSummaryAgent._get_acceptance_criteria _ _ _) as [acd|e];
    cbn [bind try_except]; [|cbn [success error]; congruence].
  destruct (negb (Py.truthy acd)); [discriminate|].
  cbv zeta. destruct (negb _); discriminate.
Qed.

Lemma error_of_failure_sheet t :
  In t [protocol_deviations; defective_unit_investigations; conclusion] ->
  success (run lib prompts client i t) = false ->
  error (run lib prompts client i t) <> None.
Proof.
  intros [<-|[<-|[<-|[]]]]; cbn [run];
    unfold ProtocolDeviationsAgent.process_deviations,
      DefectiveUnitInvestigationsAgent.process_defective_units,
      ConclusionAgent.generate_conclusion;
    (destruct (_ || _); [cbn [success error]; congruence|]);
    cbv zeta; case_capability; cbn [bind try_except];
    try (cbn [success error]; congruence);
    match goal with |- context [if ?b then _ else _] => destruct b end;
    cbn [try_except success error]; congruence.
Qed.

(** *** A success that carries content *)

Lemma loss_success_has_content :
  success (run lib prompts client i test_method_loss_investigations) = true ->
  content (run lib prompts client i test_method_loss_investigations) <> [].
Proof.
  cbn [run].
  unfold TestMethodLossAgent.create_test_method_loss_investigations. cbv zeta.
  destruct (TestMethodLossAgent._extract_test_method_loss_data _);
    cbn [try_except]; [|discriminate].
  destruct (TestMethodLossAgent._generate_ai_content _ _ _ _) as [|c s];
    cbn [Py.truthy negb try_except success content]; discriminate.
Qed.

Lemma generate_table_nonempty criteria st type :
  TestResultSummaryAgent._generate_table (py_float lib) criteria st type <> [].
Proof.
  unfold TestResultSummaryAgent._generate_table,
    TestResultSummaryAgent._generate_attribute_table,
    TestResultSummaryAgent._generate_variable_table, Markdown._format_word_table.
  destruct (Py.eqt _ _); discriminate.
Qed.

Lemma default_table_has_content type st :
  content (TestResultSummaryAgent._generate_default_table (py_float lib) type st)
  <> [].
Proof.
  unfold TestResultSummaryAgent._generate_default_table. cbv zeta.
  cbn [content]. intro H. apply app_eq_nil in H as [H _].
  now apply generate_table_nonempty in H.
Qed.

Lemma summary_success_has_content :
  success (run lib prompts client i test_result_summary) = true ->
  content (run lib prompts client i test_result_summary) <> [].
Proof.
  cbn [run]. unfold TestResultSummaryAgent.create_test_result_summary.
  destruct (TestResultSummaryAgent._get_acceptance_criteria _ _ _) as [acd|e];
    cbn [bind try_except]; [|discriminate].
  destruct (negb (Py.truthy acd)); [intros _; apply default_table_has_content|].
  cbv zeta. destruct (negb _); intros _;
    [apply default_table_has_content|apply generate_table_nonempty].
Qed.

Lemma conclusion_success_has_content :
  success (run lib prompts client i conclusion) = true ->
  content (run lib prompts client i conclusion) <> [].
Proof.
  cbn [run]. unfold ConclusionAgent.generate_conclusion.
  destruct (_ || _); [discriminate|]. cbv zeta.
  case_capability; cbn [bind try_except]; [|discriminate].
  match goal with |- context [Py.truthy ?c] => destruct c end;
    cbn [Py.truthy try_except success content]; discriminate.
Qed.

End AnyClient.

(** X1.  Whatever the capability answers and whatever a task is given, a
    result that is not a success carries an error message: no task returns
    [success=False] with [error=None]. *)
Theorem failed_result_carries_error
    (lib : library) (prompts : DVTPrompts) (client : option ai_client)
    (i : inputs) (t : task) :
  success (run lib prompts client i t) = false ->
  error (run lib prompts client i t) <> None.
Proof.
  destruct t.
  - apply error_of_failure_scope; simpl; tauto.
  - apply error_of_failure_scope; simpl; tauto.
  - apply error_of_failure_scope; simpl; tauto.
  - apply error_of_failure_scope; simpl; tauto.
  - apply error_of_failure_scope; simpl; tauto.
  - rewrite equipment_always_succeeds. discriminate.
  - apply error_of_failure_loss.
  - apply error_of_failure_summary.
  - apply error_of_failure_sheet; simpl; tauto.
  - apply error_of_failure_sheet; simpl; tauto.
  - apply error_of_failure_sheet; simpl; tauto.
Qed.

Lemma failed_result_carries_error_witness :
  success (run Samples.plain_library Samples.plain_prompts None
               Samples.report_inputs reference_section) = false
  /\ error (run Samples.plain_library Samples.plain_prompts None
                Samples.report_inputs reference_section) <> None.
Proof.
  split; [reflexivity|].
  apply (failed_result_carries_error Samples.plain_library
           Samples.plain_prompts None Samples.report_inputs reference_section).
  reflexivity.
Defined.

(** X2.  Whatever the capability answers, the test-method-loss task, the
    test-result-summary task and the conclusion task never report a success
    with empty content. *)
Theorem success_carries_content
    (lib : library) (prompts : DVTPrompts) (client : option ai_client)
    (i : inputs) (t : task) :
  In t [test_method_loss_investigations; test_result_summary; conclusion] ->
  success (run lib prompts client i t) = true ->
  content (run lib prompts client i t) <> [].
Proof.
  intros [<-|[<-|[<-|[]]]].
  - apply loss_success_has_content.
  - apply summary_success_has_content.
  - apply conclusion_success_has_content.
Qed.

Lemma success_carries_content_witness :
  success (run Samples.plain_library Samples.plain_prompts
               (Some Samples.silent_client) Samples.report_inputs
               test_result_summary) = true
  /\ content (run Samples.plain_library Samples.plain_prompts
                  (Some Samples.silent_client) Samples.report_inputs
                  test_result_summary) <> [].
Proof.
  split; [reflexivity|].
  apply (success_carries_content Samples.plain_library Samples.plain_prompts
           (Some Samples.silent_client) Samples.report_inputs
           test_result_summary).
  - right. left. reflexivity.
  - reflexivity.
Defined.

End TaskResultFacts.

(** ** The document parser: what it stores and what it never does *)

Module DocumentTreeFacts.
Import DocumentParser SectionContent.

Lemma eqt_refl k : Py.eqt k k = true.
Proof. now apply PyFacts.eqt_true. Qed.

Lemma get_set_same {V} k (v : V) d : Dict.get k (Dict.set k v d) = Some v.
Proof. rewrite DictFacts.get_set. now rewrite eqt_refl. Qed.


(** The section being filled has a counter. *)
Definition counted (st : parser) : Prop :=
  forall cur, current_section st = Some cur ->
              exists n, Dict.get cur (content_counter st) = Some n.


Section Parse.
Variable py_hash : text -> Z.





End Parse.



(** *** Content outside a section *)

Section Content.
Variable py_hash : text -> Z.

Lemma parse_elements_no_heading body : forall b,
  (forall t, In (Paragraph t) body ->
             _extract_section_number py_hash (Py.strip t) = None) ->
  exists b', parse_elements py_hash (Parser [] None [] b) body
             = Ok (Parser [] None [] b').
Proof.
  induction body as [|e body IH]; intros b H; cbn [parse_elements]; [eauto|].
  cbn [stop_parsing]. destruct b; [eauto|].
  assert (Hrest : forall t, In (Paragraph t) body ->
                    _extract_section_number py_hash (Py.strip t) = None)
    by (intros; apply H; now right).
  destruct e as [t|rows|]; cbn [process_element].
  - unfold _process_paragraph. cbv zeta.
    destruct (negb _); [cbn [bind]; now apply IH|].
    destruct (_should_stop_parsing _); [cbn [bind]; now apply IH|].
    rewrite (H t) by now left. cbn [current_section bind]. now apply IH.
  - cbn [_process_table current_section bind]. now apply IH.
  - cbn [bind]. now apply IH.
Qed.

(** X4.  Content that no section heading precedes is not stored: a body
    whose paragraphs are all without a section number or section keyword
    parses to the empty tree, whatever its paragraphs and tables hold. *)
Theorem content_without_heading_is_dropped (body : list element) :
  (forall t, In (Paragraph t) body ->
             _extract_section_number py_hash (Py.strip t) = None) ->
  parse_document py_hash body = Ok [].
Proof.
  intro H. unfold parse_document, initial.
  destruct (parse_elements_no_heading body false H) as [b' ->]. reflexivity.
Qed.

(** *** Content numbering *)

Lemma set_set {V} k (v1 v2 : V) d :
  Dict.set k v2 (Dict.set k v1 d) = Dict.set k v2 d.
Proof.
  induction d as [|[k0 v0] d IH]; cbn [Dict.set].
  - now rewrite eqt_refl.
  - destruct (Py.eqt k k0) eqn:E; cbn [Dict.set].
    + now rewrite eqt_refl.
    + now rewrite E, IH.
Qed.

Lemma set_fresh {V} k (v : V) d :
  Dict.get k d = None -> Dict.set k v d = d ++ [(k, v)].
Proof.
  induction d as [|[k0 v0] d IH]; cbn [Dict.get Dict.set app]; [reflexivity|].
  destruct (Py.eqt k k0); [discriminate|]. intro H. now rewrite IH.
Qed.

Lemma str_of_nat_inj n m : str_of_nat n = str_of_nat m -> n = m.
Proof.
  unfold str_of_nat. intro H.
  apply (f_equal string_of_list_ascii) in H.
  rewrite !string_of_list_ascii_of_string in H.
  apply (f_equal NilEmpty.uint_of_string) in H.
  rewrite !NilEmpty.usu in H. injection H as H.
  apply (f_equal Nat.of_uint) in H.
  now rewrite !DecimalNat.Unsigned.of_to in H.
Qed.

Lemma eqt_false a b : a <> b -> Py.eqt a b = false.
Proof.
  intro H. destruct (Py.eqt a b) eqn:E; [|reflexivity].
  now apply PyFacts.eqt_true in E.
Qed.

Lemma content_key_inj n m :
  ("content_" ++ str_of_nat n : text) = "content_" ++ str_of_nat m -> n = m.
Proof. intro H. apply app_inv_head in H. now apply str_of_nat_inj. Qed.

Lemma get_content_items j : forall ps start,
  j < start \/ start + List.length ps <= j ->
  Dict.get ("content_" ++ str_of_nat j) (content_items start ps) = None.
Proof.
  unfold content_items, Py.enumerate_from.
  induction ps as [|p ps IH]; intros start H; [reflexivity|].
  cbn [List.length seq combine map Dict.get fst snd].
  rewrite eqt_false.
  - apply IH. cbn [List.length] in H. lia.
  - intro E. apply content_key_inj in E. cbn [List.length] in H. lia.
Qed.

Lemma content_items_app start ps p :
  content_items start (ps ++ [p])
  = content_items start ps
    ++ [("content_" ++ str_of_nat (start + List.length ps), VStr (Py.strip p))].
Proof.
  unfold content_items, Py.enumerate_from. revert start.
  induction ps as [|q ps IH]; intro start.
  - cbn. now rewrite Nat.add_0_r.
  - cbn [app List.length seq combine map fst snd]. rewrite IH.
    now rewrite Nat.add_succ_comm.
Qed.

(** A plain paragraph in a section that holds a dictionary: it becomes the
    next content item. *)
Lemma plain_paragraph_step st num d n p :
  current_section st = Some num -> num <> [] -> stop_parsing st = false ->
  Dict.get num (parsed_data st) = Some (SDict d) ->
  Dict.get num (content_counter st) = Some n ->
  plain py_hash p ->
  process_element py_hash st (Paragraph p)
  = Ok (Parser (Dict.set num
                  (SDict (Dict.set ("content_" ++ str_of_nat (n + 1))
                                   (VStr (Py.strip p)) d))
                  (parsed_data st))
               (Some num) (Dict.set num (n + 1) (content_counter st)) false).
Proof.
  intros Hcur Hnum Hstop Hpd Hcc (Hp & Hs & He).
  cbn [process_element]. unfold _process_paragraph. cbv zeta.
  apply PyFacts.truthy_true in Hp. rewrite Hp. cbn [negb].
  rewrite Hs, He, Hcur.
  apply PyFacts.truthy_true in Hnum. rewrite Hnum.
  unfold _add_content_to_section. cbv zeta.
  assert (Hmem : Dict.mem num (parsed_data st) = true)
    by (unfold Dict.mem; now rewrite Hpd).
  rewrite Hmem, Hpd, Hcc, Hpd, Hcur, Hstop. reflexivity.
Qed.

(** The state while the paragraphs after a heading are read: [first] are the
    items the section held when its first plain paragraph came, [k] counts
    the items. *)
Definition filling (base : parser) (num : text) (first : Dict.dict value)
    (k : nat) (done : list text) : parser :=
  Parser (Dict.set num (SDict (first ++ content_items (S k) done))
                   (parsed_data base))
         (Some num)
         (Dict.set num (k + List.length done) (content_counter base))
         false.

Lemma plain_paragraphs_fill base num first k : forall ps done,
  num <> [] ->
  (forall j, k < j -> Dict.get ("content_" ++ str_of_nat j) first = None) ->
  Forall (plain py_hash) ps ->
  parse_elements py_hash (filling base num first k done) (map Paragraph ps)
  = Ok (filling base num first k (done ++ ps)).
Proof.
  induction ps as [|p ps IH]; intros done Hnum Hfirst Hps.
  - now rewrite app_nil_r.
  - inversion Hps as [|? ? Hp Hrest]; subst.
    cbn [map parse_elements]. cbn [filling stop_parsing].
    rewrite (plain_paragraph_step _ num (first ++ content_items (S k) done)
               (k + List.length done) p);
      try reflexivity; try assumption;
      try (cbn [parsed_data content_counter]; apply get_set_same).
    cbn [bind]. unfold filling at 1 2. cbn [parsed_data content_counter].
    rewrite !set_set.
    replace (Parser _ _ _ _) with (filling base num first k (done ++ [p])).
    + rewrite IH by assumption. now rewrite <- app_assoc.
    + unfold filling. rewrite length_app. cbn [List.length].
      rewrite Nat.add_assoc. f_equal. f_equal. f_equal.
      rewrite content_items_app, app_assoc.
      replace (S k + List.length done) with (k + List.length done + 1) by lia.
      symmetry. apply set_fresh.
      assert (Hget : forall {V} key (a b : Dict.dict V),
                 Dict.get key a = None -> Dict.get key (a ++ b) = Dict.get key b).
      { intros V key a b. induction a as [|[k0 v0] a IHa]; cbn [Dict.get app];
          [reflexivity|]. destruct (Py.eqt key k0); [discriminate|exact IHa]. }
      rewrite Hget by (apply Hfirst; lia).
      apply get_content_items. right. lia.
Qed.

Lemma parse_elements_app a : forall st b,
  parse_elements py_hash st (a ++ b)
  = bind (parse_elements py_hash st a)
         (fun st' => parse_elements py_hash st' b).
Proof.
  induction a as [|e a IH]; intros st b; cbn [app parse_elements bind];
    [reflexivity|].
  destruct (stop_parsing st) eqn:E.
  - cbn [bind]. destruct b; cbn [parse_elements]; [reflexivity|now rewrite E].
  - destruct (process_element py_hash st e) as [st1|err]; cbn [bind];
      [apply IH|reflexivity].
Qed.

Lemma heading_number_nonempty h num title :
  heading py_hash h num title -> num <> [].
Proof.
  intros (_ & _ & He).
  apply PromptFacts.extract_section_number_well_formed in He.
  destruct He as (k & major & minor & -> & _). destruct major; discriminate.
Qed.

Lemma title_has_no_content_key title j :
  Dict.get ("content_" ++ str_of_nat j) [("title" : text, VStr title)] = None.
Proof. reflexivity. Qed.

(** X5.  A main-section heading (an identifier that ends in [.0]) opens a
    section that holds its title alone, in place of whatever was stored under
    that identifier before; the plain paragraphs that follow it are stored
    trimmed as [content_1], [content_2], ... in document order. *)
Theorem main_section_content
    (pre : list element) (st : parser) (h num title : text)
    (ps : list text) :
  parse_elements py_hash initial pre = Ok st ->
  stop_parsing st = false ->
  heading py_hash h num title ->
  _is_main_section num = true ->
  Forall (plain py_hash) ps ->
  parse_document py_hash (pre ++ Paragraph h :: map Paragraph ps)
  = Ok (Dict.set num
          (SDict (("title" : text, VStr title) :: content_items 1 ps))
          (parsed_data st)).
Proof.
  intros Hpre Hstop Hh Hmain Hps.
  pose proof (heading_number_nonempty h num title Hh) as Hnum.
  destruct Hh as (Hne & Hs & He).
  unfold parse_document. rewrite parse_elements_app, Hpre. cbn [bind].
  cbn [parse_elements]. rewrite Hstop. cbn [process_element].
  unfold _process_paragraph. cbv zeta.
  apply PyFacts.truthy_true in Hne. rewrite Hne. cbn [negb].
  rewrite Hs, He, Hmain, Hstop. cbn [bind].
  change (Parser _ _ _ false)
    with (filling st num [("title" : text, VStr title)] 0 []).
  rewrite (plain_paragraphs_fill st num [("title" : text, VStr title)] 0 ps [])
    by (try assumption; intros; apply title_has_no_content_key).
  reflexivity.
Qed.

(** X6.  A sub-section heading is stored as the text of its line; when
    content follows, that line becomes [content_1] and the plain paragraphs
    after it are [content_2], [content_3], ... in document order. *)
Theorem sub_section_content
    (pre : list element) (st : parser) (h num title p : text)
    (ps : list text) :
  parse_elements py_hash initial pre = Ok st ->
  stop_parsing st = false ->
  heading py_hash h num title ->
  _is_main_section num = false ->
  plain py_hash p -> Forall (plain py_hash) ps ->
  parse_document py_hash (pre ++ [Paragraph h])
  = Ok (Dict.set num (SText (Py.strip h)) (parsed_data st))
  /\ parse_document py_hash (pre ++ Paragraph h :: map Paragraph (p :: ps))
     = Ok (Dict.set num (SDict (content_items 1 (h :: p :: ps)))
                    (parsed_data st)).
Proof.
  intros Hpre Hstop Hh Hmain Hp Hps.
  pose proof (heading_number_nonempty h num title Hh) as Hnum.
  destruct Hh as (Hne & Hs & He).
  apply PyFacts.truthy_true in Hne.
  assert (Hhead : process_element py_hash st (Paragraph h)
                  = Ok (Parser (Dict.set num (SText (Py.strip h)) (parsed_data st))
                               (Some num)
                               (Dict.set num 0 (content_counter st)) false)).
  { cbn [process_element]. unfold _process_paragraph. cbv zeta.
    rewrite Hne. cbn [negb]. now rewrite Hs, He, Hmain, Hstop. }
  split.
  - unfold parse_document. rewrite parse_elements_app, Hpre. cbn [bind].
    cbn [parse_elements]. now rewrite Hstop, Hhead.
  - unfold parse_document. rewrite parse_elements_app, Hpre. cbn [bind].
    cbn [map parse_elements]. rewrite Hstop, Hhead. cbn [bind stop_parsing].
    destruct Hp as (Hpne & Hps' & Hpe).
    assert (Hfirst : process_element py_hash
                       (Parser (Dict.set num (SText (Py.strip h)) (parsed_data st))
                               (Some num)
                               (Dict.set num 0 (content_counter st)) false)
                       (Paragraph p)
                     = Ok (filling st num [] 0 [h; p])).
    { cbn [process_element]. unfold _process_paragraph. cbv zeta.
      apply PyFacts.truthy_true in Hpne. rewrite Hpne. cbn [negb].
      rewrite Hps', Hpe. cbn [current_section].
      apply PyFacts.truthy_true in Hnum. rewrite Hnum.
      unfold _add_content_to_section. cbv zeta.
      cbn [parsed_data content_counter current_section stop_parsing].
      unfold Dict.mem. rewrite !get_set_same. cbn [fst snd].
      rewrite ?get_set_same. cbn [Dict.set Py.eqt]. rewrite ?set_set.
      reflexivity. }
    rewrite Hfirst. cbn [bind].
    rewrite (plain_paragraphs_fill st num [] 0 ps [h; p])
      by (try assumption; reflexivity).
    reflexivity.
Qed.

End Content.

Lemma main_section_content_witness :
  parse_document Samples.zero_hash
    [Paragraph "1.0 PURPOSE"; Paragraph "  First. "; Paragraph "Second."]
  = Ok [("1.0" : text,
         SDict [("title" : text, VStr "PURPOSE");
                ("content_1" : text, VStr "First.");
                ("content_2" : text, VStr "Second.")])].
Proof.
  apply (main_section_content Samples.zero_hash [] initial
           "1.0 PURPOSE" "1.0" "PURPOSE" ["  First. " : text; "Second." : text]).
  - reflexivity.
  - reflexivity.
  - repeat split; vm_compute; congruence.
  - reflexivity.
  - repeat constructor; vm_compute; congruence.
Defined.

Lemma sub_section_content_witness :
  parse_document Samples.zero_hash
    [Paragraph "1.0 PURPOSE"; Paragraph "1.1 Units are conditioned."]
  = Ok [("1.0" : text, SDict [("title" : text, VStr "PURPOSE")]);
        ("1.1" : text, SText "1.1 Units are conditioned.")]
  /\ parse_document Samples.zero_hash
       [Paragraph "1.0 PURPOSE"; Paragraph "1.1 Units are conditioned.";
        Paragraph "For 24 hours."]
     = Ok [("1.0" : text, SDict [("title" : text, VStr "PURPOSE")]);
           ("1.1" : text,
            SDict [("content_1" : text, VStr "1.1 Units are conditioned.");
                   ("content_2" : text, VStr "For 24 hours.")])].
Proof.
  apply (sub_section_content Samples.zero_hash [Paragraph "1.0 PURPOSE"]
           (Parser [("1.0" : text, SDict [("title" : text, VStr "PURPOSE")])]
                   (Some ("1.0" : text)) [("1.0" : text, 0)] false)
           "1.1 Units are conditioned." "1.1" "Units are conditioned."
           "For 24 hours." []).
  - reflexivity.
  - reflexivity.
  - repeat split; vm_compute; congruence.
  - reflexivity.
  - repeat split; vm_compute; congruence.
  - constructor.
Defined.

Lemma content_without_heading_is_dropped_witness :
  parse_document Samples.zero_hash
    [Paragraph "Revision history"; Table [["Rev" : text]; ["A" : text]];
     Paragraph "Approved by QA."]
  = Ok [].
Proof.
  apply (content_without_heading_is_dropped Samples.zero_hash).
  intros t [H|[H|[H|[]]]]; inversion H; subst; reflexivity.
Defined.

End DocumentTreeFacts.

(** ** Substrings *)

Module SubstringFacts.

Lemma startswith_iff p : forall s,
  Py.startswith p s = true <-> exists post, s = p ++ post.
Proof.
  induction p as [|x p IH]; intros s; cbn [Py.startswith].
  - split; [intros _; now exists s|reflexivity].
  - destruct s as [|y s].
    + split; [discriminate|intros [post H]; discriminate].
    + rewrite andb_true_iff, PyFacts.eqc_true, IH. split.
      * intros [-> [post ->]]. now exists post.
      * intros [post H]. injection H as -> ->. split; [reflexivity|now exists post].
Qed.

Lemma contains_iff sub : forall s,
  Py.contains sub s = true <-> exists pre post, s = pre ++ sub ++ post.
Proof.
  induction s as [|c s IH]; cbn [Py.contains].
  - rewrite startswith_iff. split.
    + intros [post H]. exists [], post. exact H.
    + intros (pre & post & H). destruct pre; [|discriminate].
      now exists post.
  - rewrite orb_true_iff, startswith_iff, IH. split.
    + intros [[post H]|(pre & post & H)].
      * exists [], post. exact H.
      * exists (c :: pre), post. now rewrite H.
    + intros (pre & post & H). destruct pre as [|x pre].
      * left. now exists post.
      * right. injection H as _ H. now exists pre, post.
Qed.

Lemma contains_trans a b c :
  Py.contains a b = true -> Py.contains b c = true -> Py.contains a c = true.
Proof.
  rewrite !contains_iff. intros (p1 & q1 & ->) (p2 & q2 & ->).
  exists (p2 ++ p1), (q1 ++ q2). now rewrite <- !app_assoc.
Qed.

End SubstringFacts.

(** ** The sheet parsers *)

Module ExcelSheetFacts.
Import Excel BaseExcelParser.

Lemma range_length lo hi : List.length (range lo hi) = hi - lo.
Proof. unfold range. apply length_seq. Qed.

Lemma column_name_in ws col :
  In col (range 1 (max_column ws + 1)) ->
  In (column_name_at (map (header_name ws) (range 1 (max_column ws + 1))) col)
     (map (header_name ws) (range 1 (max_column ws + 1))).
Proof.
  intro H. apply TestArticleParserFacts.in_range in H.
  unfold column_name_at.
  destruct (nth_error _ (col - 1)) as [name|] eqn:E.
  - eapply nth_error_In, E.
  - apply nth_error_None in E. rewrite length_map, range_length in E. lia.
Qed.

Lemma row_dict_keys ws cols row l : forall st k,
  In k (Dict.keys (fst (fold_left
         (fun (st : Dict.dict text * bool) col =>
            let cell_str := cell_text (cell ws row col) in
            (Dict.set (column_name_at cols col) cell_str (fst st),
             if Py.truthy cell_str then true else snd st))
         l st))) ->
  In k (Dict.keys (fst st)) \/ exists col, In col l /\ k = column_name_at cols col.
Proof.
  induction l as [|c l IH]; intros st k H; cbn [fold_left] in H; [now left|].
  apply IH in H. destruct H as [H|(col & Hc & ->)].
  - cbn [fst] in H. apply DictFacts.keys_set in H. destruct H as [->|H].
    + right. exists c. split; [now left|reflexivity].
    + now left.
  - right. exists col. split; [now right|reflexivity].
Qed.

Lemma sheet_rows ws cols l : forall acc,
  let rows :=
    fold_left (fun acc row =>
                 let r := row_dict_of ws cols row in
                 if snd r then acc ++ [fst r] else acc) l acc in
  List.length rows <= List.length acc + List.length l /\
  forall r, In r rows ->
            In r acc \/ exists row, In row l /\ r = fst (row_dict_of ws cols row).
Proof.
  induction l as [|x l IH]; intro acc; cbn [fold_left List.length].
  - split; [lia|]. intros r H. now left.
  - cbv zeta in IH |- *.
    destruct (IH (if snd (row_dict_of ws cols x)
                  then acc ++ [fst (row_dict_of ws cols x)] else acc))
      as [Hlen Hin].
    split.
    + destruct (snd (row_dict_of ws cols x));
        [rewrite length_app in Hlen; cbn [List.length] in Hlen|]; lia.
    + intros r Hr. apply Hin in Hr. destruct Hr as [Hr|(row & Hrow & ->)].
      * destruct (snd (row_dict_of ws cols x)); [|now left].
        apply in_app_or in Hr. destruct Hr as [Hr|[<-|[]]]; [now left|].
        right. exists x. split; [now left|reflexivity].
      * right. exists row. split; [now right|reflexivity].
Qed.

(** What a parsed sheet always satisfies. *)
Definition consistent (name : text) (sd : sheet_dict) : Prop :=
  sheet_name sd = name /\
  row_count sd = List.length (data sd) /\
  forall r, In r (data sd) ->
            forall k, In k (Dict.keys r) -> In k (columns sd).

Lemma parse_sheet_consistent ws name sd :
  _parse_sheet_to_dict ws name = Some sd ->
  consistent name sd /\
  List.length (columns sd) = max_column ws /\
  List.length (data sd) <= max_row ws - 1.
Proof.
  unfold _parse_sheet_to_dict. destruct (max_row ws <? 1); [discriminate|].
  cbv zeta. intro H. injection H as <-. cbn [sheet_name row_count data columns].
  set (cols := map (header_name ws) (range 1 (max_column ws + 1))).
  destruct (sheet_rows ws cols (range 2 (max_row ws + 1)) []) as [Hlen Hin].
  cbv zeta in Hlen, Hin. repeat split.
  - intros r Hr k Hk. apply Hin in Hr. destruct Hr as [[]|(row & _ & ->)].
    unfold row_dict_of in Hk. apply row_dict_keys in Hk.
    destruct Hk as [[]|(col & Hcol & ->)]. now apply column_name_in.
  - subst cols. rewrite length_map, range_length. lia.
  - rewrite range_length in Hlen. cbn [List.length] in Hlen. lia.
Qed.

Section Targets.
Variable normalize : text -> text.
Variable target_sheets : list text.

Let step (results : Dict.dict sheet_dict) (sh : text * worksheet) :=
  let normalized_name := normalize (fst sh) in
  if existsb (Py.eqt normalized_name) target_sheets then
    match _parse_sheet_to_dict (snd sh) normalized_name with
    | Some sheet_data => Dict.set normalized_name sheet_data results
    | None => results
    end
  else results.

Lemma fold_targets sheets : forall results,
  (forall k sd, Dict.get k results = Some sd ->
                In k target_sheets /\ consistent k sd) ->
  forall k sd, Dict.get k (fold_left step sheets results) = Some sd ->
               In k target_sheets /\ consistent k sd.
Proof.
  induction sheets as [|sh sheets IH]; intros results H; cbn [fold_left];
    [exact H|].
  apply IH. intros k sd. unfold step at 1. cbv zeta.
  destruct (existsb _ _) eqn:E; [|apply H].
  destruct (_parse_sheet_to_dict _ _) as [sd'|] eqn:P; [|apply H].
  rewrite DictFacts.get_set. destruct (Py.eqt k (normalize (fst sh))) eqn:K;
    [|apply H].
  apply PyFacts.eqt_true in K. subst k. intro Hs. injection Hs as <-.
  split; [now apply PyFacts.existsb_eqt|].
  now apply parse_sheet_consistent in P as [P _].
Qed.

(** X7.  The deviations, the defective-unit and the equipment parser return
    a dictionary whose keys are all target sheet names of the parser; the
    entry under a key carries that key as its sheet name, its row count is the
    number of its data rows, and every data row is keyed by column names of
    the sheet. *)
Theorem parsed_sheets_are_target_sheets
    (wb : Upload.load_result) (k : text) (sd : sheet_dict) :
  Dict.get k (parse_excel_file normalize target_sheets wb) = Some sd ->
  In k target_sheets /\
  sheet_name sd = k /\
  row_count sd = List.length (data sd) /\
  forall r, In r (data sd) ->
            forall c, In c (Dict.keys r) -> In c (columns sd).
Proof.
  unfold parse_excel_file. destruct wb as [e|sheets]; cbn; [discriminate|].
  intro H. unfold parse_target_sheets in H.
  apply (fold_targets sheets []) in H; [|discriminate].
  destruct H as [Hk (Hn & Hc & Hr)]. auto.
Qed.

Lemma fold_keeps sheets k sd : forall results,
  Dict.get k results = Some sd ->
  (forall n ws, In (n, ws) sheets -> normalize n = k ->
                _parse_sheet_to_dict ws k = None) ->
  Dict.get k (fold_left step sheets results) = Some sd.
Proof.
  induction sheets as [|[n ws] sheets IH]; intros results H Hafter;
    cbn [fold_left]; [exact H|].
  apply IH; [|intros; eapply Hafter; [right; eassumption|assumption]].
  unfold step. cbv zeta. cbn [fst snd].
  destruct (existsb _ _); [|exact H].
  destruct (_parse_sheet_to_dict ws (normalize n)) as [sd'|] eqn:P; [|exact H].
  rewrite DictFacts.get_set. destruct (Py.eqt k (normalize n)) eqn:K; [|exact H].
  apply PyFacts.eqt_true in K. subst k.
  rewrite (Hafter n ws) in P by (now left || reflexivity). discriminate.
Qed.

(** X8.  When several sheets of a workbook normalise to the same target
    name, the parser keeps the last of them that parses: what an earlier sheet
    of that name held is not in the result. *)
Theorem last_sheet_of_a_name_is_kept
    (before after : list (text * worksheet)) (name : text) (ws : worksheet)
    (k : text) (sd : sheet_dict) :
  normalize name = k -> In k target_sheets ->
  _parse_sheet_to_dict ws k = Some sd ->
  (forall n ws', In (n, ws') after -> normalize n = k ->
                 _parse_sheet_to_dict ws' k = None) ->
  Dict.get k (parse_excel_file normalize target_sheets
                (Upload.Workbook (before ++ (name, ws) :: after)))
  = Some sd.
Proof.
  intros Hn Hk Hp Hafter. unfold parse_excel_file. cbn.
  unfold parse_target_sheets. fold step. rewrite fold_left_app.
  cbn [fold_left]. apply fold_keeps; [|exact Hafter].
  unfold step. cbv beta zeta. cbn [fst snd]. rewrite Hn.
  assert (E : existsb (Py.eqt k) target_sheets = true)
    by now apply PyFacts.existsb_eqt.
  rewrite E, Hp. apply DocumentTreeFacts.get_set_same.
Qed.

End Targets.

End ExcelSheetFacts.

(** ** The key column and the counters of the test-article sheet *)

Module TestArticleSheetFacts.
Import Excel TestArticleParser SerialHeader.

Lemma header_scan pk ws :
  Py.contains "dut serial" (Py.lower pk) = true ->
  forall n,
    let st := fold_left (header_step ws) (seq 1 n) (HeaderState [] None pk) in
    Py.contains "dut serial" (Py.lower (primary_key st)) = true /\
    match primary_key_col st with
    | Some c => 1 <= c <= n /\ serial_header ws c = true /\
                forall c', c < c' <= n -> serial_header ws c' = false
    | None => forall c, 1 <= c <= n -> serial_header ws c = false
    end.
Proof.
  intros Hpk n. induction n as [|n IH]; cbv zeta.
  - cbn. split; [exact Hpk|]. intros c Hc. lia.
  - rewrite seq_S, fold_left_app. cbn [fold_left].
    cbv zeta in IH. destruct IH as [Hkey Hcol].
    set (st := fold_left (header_step ws) (seq 1 n) (HeaderState [] None pk)) in *.
    unfold header_step. cbv zeta.
    assert (E : Py.contains (Py.lower (primary_key st))
                            (Py.lower (header_name ws (1 + n)))
                || Py.contains "dut serial" (Py.lower (header_name ws (1 + n)))
                = serial_header ws (1 + n)).
    { unfold serial_header.
      destruct (Py.contains "dut serial" (Py.lower (header_name ws (1 + n))))
        eqn:S; [apply orb_true_r|].
      rewrite orb_false_r.
      destruct (Py.contains (Py.lower (primary_key st))
                            (Py.lower (header_name ws (1 + n)))) eqn:C;
        [|reflexivity].
      rewrite (SubstringFacts.contains_trans _ _ _ Hkey C) in S. discriminate. }
    rewrite E. destruct (serial_header ws (1 + n)) eqn:S;
      cbn [primary_key primary_key_col].
    + split; [exact S|]. split; [lia|]. split; [exact S|]. intros c' Hc'. lia.
    + split; [exact Hkey|].
      destruct (primary_key_col st) as [c|].
      * destruct Hcol as (Hr & Hs & Hl). split; [lia|]. split; [exact Hs|].
        intros c' Hc'. destruct (Nat.eq_dec c' (1 + n)) as [->|Hne];
          [exact S|apply Hl; lia].
      * intros c Hc. destruct (Nat.eq_dec c (1 + n)) as [->|Hne];
          [exact S|apply Hcol; lia].
Qed.

(** X9.  The records of the test-article sheet are keyed by the last
    column whose header contains dut serial in any case: no later column
    has such a header, and when no header has it the sheet has no key
    column.  This holds for every primary key the parser can have reached,
    which always contains dut serial itself. *)
Theorem key_column_is_last_serial_header (pk : text) (ws : worksheet) :
  Py.contains "dut serial" (Py.lower pk) = true ->
  match key_column pk ws with
  | Some c => 1 <= c <= max_column ws /\ serial_header ws c = true /\
              forall c', c < c' <= max_column ws -> serial_header ws c' = false
  | None => forall c, 1 <= c <= max_column ws -> serial_header ws c = false
  end.
Proof.
  intro Hpk. unfold key_column, scan_header, range.
  replace (max_column ws + 1 - 1) with (max_column ws) by lia.
  apply (header_scan pk ws Hpk (max_column ws)).
Qed.

Lemma key_column_is_last_serial_header_witness :
  Py.contains "dut serial" (Py.lower initial_primary_key) = true /\
  match key_column initial_primary_key Samples.losses_sheet with
  | Some c => 1 <= c <= max_column Samples.losses_sheet /\
              serial_header Samples.losses_sheet c = true /\
              forall c', c < c' <= max_column Samples.losses_sheet ->
                         serial_header Samples.losses_sheet c' = false
  | None => forall c, 1 <= c <= max_column Samples.losses_sheet ->
                      serial_header Samples.losses_sheet c = false
  end.
Proof.
  split; [reflexivity|].
  apply (key_column_is_last_serial_header initial_primary_key
           Samples.losses_sheet).
  reflexivity.
Defined.

(** The counters of [_analyze_test_results] while the loops run. *)
Definition counted (a : analysis) : Prop :=
  (0 <= pass_count a /\ 0 <= fail_count a /\ 0 <= tml_count a /\
   tml_count a = test_method_losses a /\
   pass_count a + fail_count a + tml_count a <= total_tests_performed a)%Z.






End TestArticleSheetFacts.

(** ** Which sheets the parsers take *)

Module SheetSelectionFacts.

Ltac target_name H :=
  cbn [existsb] in H; rewrite ?orb_true_iff, ?orb_false_r in H;
  repeat match type of H with
         | _ \/ _ => destruct H as [H|H]
         end;
  try discriminate; apply PyFacts.eqt_true in H.

Lemma deviations_selection (name : text) :
  existsb (Py.eqt (DeviationsParser._normalize_sheet_name name))
          DeviationsParser.target_sheets
  = Py.contains "DEVIATION" (Py.strip (Py.upper name)).
Proof.
  unfold DeviationsParser._normalize_sheet_name. cbv zeta.
  destruct (existsb (Py.eqt (Py.strip (Py.upper name)))
                    DeviationsParser.target_sheets) eqn:E.
  - rewrite E. unfold DeviationsParser.target_sheets in E.
    target_name E; rewrite E; reflexivity.
  - destruct (Py.contains "DEVIATION" _) eqn:D.
    + destruct (Py.contains "PROTOCOL" _); [reflexivity|].
      destruct (Py.contains "LOG" _); reflexivity.
    + destruct (existsb (Py.eqt name) DeviationsParser.target_sheets) eqn:N;
        [|reflexivity].
      unfold DeviationsParser.target_sheets in N.
      target_name N; subst name; vm_compute in E; discriminate.
Qed.

Lemma defective_units_selection (name : text) :
  existsb (Py.eqt (DefectiveUnitsParser._normalize_sheet_name name))
          DefectiveUnitsParser.target_sheets
  = Py.contains "UNIT" (Py.strip (Py.upper name))
    && (Py.contains "DEFECTIVE" (Py.strip (Py.upper name))
        || Py.contains "FAILED" (Py.strip (Py.upper name))).
Proof.
  unfold DefectiveUnitsParser._normalize_sheet_name. cbv zeta.
  destruct (existsb (Py.eqt (Py.strip (Py.upper name)))
                    DefectiveUnitsParser.target_sheets) eqn:E.
  - rewrite E. unfold DefectiveUnitsParser.target_sheets in E.
    target_name E; rewrite E; reflexivity.
  - destruct (Py.contains "UNIT" _) eqn:U, (Py.contains "DEFECTIVE" _) eqn:D,
             (Py.contains "FAILED" _) eqn:F;
      cbn [andb orb];
      try (destruct (Py.contains "INVESTIGATION" _)); try reflexivity;
      (destruct (existsb (Py.eqt name) DefectiveUnitsParser.target_sheets) eqn:N;
       [|reflexivity]);
      unfold DefectiveUnitsParser.target_sheets in N;
      target_name N; subst name; vm_compute in E; discriminate.
Qed.

Lemma equipment_selection (name : text) :
  existsb (Py.eqt (EquipmentUsedParser._normalize_sheet_name name))
          EquipmentUsedParser.target_sheets
  = Py.contains "LOG" (Py.strip (Py.upper name))
    && (Py.contains "EQUIPMENT" (Py.strip (Py.upper name))
        || Py.contains "SOFTWARE" (Py.strip (Py.upper name))
        || Py.contains "MATERIAL" (Py.strip (Py.upper name))).
Proof.
  unfold EquipmentUsedParser._normalize_sheet_name. cbv zeta.
  destruct (existsb (Py.eqt (Py.strip (Py.upper name)))
                    EquipmentUsedParser.target_sheets) eqn:E.
  - rewrite E. unfold EquipmentUsedParser.target_sheets in E.
    target_name E; rewrite E; reflexivity.
  - destruct (Py.contains "LOG" _) eqn:L, (Py.contains "EQUIPMENT" _) eqn:Q,
             (Py.contains "SOFTWARE" _) eqn:S, (Py.contains "MATERIAL" _) eqn:M;
      cbn [andb orb]; try reflexivity;
      (destruct (existsb (Py.eqt name) EquipmentUsedParser.target_sheets) eqn:N;
       [|reflexivity]);
      unfold EquipmentUsedParser.target_sheets in N;
      target_name N; subst name; vm_compute in E; discriminate.
Qed.

(** X11.  Which sheets the three log parsers take is decided by words in
    the sheet name, upper-cased and stripped: the deviations parser takes a
    sheet exactly when the name contains DEVIATION, the defective-unit parser
    when it contains UNIT with DEFECTIVE or FAILED, the equipment parser when
    it contains LOG with EQUIPMENT, SOFTWARE or MATERIAL. *)
Theorem sheets_are_selected_by_keywords (name : text) :
  let sheet_upper := Py.strip (Py.upper name) in
  existsb (Py.eqt (DeviationsParser._normalize_sheet_name name))
          DeviationsParser.target_sheets
  = Py.contains "DEVIATION" sheet_upper /\
  existsb (Py.eqt (DefectiveUnitsParser._normalize_sheet_name name))
          DefectiveUnitsParser.target_sheets
  = Py.contains "UNIT" sheet_upper
    && (Py.contains "DEFECTIVE" sheet_upper
        || Py.contains "FAILED" sheet_upper) /\
  existsb (Py.eqt (EquipmentUsedParser._normalize_sheet_name name))
          EquipmentUsedParser.target_sheets
  = Py.contains "LOG" sheet_upper
    && (Py.contains "EQUIPMENT" sheet_upper
        || Py.contains "SOFTWARE" sheet_upper
        || Py.contains "MATERIAL" sheet_upper).
Proof.
  cbv zeta. split; [apply deviations_selection|].
  split; [apply defective_units_selection|apply equipment_selection].
Qed.

End SheetSelectionFacts.

(** ** Witnesses for the sheet parsers *)

Module ExcelWitnesses.
Import Excel BaseExcelParser SampleWorkbooks.

Lemma parsed_sheets_are_target_sheets_witness :
  exists sd,
    Dict.get "DEVIATIONS"
             (DeviationsParser.parse_excel_file deviation_workbook) = Some sd /\
    In ("DEVIATIONS" : text) DeviationsParser.target_sheets /\
    sheet_name sd = "DEVIATIONS" /\
    row_count sd = List.length (data sd) /\
    forall r, In r (data sd) ->
              forall c, In c (Dict.keys r) -> In c (columns sd).
Proof.
  eexists. split; [vm_compute; reflexivity|].
  apply (ExcelSheetFacts.parsed_sheets_are_target_sheets
           DeviationsParser._normalize_sheet_name
           DeviationsParser.target_sheets deviation_workbook).
  vm_compute. reflexivity.
Defined.

Lemma last_sheet_of_a_name_is_kept_witness :
  exists sd,
    _parse_sheet_to_dict later_deviation_sheet "DEVIATIONS" = Some sd /\
    row_count sd = 2 /\
    Dict.get "DEVIATIONS"
             (DeviationsParser.parse_excel_file deviation_workbook) = Some sd.
Proof.
  eexists. split; [vm_compute; reflexivity|]. split; [reflexivity|].
  apply (ExcelSheetFacts.last_sheet_of_a_name_is_kept
           DeviationsParser._normalize_sheet_name
           DeviationsParser.target_sheets
           [ ("Deviations" : text, deviation_sheet);
             ("Summary" : text, Samples.grid []) ]
           [] " deviations " later_deviation_sheet "DEVIATIONS").
  - reflexivity.
  - left. reflexivity.
  - vm_compute. reflexivity.
  - intros n ws' [].
Defined.


End ExcelWitnesses.

(** ** A test-article sheet without result columns *)

Module NoResultColumnsFacts.
Import Excel Upload TestArticleParser.

Lemma header_columns ws l : forall st,
  columns (fold_left (header_step ws) l st)
  = columns st ++ map (header_name ws) l.
Proof.
  induction l as [|c l IH]; intro st; cbn [fold_left map].
  - now rewrite app_nil_r.
  - rewrite IH. unfold header_step. cbv zeta.
    destruct (_ || _); cbn [columns]; now rewrite <- app_assoc.
Qed.

Lemma scan_header_columns pk ws :
  columns (scan_header pk ws)
  = map (header_name ws) (range 1 (max_column ws + 1)).
Proof. unfold scan_header. now rewrite header_columns. Qed.

Lemma column_name_at_header ws col :
  In col (range 1 (max_column ws + 1)) ->
  column_name_at (map (header_name ws) (range 1 (max_column ws + 1))) col
  = header_name ws col.
Proof.
  intro H. apply TestArticleParserFacts.in_range in H.
  unfold column_name_at, range.
  assert (E : nth_error (seq 1 (max_column ws + 1 - 1)) (col - 1) = Some col).
  { rewrite (nth_error_nth' _ 0) by (rewrite length_seq; lia).
    rewrite seq_nth by lia. f_equal. lia. }
  now rewrite (map_nth_error _ _ _ E).
Qed.

(** No header of the sheet starts with test result, in any case. *)
Definition no_result_header (ws : worksheet) : Prop :=
  forall col, 1 <= col <= max_column ws ->
    Py.startswith "test result" (Py.lower (header_name ws col)) = false.

Lemma cells_keep_result_columns ws cols pk row l : forall st,
  (forall col, In col l ->
     Py.startswith "test result" (Py.lower (column_name_at cols col)) = false) ->
  row_test_result_columns (fold_left (cell_step ws cols pk row) l st)
  = row_test_result_columns st.
Proof.
  induction l as [|c l IH]; intros st H; cbn [fold_left]; [reflexivity|].
  rewrite IH by (intros; apply H; now right).
  unfold cell_step. cbv zeta. cbn [row_test_result_columns].
  now rewrite (H c) by now left.
Qed.

Lemma rows_keep_result_columns ws cols pk rows : forall acc,
  (forall col, In col (range 1 (max_column ws + 1)) ->
     Py.startswith "test result" (Py.lower (column_name_at cols col)) = false) ->
  snd (fold_left (row_step ws cols pk) rows acc) = snd acc.
Proof.
  induction rows as [|r rows IH]; intros acc H; cbn [fold_left]; [reflexivity|].
  rewrite IH by exact H. unfold row_step. cbv zeta.
  assert (E : row_test_result_columns (scan_row ws cols pk (snd acc) r) = snd acc).
  { unfold scan_row. now rewrite cells_keep_result_columns. }
  destruct (keyed _); cbn [snd]; exact E.
Qed.

Lemma parse_without_result_columns pk ws name :
  2 <= max_row ws ->
  key_column pk ws <> None ->
  no_result_header ws ->
  exists sd,
    _parse_test_article_sheet pk ws name = Some sd /\
    test_results_analysis sd = NoResultColumns.
Proof.
  intros Hrows Hkey Hno. unfold _parse_test_article_sheet.
  destruct (max_row ws <? 2) eqn:E; [apply Nat.ltb_lt in E; lia|].
  cbv zeta. unfold key_column in Hkey.
  destruct (primary_key_col (scan_header pk ws)) as [c|]; [|congruence].
  eexists. split; [reflexivity|]. cbn [test_results_analysis].
  assert (T : snd (scan_rows ws (columns (scan_header pk ws)) c) = []).
  { unfold scan_rows. rewrite rows_keep_result_columns; [reflexivity|].
    intros col Hcol. rewrite scan_header_columns, column_name_at_header by exact Hcol.
    apply Hno. apply TestArticleParserFacts.in_range in Hcol. lia. }
  now rewrite T.
Qed.

Section File.
Variables (name : option text) (sheets : list (text * worksheet)).
Variables (sheet : text) (ws : worksheet).
Hypothesis target :
  find (fun sh : text * worksheet => TestArticleFile._is_target_sheet (fst sh))
       sheets = Some (sheet, ws).
Hypothesis rows : 2 <= max_row ws.
Hypothesis keyed_sheet : key_column initial_primary_key ws <> None.
Hypothesis no_results : no_result_header ws.

Let data_file := UploadFile name (Bytes (Workbook sheets)).

Lemma test_article_parse :
  exists sd pk,
    BaseExcelParser.parse_uploaded_file
      (TestArticleFile.parse_excel_file initial_primary_key)
      ([], initial_primary_key) data_file
    = Ok ([("TEST_ARTICLE_DATA" : text, sd)], pk) /\
    test_results_analysis sd = NoResultColumns.
Proof.
  destruct (parse_without_result_columns initial_primary_key ws sheet
              rows keyed_sheet no_results) as (sd & Hsd & Han).
  exists sd, (TestArticleFile.primary_key_after initial_primary_key ws).
  split; [|exact Han].
  unfold BaseExcelParser.parse_uploaded_file, data_file, read_content.
  cbn [content bind try_except].
  unfold TestArticleFile.parse_excel_file, load_workbook.
  cbn [bind]. rewrite target, Hsd. reflexivity.
Qed.

Lemma combined_results :
  exists sd,
    CombinedExcelParser.test_article_data
      (CombinedExcelParser.parse_all_excel_files [Some data_file])
    = [("TEST_ARTICLE_DATA" : text, sd)] /\
    test_results_analysis sd = NoResultColumns /\
    CombinedExcelParser.errors
      (CombinedExcelParser.summary
         (CombinedExcelParser.parse_all_excel_files [Some data_file])) = [] /\
    CombinedExcelParser.files_processed
      (CombinedExcelParser.summary
         (CombinedExcelParser.parse_all_excel_files [Some data_file])) = 1.
Proof.
  destruct test_article_parse as (sd & pk & Hp & Han).
  exists sd. unfold CombinedExcelParser.parse_all_excel_files.
  cbn [CombinedExcelParser.enumerate List.length seq combine fold_left].
  unfold CombinedExcelParser.file_step. cbn [snd fst].
  unfold CombinedExcelParser.process_file. cbv zeta. cbn [snd fst].
  rewrite Hp. cbn [bind fst snd CombinedExcelParser.truthy_dict].
  unfold BaseExcelParser.parse_uploaded_file. cbn [bind].
  repeat match goal with
         | |- context [if CombinedExcelParser.truthy_dict ?d then _ else _] =>
             destruct (CombinedExcelParser.truthy_dict d)
         end;
    cbn; auto.
Qed.

(** X12.  A workbook whose test-article sheet has a key column and data
    rows but no column whose header starts with test result is parsed
    without an error being recorded, and the analysis of its sheet is the
    message dictionary; the summary printed at the end of
    parse_all_excel_files then looks up pass_count in it, so the call raises
    KeyError instead of returning the results. *)
Theorem summary_raises_without_result_columns :
  (exists sd,
     CombinedExcelParser.test_article_data
       (CombinedExcelParser.parse_all_excel_files [Some data_file])
     = [("TEST_ARTICLE_DATA" : text, sd)] /\
     test_results_analysis sd = NoResultColumns) /\
  CombinedExcelParser.errors
    (CombinedExcelParser.summary
       (CombinedExcelParser.parse_all_excel_files [Some data_file])) = [] /\
  CombinedSummary.parse_all_excel_files_and_report [Some data_file]
  = Raise "'pass_count'".
Proof.
  destruct combined_results as (sd & Hd & Han & Herr & _).
  split; [now exists sd|]. split; [exact Herr|].
  unfold CombinedSummary.parse_all_excel_files_and_report. cbv zeta.
  unfold CombinedSummary._print_parsing_summary. rewrite Hd.
  cbn [Dict.values map snd]. rewrite Han. reflexivity.
Qed.

Section Repr.
Variable repr_record : record -> text.
Variable repr_row : Dict.dict text -> text.

(** X13.  In process_files such a workbook contributes nothing: the
    prompt text of its test-article data cannot be formatted (KeyError on
    total_tests_performed), the exception ends the parsing of the file, and
    its equipment, deviation and defective-unit sheets are never read; the
    parsed Excel data are what they were before the file. *)
Theorem file_without_result_columns_is_skipped
    (pe : ProcessFiles.parsed_excel_data) :
  (exists sd,
     BaseExcelParser.parse_uploaded_file
       (TestArticleFile.parse_excel_file initial_primary_key)
       ([], initial_primary_key) data_file
     = Ok ([("TEST_ARTICLE_DATA" : text, sd)],
           TestArticleFile.primary_key_after initial_primary_key ws) /\
     TestArticleReport.format_for_ai_prompt repr_record
       [("TEST_ARTICLE_DATA" : text, sd)]
     = Raise "'total_tests_performed'") /\
  ProcessFiles.parse_with_all_parsers repr_record repr_row pe data_file
  = Raise "'total_tests_performed'" /\
  ProcessFiles.enhanced_excel_parsing repr_record repr_row pe data_file = pe.
Proof.
  destruct (parse_without_result_columns initial_primary_key ws sheet
              rows keyed_sheet no_results) as (sd & Hsd & Han).
  assert (Hp : BaseExcelParser.parse_uploaded_file
                 (TestArticleFile.parse_excel_file initial_primary_key)
                 ([], initial_primary_key) data_file
               = Ok ([("TEST_ARTICLE_DATA" : text, sd)],
                     TestArticleFile.primary_key_after initial_primary_key ws)).
  { unfold BaseExcelParser.parse_uploaded_file, data_file, read_content.
    cbn [content bind try_except].
    unfold TestArticleFile.parse_excel_file, load_workbook.
    cbn [bind]. rewrite target, Hsd. reflexivity. }
  assert (Hf : TestArticleReport.format_for_ai_prompt repr_record
                 [("TEST_ARTICLE_DATA" : text, sd)]
               = Raise "'total_tests_performed'").
  { unfold TestArticleReport.format_for_ai_prompt.
    change (Dict.get "TEST_ARTICLE_DATA" [("TEST_ARTICLE_DATA" : text, sd)])
      with (Some sd).
    cbv beta iota zeta. rewrite Han. reflexivity. }
  assert (Hr : ProcessFiles.parse_with_all_parsers repr_record repr_row pe
                 data_file = Raise "'total_tests_performed'").
  { unfold ProcessFiles.parse_with_all_parsers. rewrite Hp.
    cbn [bind fst CombinedExcelParser.truthy_dict]. now rewrite Hf. }
  split; [exists sd; split; assumption|]. split; [exact Hr|].
  unfold ProcessFiles.enhanced_excel_parsing. now rewrite Hr.
Qed.

End Repr.
End File.

End NoResultColumnsFacts.

(** ** Statistics and record queries *)

Module StatisticsFacts.
Import Excel Upload TestArticleParser.

Lemma test_article_results_shape (f : upload_file) :
  exists d pk,
    BaseExcelParser.parse_uploaded_file
      (TestArticleFile.parse_excel_file initial_primary_key)
      ([], initial_primary_key) f = Ok (d, pk) /\
    (d = [] \/ exists sd, d = [("TEST_ARTICLE_DATA" : text, sd)]).
Proof.
  unfold BaseExcelParser.parse_uploaded_file, read_content.
  destruct (content f) as [|e|wb]; cbn [bind try_except];
    try (do 2 eexists; split; [reflexivity|now left]).
  unfold TestArticleFile.parse_excel_file, load_workbook.
  destruct wb as [e|sheets]; cbn [bind try_except];
    try (do 2 eexists; split; [reflexivity|now left]).
  destruct (find _ sheets) as [[name ws]|]; cbn [try_except];
    try (do 2 eexists; split; [reflexivity|now left]).
  destruct (_parse_test_article_sheet _ ws name) as [sd|]; cbn [try_except];
    do 2 eexists; (split; [reflexivity|]); [right; now exists sd|now left].
Qed.

Section Repr.
Variable repr_record : record -> text.
Variable repr_row : Dict.dict text -> text.

(** X14.  The statistics process_files stores with the test-article data
    of a file do not depend on the data: whenever the file changes the stored
    test articles, the statistics are one unit, no test method loss and an
    actual sample size of zero, because they are counted over the one-entry
    dictionary of the sheet and not over its records. *)
Theorem stored_statistics_ignore_the_records
    (pe : ProcessFiles.parsed_excel_data) (data_file : upload_file) :
  let pe' :=
    ProcessFiles.enhanced_excel_parsing repr_record repr_row pe data_file in
  ProcessFiles.test_articles pe' = ProcessFiles.test_articles pe \/
  exists e,
    ProcessFiles.test_articles pe' = Some e /\
    ProcessFiles.stats e = ProcessFiles.Statistics 1 0 0.
Proof.
  cbv zeta. unfold ProcessFiles.enhanced_excel_parsing,
    ProcessFiles.parse_with_all_parsers.
  destruct (test_article_results_shape data_file) as (d & pk & -> & Hd).
  cbn [bind fst].
  unfold BaseExcelParser.parse_uploaded_file. cbn [bind].
  destruct Hd as [->|[sd ->]]; cbn [CombinedExcelParser.truthy_dict bind].
  - left.
    repeat match goal with
           | |- context [if CombinedExcelParser.truthy_dict ?d then _ else _] =>
               destruct (CombinedExcelParser.truthy_dict d)
           end; reflexivity.
  - destruct (TestArticleReport.format_for_ai_prompt repr_record _) as [ai|e];
      cbn [bind try_except]; [|now left].
    right. eexists. split.
    + repeat match goal with
             | |- context [if CombinedExcelParser.truthy_dict ?d then _ else _] =>
                 destruct (CombinedExcelParser.truthy_dict d)
             end; reflexivity.
    + reflexivity.
Qed.

End Repr.

(** The counters a result cell raises. *)
Definition raised (a a' : analysis) (result : text) : Prop :=
  (pass_count a + Z.b2z (Py.eqt result "PASS") <= pass_count a' /\
   fail_count a + Z.b2z (Py.eqt result "FAIL") <= fail_count a' /\
   test_method_losses a + Z.b2z (Py.eqt result "TML") <= test_method_losses a')%Z.

Lemma result_step_raises rec st col :
  raised (fst st) (fst (result_step rec st col)) (result_of rec col).
Proof.
  unfold raised, result_step. cbv zeta.
  destruct (Py.eqt (result_of rec col) "PASS") eqn:P.
  { apply PyFacts.eqt_true in P. rewrite P. cbn. lia. }
  destruct (Py.eqt (result_of rec col) "FAIL") eqn:F.
  { apply PyFacts.eqt_true in F. rewrite F. cbn. lia. }
  destruct (Py.eqt (result_of rec col) "TML") eqn:T.
  { apply PyFacts.eqt_true in T. rewrite T. cbn. lia. }
  destruct (Py.truthy _); [|cbn; lia].
  destruct (is_tml _); cbn; lia.
Qed.

Definition has_result (cols : list text) (t : text) (rec : record) : bool :=
  existsb (fun col => Py.eqt (result_of rec col) t) cols.

Lemma b2z_orb a b : (Z.b2z (a || b) <= Z.b2z a + Z.b2z b)%Z.
Proof. destruct a, b; cbn; lia. Qed.

Lemma fold_result_raises rec cols : forall st,
  let a := fst st in
  let a' := fst (fold_left (result_step rec) cols st) in
  (pass_count a + Z.b2z (has_result cols "PASS" rec) <= pass_count a' /\
   fail_count a + Z.b2z (has_result cols "FAIL" rec) <= fail_count a' /\
   test_method_losses a + Z.b2z (has_result cols "TML" rec)
   <= test_method_losses a')%Z.
Proof.
  induction cols as [|c cols IH]; intro st; cbv zeta; cbn [fold_left].
  - cbn. lia.
  - specialize (IH (result_step rec st c)). cbv zeta in IH.
    destruct IH as (Hp & Hf & Hl).
    destruct (result_step_raises rec st c) as (Hp1 & Hf1 & Hl1).
    unfold has_result in *. cbn [existsb].
    pose proof (b2z_orb (Py.eqt (result_of rec c) "PASS")
                  (existsb (fun col => Py.eqt (result_of rec col) "PASS") cols)).
    pose proof (b2z_orb (Py.eqt (result_of rec c) "FAIL")
                  (existsb (fun col => Py.eqt (result_of rec col) "FAIL") cols)).
    pose proof (b2z_orb (Py.eqt (result_of rec c) "TML")
                  (existsb (fun col => Py.eqt (result_of rec col) "TML") cols)).
    lia.
Qed.

Lemma record_step_raises cols a item :
  let a' := record_step cols a item in
  (pass_count a + Z.b2z (has_result cols "PASS" (snd item)) <= pass_count a' /\
   fail_count a + Z.b2z (has_result cols "FAIL" (snd item)) <= fail_count a' /\
   test_method_losses a + Z.b2z (has_result cols "TML" (snd item))
   <= test_method_losses a')%Z.
Proof.
  cbv zeta. unfold record_step. cbv zeta.
  pose proof (fold_result_raises (snd item) cols (a, false)) as H.
  cbv zeta in H. cbn [fst] in H.
  match goal with |- context [if ?b then _ else _] => destruct b end;
    cbn [pass_count fail_count test_method_losses]; exact H.
Qed.

Lemma b2z_length (f : record -> bool) (r : record) (l : list record) :
  Z.of_nat (List.length (filter f (r :: l)))
  = (Z.b2z (f r) + Z.of_nat (List.length (filter f l)))%Z.
Proof. cbn [filter]. destruct (f r); cbn [List.length Z.b2z]; lia. Qed.

Lemma fold_record_raises cols recs : forall a,
  let a' := fold_left (record_step cols) recs a in
  (pass_count a
   + Z.of_nat (List.length (filter (has_result cols "PASS") (Dict.values recs)))
   <= pass_count a' /\
   fail_count a
   + Z.of_nat (List.length (filter (has_result cols "FAIL") (Dict.values recs)))
   <= fail_count a' /\
   test_method_losses a
   + Z.of_nat (List.length (filter (has_result cols "TML") (Dict.values recs)))
   <= test_method_losses a')%Z.
Proof.
  induction recs as [|r recs IH]; intro a; cbv zeta; cbn [fold_left].
  - cbn. lia.
  - specialize (IH (record_step cols a r)). cbv zeta in IH.
    destruct IH as (Hp & Hf & Hl).
    destruct (record_step_raises cols a r) as (Hp1 & Hf1 & Hl1).
    unfold Dict.values in *. cbn [map]. rewrite !b2z_length. lia.
Qed.

(** X15.  The records get_records_by_result returns are counted by the
    analysis of the sheet: there are at most pass_count records with a PASS,
    at most fail_count with a FAIL and at most test_method_losses with a TML,
    and the actual sample size is at most the number of units without the
    records that have a TML. *)
Theorem records_by_result_are_counted
    (pk : text) (ws : worksheet) (name : text)
    (sd : sheet_data) (a : analysis) :
  _parse_test_article_sheet pk ws name = Some sd ->
  test_results_analysis sd = Stats a ->
  let parsed_data := [("TEST_ARTICLE_DATA" : text, sd)] in
  let found t :=
    Z.of_nat (List.length
                (TestArticleReport.get_records_by_result parsed_data t)) in
  (found "PASS" <= pass_count a /\
   found "FAIL" <= fail_count a /\
   found "TML" <= test_method_losses a /\
   actual_sample_size a <= Z.of_nat (total_units sd) - found "TML")%Z.
Proof.
  unfold _parse_test_article_sheet.
  destruct (max_row ws <? 2); [discriminate|]. cbv zeta.
  destruct (primary_key_col (scan_header pk ws)) as [c|]; [|discriminate].
  intro H. injection H as <-. cbn [test_results_analysis total_units].
  set (rs := scan_rows ws (columns (scan_header pk ws)) c).
  unfold _analyze_test_results.
  destruct (snd rs) as [|col cols] eqn:E; [discriminate|].
  cbv zeta. intro H. injection H as <-.
  unfold TestArticleReport.get_records_by_result.
  change (Dict.get "TEST_ARTICLE_DATA" [("TEST_ARTICLE_DATA" : text, ?x)])
    with (Some x).
  cbv beta iota. cbn [records test_result_columns pass_count fail_count
                      test_method_losses actual_sample_size].
  destruct (fold_record_raises (col :: cols) (fst rs) (Analysis 0 0 0 0 0 0))
    as (Hp & Hf & Hl).
  cbn [pass_count fail_count test_method_losses] in Hp, Hf, Hl.
  change (Py.upper "PASS") with ("PASS" : text).
  change (Py.upper "FAIL") with ("FAIL" : text).
  change (Py.upper "TML") with ("TML" : text).
  unfold has_result in Hp, Hf, Hl. lia.
Qed.

End StatisticsFacts.

(** ** Witnesses for the reports *)

Module ReportWitnesses.
Import Excel Upload TestArticleParser SampleUploads.

Lemma article_sheet_no_result_header :
  NoResultColumnsFacts.no_result_header article_sheet.
Proof.
  intros col Hcol. cbn in Hcol.
  assert (E : col = 1 \/ col = 2) by lia.
  destruct E as [->| ->]; reflexivity.
Defined.

Lemma summary_raises_without_result_columns_witness :
  CombinedExcelParser.errors
    (CombinedExcelParser.summary
       (CombinedExcelParser.parse_all_excel_files [Some data_file])) = [] /\
  CombinedSummary.parse_all_excel_files_and_report [Some data_file]
  = Raise "'pass_count'".
Proof.
  apply (NoResultColumnsFacts.summary_raises_without_result_columns
           (Some ("results.xlsx" : text)) sheets "Test Article Log"
           article_sheet).
  - reflexivity.
  - vm_compute. repeat constructor.
  - vm_compute. discriminate.
  - exact article_sheet_no_result_header.
Defined.

Lemma file_without_result_columns_is_skipped_witness :
  ProcessFiles.enhanced_excel_parsing (fun _ => []) (fun _ => [])
    nothing_parsed data_file = nothing_parsed /\
  Dict.keys (DeviationsParser.parse_excel_file (Workbook sheets))
  = ["DEVIATIONS" : text].
Proof.
  split; [|reflexivity].
  apply (NoResultColumnsFacts.file_without_result_columns_is_skipped
           (Some ("results.xlsx" : text)) sheets "Test Article Log"
           article_sheet).
  - reflexivity.
  - vm_compute. repeat constructor.
  - vm_compute. discriminate.
  - exact article_sheet_no_result_header.
Defined.

Lemma records_by_result_are_counted_witness :
  exists sd a,
    _parse_test_article_sheet initial_primary_key Samples.losses_sheet
      "Test Article Log" = Some sd /\
    test_results_analysis sd = Stats a /\
    (Z.of_nat (List.length
                 (TestArticleReport.get_records_by_result
                    [("TEST_ARTICLE_DATA" : text, sd)] "PASS"))
     <= pass_count a /\
     Z.of_nat (List.length
                 (TestArticleReport.get_records_by_result
                    [("TEST_ARTICLE_DATA" : text, sd)] "FAIL"))
     <= fail_count a /\
     Z.of_nat (List.length
                 (TestArticleReport.get_records_by_result
                    [("TEST_ARTICLE_DATA" : text, sd)] "TML"))
     <= test_method_losses a /\
     actual_sample_size a
     <= Z.of_nat (total_units sd)
        - Z.of_nat (List.length
                      (TestArticleReport.get_records_by_result
                         [("TEST_ARTICLE_DATA" : text, sd)] "TML")))%Z.
Proof.
  do 2 eexists. split; [vm_compute; reflexivity|].
  split; [vm_compute; reflexivity|].
  apply (StatisticsFacts.records_by_result_are_counted
           initial_primary_key Samples.losses_sheet "Test Article Log").
  - vm_compute. reflexivity.
  - vm_compute. reflexivity.
Defined.

End ReportWitnesses.

(** ** Tables written and read back *)

Module TableFacts.
Import Markdown MarkdownSpec TableSpec MarkdownFacts.

Lemma fill_row_length cols row : List.length (fill_row cols row) = cols.
Proof.
  unfold fill_row. rewrite length_app, length_firstn, repeat_length. lia.
Qed.

(** X16.  Whatever text it is given, a table that
    convert_markdown_table_to_word builds is rectangular: it has at least one
    column and the header row, every row has exactly as many cells as the
    header, short rows being filled with empty cells and long ones cut, and
    it has fewer rows than the text has lines. *)
Theorem converted_table_is_rectangular (table_text : text) (w : word_table) :
  convert_markdown_table_to_word table_text = Some w ->
  1 <= table_cols w /\
  1 <= List.length (table_rows w)
       < List.length (Py.splitlines (Py.strip table_text)) /\
  forall row, In row (table_rows w) -> List.length row = table_cols w.
Proof.
  unfold convert_markdown_table_to_word. cbv zeta.
  destruct (_ <? 2) eqn:L; [discriminate|].
  destruct (List.length (map Py.strip _) <? 2) eqn:T; [discriminate|].
  destruct (row_cells _) as [|h header] eqn:H; [discriminate|].
  intro E. injection E as <-. cbn [table_cols table_rows].
  apply Nat.ltb_ge in L, T. rewrite length_map in T.
  set (lines := Py.splitlines (Py.strip table_text)) in *.
  split; [cbn [List.length]; lia|]. split.
  - cbn [List.length]. rewrite !length_map. split; [lia|].
    pose proof (filter_length_le
                  (fun line => negb (Py.contains "---" line))
                  (skipn 2 (map Py.strip (filter is_table_line lines)))) as F.
    rewrite length_skipn, length_map in F.
    pose proof (filter_length_le is_table_line lines).
    match goal with
    | |- S (List.length ?x) < _ =>
        assert (G : List.length x <= List.length (filter is_table_line lines) - 2)
          by exact F
    end.
    lia.
  - intros row [<-|Hrow]; [apply fill_row_length|].
    apply in_map_iff in Hrow as (r & <- & _). apply fill_row_length.
Qed.

Lemma converted_table_is_rectangular_witness :
  exists w,
    convert_markdown_table_to_word Samples.results_table = Some w /\
    1 <= table_cols w /\
    1 <= List.length (table_rows w)
         < List.length (Py.splitlines (Py.strip Samples.results_table)) /\
    forall row, In row (table_rows w) -> List.length row = table_cols w.
Proof.
  eexists. split; [vm_compute; reflexivity|].
  apply (converted_table_is_rectangular Samples.results_table).
  vm_compute. reflexivity.
Defined.

(** The conversion of a block of pipe-delimited lines, whatever the number
    of cells of its data rows. *)
Lemma convert_padded_table before after header separator data :
  forallb blank before = true -> forallb blank after = true ->
  header <> [] ->
  row_ok header = true -> row_ok separator = true ->
  forallb row_ok data = true ->
  convert_markdown_table_to_word
    (padded before after (md_table header separator data))
  = Some (WordTable (List.length header)
            (map Py.strip header
             :: map (fun row => fill_row (List.length header) (map Py.strip row))
                    (kept data))).
Proof.
  intros Hb Ha Hne Hh Hs Hd.
  unfold convert_markdown_table_to_word. cbv zeta.
  rewrite strip_padded_table by assumption.
  rewrite md_table_lines by assumption.
  change (md_row header :: md_row separator :: map md_row data)
    with (map md_row (header :: separator :: data)).
  rewrite table_lines_md_rows. cbn [map List.length Nat.ltb Nat.leb nth skipn].
  rewrite kept_lines, row_cells_md_row by assumption.
  destruct header as [|h header]; [congruence|]. cbn [map].
  cbn [List.length]. rewrite length_map. f_equal. f_equal.
  rewrite fill_row_exact by (cbn [List.length]; now rewrite length_map).
  f_equal. rewrite !map_map. apply map_ext_in. intros row Hrow.
  apply kept_In in Hrow. rewrite row_cells_md_row; [reflexivity|].
  rewrite forallb_forall in Hd. now apply Hd.
Qed.

Lemma strip_pad c : Py.strip (pad c) = Py.strip c.
Proof.
  unfold pad, Py.strip.
  rewrite (lstrip_blank_app " " (c ++ " ")) by reflexivity.
  destruct (PyFacts.lstrip_split c) as (w & Hc & Hw).
  rewrite Hc at 1. rewrite <- app_assoc.
  rewrite lstrip_blank_app by exact Hw.
  destruct (Py.lstrip c) as [|x r] eqn:E.
  - reflexivity.
  - rewrite <- app_comm_cons.
    rewrite PyFacts.lstrip_id by (cbn; eapply PyFacts.lstrip_head, E).
    rewrite app_comm_cons. apply rstrip_app_blank. reflexivity.
Qed.

Lemma cell_ok_pad c : cell_ok c = true -> cell_ok (pad c) = true.
Proof.
  intro H. unfold pad, cell_ok. rewrite !forallb_app. cbn [forallb].
  unfold cell_ok in H. now rewrite H.
Qed.

Lemma row_ok_pad row : row_ok row = true -> row_ok (map pad row) = true.
Proof.
  unfold row_ok. induction row as [|c row IH]; [reflexivity|].
  cbn [map forallb]. intro H. apply andb_true_iff in H as [Hc H].
  now rewrite cell_ok_pad, IH.
Qed.

Ltac flatten :=
  cbn [list_ascii_of_string app];
  repeat (rewrite <- app_assoc; cbn [app]).

Lemma line_tail l : forall x,
  " " ++ Py.join " | " (x :: l) ++ " |" = pad x ++ md_row (map pad l).
Proof.
  induction l as [|y l IH]; intro x.
  - unfold pad, md_row. cbn [Py.join map List.concat]. now flatten.
  - specialize (IH y).
    change (Py.join " | " (x :: y :: l))
      with (x ++ " | " ++ Py.join " | " (y :: l)).
    cbn [map]. unfold md_row in *. cbn [map List.concat]. unfold pad at 1 2.
    unfold pad at 1 in IH.
    flatten. do 2 f_equal.
    revert IH. flatten. intro IH. cbn [app] in IH.
    do 2 f_equal. exact IH.
Qed.

Lemma line_md_row row : row <> [] -> line row = md_row (map pad row).
Proof.
  destruct row as [|x l]; [congruence|]. intros _. unfold line.
  pose proof (line_tail l x) as H. unfold md_row in *.
  cbn [map List.concat]. revert H. flatten. intros ->. reflexivity.
Qed.

Lemma join_lines_end x l :
  Py.join [Py.LF] (x :: l) ++ [Py.LF]
  = List.concat (map (fun r => r ++ [Py.LF]) (x :: l)).
Proof.
  revert x. induction l as [|y l IH]; intro x.
  - cbn. now rewrite app_nil_r.
  - change (Py.join [Py.LF] (x :: y :: l))
      with (x ++ [Py.LF] ++ Py.join [Py.LF] (y :: l)).
    rewrite <- !app_assoc, IH. cbn [map List.concat].
    now rewrite <- !app_assoc.
Qed.

Lemma join_pipes_end l : forall x,
  Py.join "|" (x :: l) ++ "|" = x ++ md_row l.
Proof.
  induction l as [|y l IH]; intro x.
  - reflexivity.
  - change (Py.join "|" (x :: y :: l)) with (x ++ "|" ++ Py.join "|" (y :: l)).
    rewrite <- !app_assoc, IH. unfold md_row. cbn [map List.concat].
    now flatten.
Qed.

Lemma separator_md_row l :
  l <> [] -> "|" ++ Py.join "|" l ++ "|" = md_row l.
Proof.
  destruct l as [|x l]; [congruence|]. intros _. rewrite join_pipes_end.
  unfold md_row. cbn [map List.concat]. now flatten.
Qed.

Lemma lines_md_rows rows :
  (forall row, In row rows -> row <> []) ->
  map (fun row => line row ++ [Py.LF]) rows
  = map (fun r => r ++ [Py.LF]) (map md_row (map (map pad) rows)).
Proof.
  intro H. rewrite !map_map. apply map_ext_in. intros row Hrow.
  now rewrite line_md_row by now apply H.
Qed.

Definition dashes (headers : list text) : list text :=
  map (fun _ => " --- " : text) headers.

Lemma format_is_padded headers rows :
  headers <> [] ->
  (forall row, In row rows -> row <> []) ->
  _format_word_table headers rows
  = padded [[]] [[]; []]
      (md_table (map pad headers) (dashes headers) (map (map pad) rows)).
Proof.
  intros Hh Hrows. unfold _format_word_table. cbv zeta.
  assert (E1 : "| " ++ Py.join " | " headers ++ " |" ++ [Py.LF]
               = md_row (map pad headers) ++ [Py.LF]).
  { rewrite <- line_md_row by exact Hh. unfold line. now flatten. }
  assert (E2 : "|" ++ Py.join "|" (map (fun _ => " --- " : text) headers)
                   ++ "|" ++ [Py.LF]
               = md_row (dashes headers) ++ [Py.LF]).
  { unfold dashes. rewrite <- separator_md_row
      by (destruct headers; [congruence|discriminate]).
    now flatten. }
  transitivity
    ([Py.LF]
     ++ List.concat
          (map (fun r => r ++ [Py.LF])
               (md_row (map pad headers) :: md_row (dashes headers)
                :: map md_row (map (map pad) rows)))
     ++ [Py.LF]).
  - cbn [map List.concat]. rewrite <- (lines_md_rows rows Hrows).
    replace (map (fun row => "| " ++ Py.join " | " row ++ " |" ++ [Py.LF]) rows)
      with (map (fun row => line row ++ [Py.LF]) rows)
      by (apply map_ext; intro row; unfold line; now flatten).
    rewrite E1, E2. cbn [map List.concat]. now flatten.
  - rewrite <- join_lines_end. unfold padded, md_table.
    cbn [map List.concat app]. rewrite ?app_nil_r. now flatten.
Qed.

Lemma dashes_ok headers :
  headers <> [] -> separator_ok (dashes headers) = true.
Proof.
  destruct headers as [|h headers]; [congruence|]. intros _.
  unfold separator_ok. apply andb_true_iff. split.
  - unfold dashes, row_ok. apply forallb_forall. intros c Hc.
    apply in_map_iff in Hc as (x & <- & _). reflexivity.
  - reflexivity.
Qed.

Lemma map_strip_pad row : map Py.strip (map pad row) = map Py.strip row.
Proof. rewrite map_map. apply map_ext. intro c. apply strip_pad. Qed.

Lemma kept_all data :
  (forall row, In row data -> Py.contains "---" (md_row row) = false) ->
  kept data = data.
Proof.
  unfold kept. induction data as [|r data IH]; intro H; [reflexivity|].
  cbn [filter]. rewrite (H r) by now left. cbn [negb]. f_equal.
  apply IH. intros; apply H; now right.
Qed.

Lemma rows_ok_pad rows :
  forallb row_ok rows = true -> forallb row_ok (map (map pad) rows) = true.
Proof.
  induction rows as [|r rows IH]; [reflexivity|]. cbn [map forallb].
  intro H. apply andb_true_iff in H as [Hr H]. now rewrite row_ok_pad, IH.
Qed.

(** X17.  The table the test-result summary writes is read back as
    written: for headers and rows of cells without pipes and line feeds, no
    row holding a run of three dashes, the text of _format_word_table is
    detected as a markdown table and converted to a table with one column per
    header, the header row and every data row in order, each cell trimmed, a
    short row filled with empty cells and a long one cut. *)
Theorem format_word_table_is_read_back
    (headers : list text) (rows : list (list text)) :
  headers <> [] ->
  (forall row, In row rows -> row <> []) ->
  row_ok headers = true -> forallb row_ok rows = true ->
  (forall row, In row rows -> Py.contains "---" (line row) = false) ->
  let content := _format_word_table headers rows in
  contains_markdown_table content = true /\
  convert_markdown_table_to_word content
  = Some (WordTable (List.length headers)
            (map Py.strip headers
             :: map (fun row => fill_row (List.length headers)
                                         (map Py.strip row)) rows)).
Proof.
  intros Hh Hne Hok Hrows Hdash content. unfold content.
  rewrite format_is_padded by assumption.
  assert (Hs : separator_ok (dashes headers) = true) by now apply dashes_ok.
  assert (Hsr : row_ok (dashes headers) = true).
  { unfold separator_ok in Hs. now apply andb_true_iff in Hs as [Hs _]. }
  split.
  - apply contains_padded_table;
      [now apply row_ok_pad|exact Hs|now apply rows_ok_pad].
  - rewrite convert_padded_table;
      [|reflexivity|reflexivity|destruct headers; [congruence|discriminate]
       |now apply row_ok_pad|exact Hsr|now apply rows_ok_pad].
    rewrite length_map, map_strip_pad. do 3 f_equal.
    rewrite kept_all.
    + rewrite map_map. apply map_ext. intro row. now rewrite map_strip_pad.
    + intros row Hrow. apply in_map_iff in Hrow as (r & <- & Hr).
      rewrite <- line_md_row by now apply Hne. now apply Hdash.
Qed.

Lemma format_word_table_is_read_back_witness :
  convert_markdown_table_to_word
    (_format_word_table ["REQ ID" : text; "Result" : text]
                        [["R-1" : text; "PASS" : text]; ["R-2" : text]])
  = Some (WordTable 2 [["REQ ID" : text; "Result" : text];
                       ["R-1" : text; "PASS" : text];
                       ["R-2" : text; []]]).
Proof.
  apply (format_word_table_is_read_back
           ["REQ ID" : text; "Result" : text]
           [["R-1" : text; "PASS" : text]; ["R-2" : text]]).
  - discriminate.
  - intros row [<-|[<-|[]]]; discriminate.
  - reflexivity.
  - reflexivity.
  - intros row [<-|[<-|[]]]; reflexivity.
Defined.

(** *** The chronology *)

Import ReportTables.

Definition chronology_dashes : list text :=
  [ "------" : text; "------------" : text; "----------" : text;
    "----------" : text ].

Lemma chronology_fold data : forall table_content,
  fold_left (fun table_content item => table_content ++ chronology_row item)
            data table_content
  = table_content ++ List.concat (map chronology_row data).
Proof.
  induction data as [|item data IH]; intro tc; cbn [fold_left map List.concat].
  - now rewrite app_nil_r.
  - rewrite IH. now rewrite <- app_assoc.
Qed.

Lemma chronology_row_line item :
  chronology_row item = line (chronology_cells item) ++ [Py.LF].
Proof.
  unfold chronology_row, chronology_cells, line. cbv zeta.
  cbn [Py.join]. now flatten.
Qed.

Lemma chronology_is_table item data :
  create_test_execution_chronology (item :: data)
  = md_table (map pad chronology_header) chronology_dashes
             (map (map pad) (map chronology_cells (item :: data))).
Proof.
  unfold create_test_execution_chronology. rewrite chronology_fold.
  rewrite <- (strip_padded_table [[]] [[]]) by reflexivity.
  f_equal.
  assert (Eh : chronology_head
               = [Py.LF] ++ (md_row (map pad chronology_header) ++ [Py.LF])
                 ++ (md_row chronology_dashes ++ [Py.LF])) by reflexivity.
  transitivity
    ([Py.LF]
     ++ List.concat
          (map (fun r => r ++ [Py.LF])
               (md_row (map pad chronology_header) :: md_row chronology_dashes
                :: map md_row
                     (map (map pad) (map chronology_cells (item :: data)))))).
  - rewrite Eh.
    replace (map chronology_row (item :: data))
      with (map (fun row => line row ++ [Py.LF])
                (map chronology_cells (item :: data)))
      by (rewrite map_map; apply map_ext; intro i;
          now rewrite chronology_row_line).
    rewrite lines_md_rows
      by (intros row Hrow; apply in_map_iff in Hrow as (i & <- & _);
          discriminate).
    cbn [map List.concat]. now flatten.
  - rewrite <- join_lines_end. unfold padded, md_table.
    cbn [map List.concat app]. rewrite ?app_nil_r. now flatten.
Qed.

(** X18.  The chronology table is read back as entered: for items whose
    trimmed fields hold no pipe, no line feed and no run of three dashes, the
    text of create_test_execution_chronology is detected as a markdown table
    and converted to a table of four columns, the header row followed by one
    row per item with its trimmed step, start date, end date and location, a
    missing field giving an empty cell; with no item at all the table has the
    header row and one row of empty cells. *)
Theorem chronology_is_read_back (chronology_data : list (Dict.dict text)) :
  (forall item, In item chronology_data ->
     row_ok (chronology_cells item) = true /\
     Py.contains "---" (line (chronology_cells item)) = false) ->
  let content := create_test_execution_chronology chronology_data in
  contains_markdown_table content = true /\
  convert_markdown_table_to_word content
  = Some (WordTable 4
            (chronology_header
             :: match chronology_data with
                | [] => [[[]; []; []; []]]
                | _ => map chronology_cells chronology_data
                end)).
Proof.
  intros H content. unfold content.
  destruct chronology_data as [|item data]; [split; reflexivity|].
  rewrite chronology_is_table.
  set (cells := map chronology_cells (item :: data)).
  assert (Hok : forallb row_ok (map (map pad) cells) = true).
  { apply rows_ok_pad. apply forallb_forall. intros row Hrow.
    apply in_map_iff in Hrow as (i & <- & Hi). now apply H. }
  replace (md_table (map pad chronology_header) chronology_dashes
                    (map (map pad) cells))
    with (padded [] [] (md_table (map pad chronology_header) chronology_dashes
                                 (map (map pad) cells)))
    by (unfold padded; cbn [map List.concat app]; apply app_nil_r).
  split.
  - apply contains_padded_table; [reflexivity|reflexivity|exact Hok].
  - rewrite convert_padded_table;
      [|reflexivity|reflexivity|discriminate|reflexivity|reflexivity|exact Hok].
    change (List.length (map pad chronology_header)) with 4.
    change (map Py.strip (map pad chronology_header)) with chronology_header.
    do 3 f_equal. rewrite kept_all.
    + unfold cells. rewrite !map_map. apply map_ext. intro i.
      rewrite map_strip_pad. unfold chronology_cells. cbn [map].
      rewrite !PyFacts.strip_idem. reflexivity.
    + intros row Hrow. apply in_map_iff in Hrow as (r & <- & Hr).
      apply in_map_iff in Hr as (i & <- & Hi).
      rewrite <- line_md_row by discriminate. now apply H.
Qed.

Lemma chronology_is_read_back_witness :
  convert_markdown_table_to_word
    (create_test_execution_chronology
       [ [("step" : text, " Soak " : text);
          ("start_date" : text, "2024-01-02" : text);
          ("location" : text, "Lab 2" : text)] ])
  = Some (WordTable 4
            [ chronology_header;
              ["Soak" : text; "2024-01-02" : text; []; "Lab 2" : text] ]).
Proof.
  apply (chronology_is_read_back
           [ [("step" : text, " Soak " : text);
              ("start_date" : text, "2024-01-02" : text);
              ("location" : text, "Lab 2" : text)] ]).
  intros item [<-|[]]. split; reflexivity.
Defined.

End TableFacts.

(** ** Data rows the conversion loses *)

Module MarkdownRowsFacts.
Import Markdown MarkdownSpec MarkdownFacts.

Lemma filter_drops {A} (p : A -> bool) (l : list A) (x : A) :
  In x l -> p x = false -> List.length (filter p l) < List.length l.
Proof.
  induction l as [|y l IH]; intros Hin Hp; [destruct Hin|].
  cbn [filter List.length]. destruct Hin as [->|Hin].
  - rewrite Hp. pose proof (filter_length_le p l). lia.
  - specialize (IH Hin Hp). destruct (p y); cbn [List.length]; lia.
Qed.

Lemma filter_holds {A} (p : A -> bool) (l : list A) (x : A) :
  In x l -> p x = true -> 1 <= List.length (filter p l).
Proof.
  intros Hin Hp.
  assert (H : In x (filter p l)) by (apply filter_In; now split).
  destruct (filter p l); [destruct H|cbn [List.length]; lia].
Qed.

(** C5.  The conversion loses data rows.  Of a well-formed markdown table
    block, header row, separator row and N data rows of as many cells as the
    header, alone or between blank lines, the table built has the header and
    only those data rows whose line holds no run of three dashes, each cell
    trimmed.  So whenever a data row holds three dashes in a cell, the block
    is detected as a table and converted to a table with the right number of
    columns and fewer than N + 1 rows: that row is skipped as if it were a
    separator line. *)
Theorem dashes_data_row_is_dropped
    (before after : list text) (header separator : list text)
    (data : list (list text)) (row : list text) :
  forallb blank before = true -> forallb blank after = true ->
  header <> [] ->
  row_ok header = true -> row_ok separator = true ->
  forallb row_ok data = true ->
  (forall r, In r data -> List.length r = List.length header) ->
  In row data -> Py.contains "---" (md_row row) = true ->
  let content := padded before after (md_table header separator data) in
  contains_markdown_table content = true /\
  exists t,
    convert_markdown_table_to_word content = Some t /\
    table_cols t = List.length header /\
    table_rows t = map Py.strip header :: map (map Py.strip) (kept data) /\
    ~ In row (kept data) /\
    List.length (table_rows t) < List.length data + 1.
Proof.
  intros Hb Ha Hne Hh Hs Hd Hlen Hrow Hdash content.
  split.
  - unfold content, contains_markdown_table. cbv zeta.
    destruct (splitlines_padded before after (md_table header separator data))
      as (pre & post & ->).
    rewrite md_table_lines by assumption.
    apply andb_true_iff. split; apply Nat.leb_le.
    + eapply Nat.le_trans; [|apply filter_length_middle].
      cbn [filter]. rewrite !has_pipe_md_row. cbn [List.length]. lia.
    + eapply Nat.le_trans; [|apply filter_length_middle].
      apply (filter_holds _ _ (md_row row)).
      * right. right. now apply in_map.
      * now rewrite Hdash.
  - exists (WordTable (List.length header)
                      (map Py.strip header :: map (map Py.strip) (kept data))).
    split; [|split; [|split; [|split]]].
    + unfold content, convert_markdown_table_to_word. cbv zeta.
      rewrite strip_padded_table by assumption.
      rewrite md_table_lines by assumption.
      change (md_row header :: md_row separator :: map md_row data)
        with (map md_row (header :: separator :: data)).
      rewrite table_lines_md_rows.
      cbn [map List.length Nat.ltb Nat.leb nth skipn].
      rewrite kept_lines, row_cells_md_row by assumption.
      destruct header as [|h header]; [congruence|]. cbn [map].
      cbn [List.length]. rewrite length_map. f_equal. f_equal.
      rewrite fill_row_exact by (cbn [List.length]; now rewrite length_map).
      f_equal. rewrite !map_map. apply map_ext_in. intros r Hr.
      apply kept_In in Hr. rewrite row_cells_md_row.
      * apply fill_row_exact. rewrite length_map. rewrite (Hlen r Hr).
        reflexivity.
      * rewrite forallb_forall in Hd. now apply Hd.
    + reflexivity.
    + reflexivity.
    + unfold kept. intro Hin. apply filter_In in Hin as [_ Hp].
      rewrite Hdash in Hp. discriminate.
    + cbn [table_rows List.length]. rewrite !length_map.
      assert (Hk : List.length (kept data) < List.length data).
      { unfold kept. apply (filter_drops _ _ row Hrow). now rewrite Hdash. }
      lia.
Qed.

Lemma dashes_data_row_is_dropped_witness :
  let content :=
    padded [] [] (md_table [" Item " : text; " Value " : text]
                           [" --- " : text; " --- " : text]
                           [[" Lot " : text; " --- " : text]]) in
  content = Samples.dashes_table /\
  contains_markdown_table content = true /\
  convert_markdown_table_to_word content
  = Some (WordTable 2 [["Item" : text; "Value" : text]]).
Proof.
  cbv zeta. split; [reflexivity|].
  destruct (dashes_data_row_is_dropped
              [] [] [" Item " : text; " Value " : text]
              [" --- " : text; " --- " : text]
              [[" Lot " : text; " --- " : text]]
              [" Lot " : text; " --- " : text])
    as (Hc & t & Ht & Hcols & Hrows & _ & _).
  - reflexivity.
  - reflexivity.
  - discriminate.
  - reflexivity.
  - reflexivity.
  - reflexivity.
  - intros r [<-|[]]. reflexivity.
  - left. reflexivity.
  - reflexivity.
  - split; [exact Hc|]. rewrite Ht. destruct t as [cols rows].
    cbn [table_rows table_cols] in Hrows, Hcols. subst rows cols. reflexivity.
Defined.

(** A block whose separator row holds neither three dashes nor a pipe
    followed by a dash, and no other line does, is not detected as a table
    at all. *)
Example alignment_separator_is_not_detected :
  contains_markdown_table
    (md_table [" Item " : text; " Value " : text]
              [" :-- " : text; " --: " : text]
              [[" Lot " : text; " 7 " : text]])
  = false.
Proof. vm_compute. reflexivity. Qed.

End MarkdownRowsFacts.
